(** * FlagImage: the flag evaluation engine and its settings migration

    A shallow embedding of [cellprofiler/modules/flagimage.py]: the
    criterion evaluator ([eval_measurement]), the flag aggregator
    ([run_flag]), rule validation ([validate_module], [get_rules]) and the
    settings migrator ([upgrade_settings], [prepare_settings]).

    Python values are modelled as follows: setting values are strings,
    measurements are IEEE binary64 numbers (the kernel's primitive floats),
    exceptions are values of [exn] threaded through the [res] monad, the
    measurement store and the file system are finite maps. *)

From Stdlib Require Import ZArith Ascii String List Floats Uint63 DecimalString.
From Stdlib Require Import DecimalPos.
From stdpp Require Import base option list strings gmap.

Local Open Scope string_scope.
Local Open Scope list_scope.
Local Open Scope Z_scope.

(** ** Exceptions *)

(** The second argument of [cps.ValidationError]: [get_rules] passes the
    file name (a string), [validate_module] passes the
    [rules_file_name] setting of a measurement group, identified here by
    the position of the group (flag index, measurement index). *)
Inductive setting_ref :=
| RefValue (s : string)
| RulesFileNameSetting (flag_idx meas_idx : nat).

Inductive exn :=
| IndexError
| ValueError (msg : string)
| KeyError (msg : string)
| NotImplementedError (msg : string)
| ValidationError (msg : string) (setting : setting_ref)
| ExternalError (msg : string).

Inductive res (A : Type) :=
| Ok (a : A)
| Raise (e : exn).
Arguments Ok {A} a.
Arguments Raise {A} e.

Global Instance res_ret : MRet res := fun _ a => Ok a.
Global Instance res_bind : MBind res := fun _ _ f m =>
  match m with
  | Ok a => f a
  | Raise e => Raise e
  end.

(** [str(instance)] for an exception. *)
Definition exn_str (e : exn) : string :=
  match e with
  | IndexError => "list index out of range"
  | ValueError msg => msg
  | KeyError msg => msg
  | NotImplementedError msg => msg
  | ValidationError msg _ => msg
  | ExternalError msg => msg
  end.


(** ** Python built-ins used by the module *)

Module Py.

(** [l[i]] for a non-negative index. *)
Definition index {A} (l : list A) (i : nat) : res A :=
  match l !! i with
  | Some x => Ok x
  | None => Raise IndexError
  end.

(** [l[a:b]] for non-negative bounds: never raises, truncates at the
    end of the list. *)
Definition slice {A} (l : list A) (a b : nat) : list A :=
  take (b - a) (drop a l).

Definition is_space (c : ascii) : bool :=
  match N_of_ascii c with
  | 32%N | 9%N | 10%N | 11%N | 12%N | 13%N => true
  | _ => false
  end.

Definition digit_value (c : ascii) : option Z :=
  let n := N_of_ascii c in
  if ((48 <=? n) && (n <=? 57))%N then Some (Z.of_N n - 48) else None.

Fixpoint lstrip (l : list ascii) : list ascii :=
  match l with
  | c :: r => if is_space c then lstrip r else l
  | [] => []
  end.

Definition strip (l : list ascii) : list ascii :=
  rev (lstrip (rev (lstrip l))).

Fixpoint digits (acc : Z) (l : list ascii) : option Z :=
  match l with
  | [] => Some acc
  | c :: r =>
      match digit_value c with
      | Some d => digits (10 * acc + d) r
      | None => None
      end
  end.

Definition unsigned (l : list ascii) : option Z :=
  match l with
  | [] => None
  | _ => digits 0 l
  end.

(** [int(s)] on a string: surrounding white space, an optional sign and
    decimal digits; anything else is a [ValueError]. *)
Definition int (s : string) : res Z :=
  let bad := Raise (ValueError
               ("invalid literal for int() with base 10: '" +:+ s +:+ "'")) in
  match strip (list_ascii_of_string s) with
  | "+"%char :: r =>
      match unsigned r with Some z => Ok z | None => bad end
  | "-"%char :: r =>
      match unsigned r with Some z => Ok (- z) | None => bad end
  | l =>
      match unsigned l with Some z => Ok z | None => bad end
  end.

(** [range(n)] runs [Z.to_nat n] times (not at all for a negative [n]). *)
Definition range_len (n : Z) : nat := Z.to_nat n.

(** [sep.join(parts)]. *)
Fixpoint join (sep : string) (parts : list string) : string :=
  match parts with
  | [] => ""
  | [p] => p
  | p :: rest => p +:+ sep +:+ join sep rest
  end.

(** [s.find(c)] for a one-character needle: first position or -1. *)
Fixpoint find_from (c : ascii) (s : string) (pos : Z) : Z :=
  match s with
  | EmptyString => -1
  | String d r => if Ascii.eqb c d then pos else find_from c r (pos + 1)
  end.
Definition find (s : string) (c : ascii) : Z := find_from c s 0.

(** [s[:k]] and [s[k:]] for a non-negative [k]. *)
Definition upto (s : string) (k : Z) : string :=
  String.substring 0 (Z.to_nat k) s.
Definition from (s : string) (k : Z) : string :=
  String.substring (Z.to_nat k) (String.length s - Z.to_nat k) s.

(** [s.startswith(p)]. *)
Definition startswith (s p : string) : bool := String.prefix p s.

(** ["%d" % n]. *)
Definition fmt_d (n : Z) : string :=
  DecimalString.NilZero.string_of_int (Z.to_int n).

End Py.

(** ** Module constants *)

Definition C_ANY := "Flag if any fail".
Definition C_ALL := "Flag if all fail".

Definition S_IMAGE := "Whole-image measurement".
Definition S_AVERAGE_OBJECT :=
  "Average measurement for all objects in each image".
Definition S_ALL_OBJECTS := "Measurements for all objects in each image".
Definition S_RULES := "Rules".
Definition S_ALL := [S_IMAGE; S_AVERAGE_OBJECT; S_ALL_OBJECTS; S_RULES].

(** Number of settings in the module, aside from those in the flags *)
Definition N_FIXED_SETTINGS : nat := 1.
(** Number of settings in each flag, aside from those in the measurements *)
Definition N_FIXED_SETTINGS_PER_FLAG : nat := 5.
Definition N_SETTINGS_PER_MEASUREMENT_V2 : nat := 7.
Definition N_SETTINGS_PER_MEASUREMENT_V3 : nat := 9.
(** Number of settings per measurement *)
Definition N_SETTINGS_PER_MEASUREMENT : nat := 10.

(** ** External collaborators

    [cellprofiler.settings] (cps), [cellprofiler.measurements] (cpmeas),
    [cellprofiler.utilities.rules] (cprules), [os.path] and numpy are
    imported by the module but are not part of it: their constants and
    functions are parameters of the development. *)

(** A rule of a rules file, as [validate_module] and the class chooser
    read it. *)
Record Rule := {
  rule_object_name : string;
  rule_feature : string;
  rule_weights : list (list float)
}.

(** [cprules.Rules]: the parsed rule set, [rules.rules]. *)
Record Rules := { rules : list Rule }.

(** A value of the measurement store: numbers written by measurement
    modules are floats, a flag is written as an integer. *)
Inductive mval :=
| MInt (z : Z)
| MFloat (f : float).

(** Modelled from the spec: the measurement store
    ([cellprofiler.measurements.Measurements]) of the current image set,
    "queried via a simple key lookup interface": scalars per image
    feature, vectors per (object, feature). *)
Record Measurements := {
  image_measurements : gmap string mval;
  object_measurements : gmap (string * string) (list float)
}.

(** A two-dimensional numpy array of floats:
    [shape = (length rows, ncols)]. *)
Record matrix := {
  ncols : nat;
  rows : list (list float)
}.

Class Externals := {
  (** [cps.YES], [cps.NO], [cps.NONE] *)
  cps_YES : string;
  cps_NO : string;
  cps_NONE : string;
  (** [cps.DirectoryPath.static_join_string(cps.DEFAULT_INPUT_FOLDER_NAME,
      cps.NONE)] *)
  default_rules_location : string;
  (** [cpmeas.IMAGE] *)
  cpmeas_IMAGE : string;
  (** [os.path.join] *)
  os_path_join : string -> string -> string;
  (** [cprules.Rules().parse(path)], as a function of the file's content *)
  rules_parse : string -> res Rules;
  (** [rules.score(measurements)]: one row per object, one column per
      class *)
  rules_score : Rules -> Measurements -> res matrix;
  (** [np.mean], [np.min], [np.max] on a non-empty vector *)
  np_mean : list float -> float;
  np_min : list float -> float;
  np_max : list float -> float;
  (** [str(round(v, 3))], [str(v)] and ["%.3f - %.3f" % (a, b)] *)
  str_round3 : float -> string;
  str_float : float -> string;
  fmt_range : float -> float -> string
}.

(** ** The settings migrator *)

Section Migration.
Context `{Externals}.

(** The legacy-import branch: [from_matlab] with revision 1 or 2. *)
Definition unpack_matlab (setting_values : list string)
    (variable_revision_number : Z) : res (list string) :=
  '(measurement_name, min_value, max_value, new_or_append, new_name) ←
    (if variable_revision_number =? 1 then
       match setting_values with
       | [image_name; category; feature_num_or_name; min_value; max_value;
          new_or_append; new_name; old_name] =>
           Ok (Py.join "_" [category; feature_num_or_name; image_name],
               min_value, max_value, new_or_append, new_name)
       | _ => Raise (ValueError "wrong number of values to unpack")
       end
     else
       match setting_values with
       | [image_name; category; feature_num_or_name; scale; min_value;
          max_value; new_or_append; new_name; old_name] =>
           Ok (Py.join "_" [category; feature_num_or_name; image_name;
                            scale],
               min_value, max_value, new_or_append, new_name)
       | _ => Raise (ValueError "wrong number of values to unpack")
       end);
  let '(wants_minimum, min_value) :=
    if String.eqb min_value "No minimum" then (cps_NO, "0")
    else (cps_YES, min_value) in
  let '(wants_maximum, max_value) :=
    if String.eqb max_value "No maximum" then (cps_NO, "1")
    else (cps_YES, max_value) in
  let new_name_split := Py.find new_name "_" in
  let '(flag_category, flag_feature) :=
    if new_name_split =? -1 then ("Metadata", new_name)
    else (Py.upto new_name new_name_split,
          Py.from new_name (new_name_split + 1)) in
  Ok ["1"; "1"; flag_category; flag_feature; C_ANY; S_IMAGE; cps_NONE;
      measurement_name; wants_minimum; min_value; wants_maximum;
      max_value].

(** The renaming of the measurement source in revision 1. *)
Definition rename_source (measurement_source : string) : string :=
  if Py.startswith measurement_source "Measurement for all"
     || String.eqb measurement_source "All objects"
  then S_ALL_OBJECTS
  else if String.eqb measurement_source "Average for objects"
  then S_AVERAGE_OBJECT
  else if String.eqb measurement_source "Image"
  then S_IMAGE
  else measurement_source.

(** The state of the nested loops: [(new_setting_values, idx)]. *)
Definition loop_state : Type := list string * nat.

(** [for meas_idx in range(meas_count)] of the revision-1 block. *)
Fixpoint v1_measurements (setting_values : list string) (meas_count : nat)
    (st : loop_state) : res loop_state :=
  match meas_count with
  | O => Ok st
  | S k =>
      let '(new_setting_values, idx) := st in
      measurement_source ← Py.index setting_values idx;
      let measurement_source := rename_source measurement_source in
      let new_setting_values := new_setting_values ++ [measurement_source] in
      let new_setting_values :=
        new_setting_values ++ Py.slice setting_values (idx + 1) (idx + 7) in
      v1_measurements setting_values k (new_setting_values, (idx + 7)%nat)
  end.

(** [for flag_idx in range(int(setting_values[0]))] of the revision-1
    block. *)
Fixpoint v1_flags (setting_values : list string) (flag_count : nat)
    (st : loop_state) : res loop_state :=
  match flag_count with
  | O => Ok st
  | S k =>
      let '(new_setting_values, idx) := st in
      let new_setting_values :=
        new_setting_values ++ Py.slice setting_values idx (idx + 4)
                           ++ [cps_NO] in
      meas_count ← Py.index setting_values idx ≫= Py.int;
      let idx := (idx + 4)%nat in
      st' ← v1_measurements setting_values (Py.range_len meas_count)
            (new_setting_values, idx);
      v1_flags setting_values k st'
  end.

Definition upgrade_v1 (setting_values : list string) : res (list string) :=
  first ← Py.index setting_values 0;
  let new_setting_values := [first] in
  flag_count ← Py.index setting_values 0 ≫= Py.int;
  st ← v1_flags setting_values (Py.range_len flag_count)
         (new_setting_values, 1%nat);
  Ok st.1.

(** The revision-2 block ("Added rules"). *)
Fixpoint v2_measurements (setting_values : list string) (meas_count : nat)
    (st : loop_state) : res loop_state :=
  match meas_count with
  | O => Ok st
  | S k =>
      let '(new_setting_values, idx) := st in
      measurement_source ← Py.index setting_values idx;
      let new_setting_values := new_setting_values ++ [measurement_source] in
      let new_setting_values :=
        new_setting_values
        ++ (Py.slice setting_values (idx + 1)
              (idx + N_SETTINGS_PER_MEASUREMENT_V2)
            ++ [default_rules_location; "rules.txt"]) in
      v2_measurements setting_values k
        (new_setting_values, (idx + N_SETTINGS_PER_MEASUREMENT_V2)%nat)
  end.

Fixpoint v2_flags (setting_values : list string) (flag_count : nat)
    (st : loop_state) : res loop_state :=
  match flag_count with
  | O => Ok st
  | S k =>
      let '(new_setting_values, idx) := st in
      let new_setting_values :=
        new_setting_values
        ++ Py.slice setting_values idx (idx + N_FIXED_SETTINGS_PER_FLAG) in
      meas_count ← Py.index setting_values idx ≫= Py.int;
      let idx := (idx + N_FIXED_SETTINGS_PER_FLAG)%nat in
      st' ← v2_measurements setting_values (Py.range_len meas_count)
            (new_setting_values, idx);
      v2_flags setting_values k st'
  end.

Definition upgrade_v2 (setting_values : list string) : res (list string) :=
  first ← Py.index setting_values 0;
  let new_setting_values := [first] in
  flag_count ← Py.index setting_values 0 ≫= Py.int;
  st ← v2_flags setting_values (Py.range_len flag_count)
         (new_setting_values, 1%nat);
  Ok st.1.

(** The revision-3 block ("Added rules_class"). *)
Fixpoint v3_measurements (setting_values : list string) (meas_count : nat)
    (st : loop_state) : res loop_state :=
  match meas_count with
  | O => Ok st
  | S k =>
      let '(new_setting_values, idx) := st in
      let new_setting_values :=
        new_setting_values
        ++ Py.slice setting_values idx
             (idx + N_SETTINGS_PER_MEASUREMENT_V3) in
      let new_setting_values := new_setting_values ++ ["1"] in
      v3_measurements setting_values k
        (new_setting_values, (idx + N_SETTINGS_PER_MEASUREMENT_V3)%nat)
  end.

Fixpoint v3_flags (setting_values : list string) (flag_count : nat)
    (st : loop_state) : res loop_state :=
  match flag_count with
  | O => Ok st
  | S k =>
      let '(new_setting_values, idx) := st in
      let new_setting_values :=
        new_setting_values
        ++ Py.slice setting_values idx (idx + N_FIXED_SETTINGS_PER_FLAG) in
      meas_count ← Py.index setting_values idx ≫= Py.int;
      let idx := (idx + N_FIXED_SETTINGS_PER_FLAG)%nat in
      st' ← v3_measurements setting_values (Py.range_len meas_count)
            (new_setting_values, idx);
      v3_flags setting_values k st'
  end.

Definition upgrade_v3 (setting_values : list string) : res (list string) :=
  let new_setting_values := Py.slice setting_values 0 1 in
  flag_count ← Py.index setting_values 0 ≫= Py.int;
  st ← v3_flags setting_values (Py.range_len flag_count)
         (new_setting_values, 1%nat);
  Ok st.1.

(** [upgrade_settings]: the four [if] blocks in sequence, each one
    rebinding [setting_values], [variable_revision_number] and
    [from_matlab]. *)
Definition upgrade_settings (setting_values : list string)
    (variable_revision_number : Z) (module_name : string)
    (from_matlab : bool) : res (list string * Z * bool) :=
  '(setting_values, variable_revision_number, from_matlab) ←
    (if from_matlab && ((variable_revision_number =? 1)
                        || (variable_revision_number =? 2))
     then sv ← unpack_matlab setting_values variable_revision_number;
          Ok (sv, 1, false)
     else Ok (setting_values, variable_revision_number, from_matlab));
  '(setting_values, variable_revision_number) ←
    (if negb from_matlab && (variable_revision_number =? 1)
     then sv ← upgrade_v1 setting_values; Ok (sv, 2)
     else Ok (setting_values, variable_revision_number));
  '(setting_values, variable_revision_number) ←
    (if negb from_matlab && (variable_revision_number =? 2)
     then sv ← upgrade_v2 setting_values; Ok (sv, 3)
     else Ok (setting_values, variable_revision_number));
  '(setting_values, variable_revision_number) ←
    (if negb from_matlab && (variable_revision_number =? 3)
     then sv ← upgrade_v3 setting_values; Ok (sv, 4)
     else Ok (setting_values, variable_revision_number));
  Ok (setting_values, variable_revision_number, from_matlab).

End Migration.

(** ** The measurement store, the file system and the workspace *)

(** Modelled from the spec: the pipeline disposition signal
    ([cellprofiler.workspace]), "one of CONTINUE, SKIP_REMAINDER". *)
Inductive Disposition :=
| DISPOSITION_CONTINUE
| DISPOSITION_SKIP.

Record Workspace := {
  measurements : Measurements;
  disposition : Disposition
}.

(** The files on disk: path to content. [os.path.isfile(path)] holds when
    the path is bound. *)
Definition FileSystem : Type := gmap string string.

(** A number read from the store, as the float Python compares it as
    (exact for integers below 2^53 in magnitude). *)
Definition float_of_Z (z : Z) : float :=
  if z <? 0 then PrimFloat.opp (PrimFloat.of_uint63 (Uint63.of_Z (- z)))
  else PrimFloat.of_uint63 (Uint63.of_Z z).

Definition mval_float (v : mval) : float :=
  match v with
  | MInt z => float_of_Z z
  | MFloat f => f
  end.

(** Modelled from the spec: [get_scalar(measurement_name)] of the store,
    [m.get_current_image_measurement]; a missing measurement "surfaces as
    a lookup failure to the caller". *)
Definition get_current_image_measurement (m : Measurements)
    (feature_name : string) : res float :=
  match image_measurements m !! feature_name with
  | Some v => Ok (mval_float v)
  | None => Raise (KeyError feature_name)
  end.

(** Modelled from the spec: [get_vector(object_name, measurement_name)]
    of the store, [m.get_current_measurement]. *)
Definition get_current_measurement (m : Measurements)
    (object_name feature_name : string) : res (list float) :=
  match object_measurements m !! (object_name, feature_name) with
  | Some data => Ok data
  | None => Raise (KeyError feature_name)
  end.

(** Modelled from the spec: [put_scalar] at image scope,
    [m.add_image_measurement]. *)
Definition add_image_measurement (m : Measurements) (feature_name : string)
    (data : mval) : Measurements :=
  {| image_measurements := <[feature_name := data]> (image_measurements m);
     object_measurements := object_measurements m |}.

(** ** Settings groups *)

(** A measurement group, by the values of its settings:
    [rules_directory] is [rules_directory.get_absolute_path()] and
    [rules_class] is [rules_class.get_selections()]. *)
Record MeasurementGroup := {
  source_choice : string;
  object_name : string;
  measurement : string;
  wants_minimum : bool;
  minimum_value : float;
  wants_maximum : bool;
  maximum_value : float;
  rules_directory : string;
  rules_file_name : string;
  rules_class : list string
}.

Record Flag := {
  category : string;
  feature_name : string;
  combination_choice : string;
  wants_skip : bool;
  measurement_settings : list MeasurementGroup
}.

(** A row of the statistics table without the flag name:
    (source, measurement, value, pass/fail). *)
Definition Stats : Type := string * string * string * string.

(** ** numpy on the score matrix *)

Module Np.

(** [np.any(~np.isnan(scores), 1)] for one row. *)
Definition any_not_nan (row : list float) : bool :=
  existsb (fun x => negb (PrimFloat.is_nan x)) row.

(** The scan of [argmax] over one row: the running maximum [mp] sits at
    [max_ind]; a NaN is maximal and ends the scan. *)
Fixpoint argmax_scan (mp : float) (max_ind i : nat) (l : list float)
    : nat :=
  if PrimFloat.is_nan mp then max_ind
  else
    match l with
    | [] => max_ind
    | x :: r =>
        if negb (PrimFloat.leb x mp) then argmax_scan x i (S i) r
        else argmax_scan mp max_ind (S i) r
    end.

Definition argmax_row (row : list float) : res nat :=
  match row with
  | [] => Raise (ValueError "attempt to get argmax of an empty sequence")
  | x :: r => Ok (argmax_scan x 0 1 r)
  end.

(** [np.argmax(a, 1).flatten()] where [a] has [ncols] columns. *)
Definition argmax_axis1 (ncols : nat) (rows : list (list float))
    : res (list nat) :=
  if (ncols =? 0)%nat
  then Raise (ValueError "attempt to get argmax of an empty sequence")
  else mapM argmax_row rows.

(** [np.sum(objclass[:, np.newaxis] == rules_classes[np.newaxis, :])]:
    the number of pairs (row, selected class) that agree. *)
Definition sum_eq (objclass : list nat) (rules_classes : list Z) : Z :=
  Z.of_nat
    (length (filter (fun p => Z.of_nat p.1 = p.2)
               (o ← objclass; c ← rules_classes; [(o, c)]))).

End Np.

(** ** Rules, criteria and flags *)

Section Evaluation.
Context `{Externals}.

Definition measurement_name (flag : Flag) : string :=
  Py.join "_" [category flag; feature_name flag].

(** Read the rules from a file *)
Definition get_rules (fs : FileSystem) (measurement_group : MeasurementGroup)
    : res Rules :=
  let rules_file := rules_file_name measurement_group in
  let rules_directory := rules_directory measurement_group in
  let path := os_path_join rules_directory rules_file in
  match fs !! path with
  | None =>
      Raise (ValidationError ("No such rules file: " +:+ path)
               (RefValue rules_file))
  | Some content => rules_parse content
  end.

(** The local variables of [eval_measurement] after the chain of
    branches on [source_choice]; [min_value] and [max_value] are not
    bound by the rules branch. *)
Record Locals := {
  min_value : option float;
  max_value : option float;
  fail : bool;
  display_value : string;
  source : string
}.

(** The rules branch, from the score matrix on. *)
Definition eval_rules (scores : matrix) (selections : list string)
    : res Locals :=
  rules_classes ← mapM (fun x => i ← Py.int x; Ok (i - 1)) selections;
  let is_not_nan := map Np.any_not_nan (rows scores) in
  let kept := map snd (filter (fun p => p.1 = true)
                         (zip is_not_nan (rows scores))) in
  objclass ← Np.argmax_axis1 (ncols scores) kept;
  let hit_count := Np.sum_eq objclass rules_classes in
  let shape0 := Z.of_nat (length (rows scores)) in
  let fail := shape0 - hit_count <? hit_count in
  let source := cpmeas_IMAGE in
  let display_value :=
    if 1 <? shape0
    then Py.fmt_d hit_count +:+ " of " +:+ Py.fmt_d shape0
    else "--" in
  Ok {| min_value := None; max_value := None; fail := fail;
        display_value := display_value; source := source |}.

Definition eval_source (fs : FileSystem) (workspace : Workspace)
    (ms : MeasurementGroup) : res Locals :=
  let m := measurements workspace in
  let fail := false in
  if String.eqb (source_choice ms) S_IMAGE then
    value ← get_current_image_measurement m (measurement ms);
    Ok {| min_value := Some value; max_value := Some value; fail := fail;
          display_value := str_round3 value; source := cpmeas_IMAGE |}
  else if String.eqb (source_choice ms) S_AVERAGE_OBJECT then
    data ← get_current_measurement m (object_name ms) (measurement ms);
    let source := "Ave. " +:+ object_name ms in
    if (length data =? 0)%nat then
      Ok {| min_value := Some PrimFloat.nan;
            max_value := Some PrimFloat.nan; fail := true;
            display_value := "No objects"; source := source |}
    else
      let mean := np_mean data in
      Ok {| min_value := Some mean; max_value := Some mean; fail := fail;
            display_value := str_round3 mean; source := source |}
  else if String.eqb (source_choice ms) S_ALL_OBJECTS then
    data ← get_current_measurement m (object_name ms) (measurement ms);
    let source := object_name ms in
    if (length data =? 0)%nat then
      Ok {| min_value := Some PrimFloat.nan;
            max_value := Some PrimFloat.nan; fail := true;
            display_value := "No objects"; source := source |}
    else
      let min_value := np_min data in
      let max_value := np_max data in
      let display_value :=
        if PrimFloat.eqb min_value max_value then str_float min_value
        else fmt_range min_value max_value in
      Ok {| min_value := Some min_value; max_value := Some max_value;
            fail := fail; display_value := display_value;
            source := source |}
  else if String.eqb (source_choice ms) S_RULES then
    rules ← get_rules fs ms;
    scores ← rules_score rules (measurements workspace);
    eval_rules scores (rules_class ms)
  else
    Raise (NotImplementedError
             ("Source choice of " +:+ source_choice ms
              +:+ " not implemented")).

(** [a < b] where [a] is a local that may be unbound; the threshold
    tests are only reached when it is bound. *)
Definition lt_local (a : option float) (b : float) : bool :=
  match a with
  | Some x => PrimFloat.ltb x b
  | None => false
  end.
Definition gt_local (a : option float) (b : float) : bool :=
  match a with
  | Some x => PrimFloat.ltb b x
  | None => false
  end.

(** The final verdict of [eval_measurement] from its locals. *)
Definition final_fail (ms : MeasurementGroup) (l : Locals) : bool :=
  (negb (String.eqb (source_choice ms) S_RULES)
   && (fail l
       || (wants_minimum ms && lt_local (min_value l) (minimum_value ms))
       || (wants_maximum ms && gt_local (max_value l) (maximum_value ms))))
  || (String.eqb (source_choice ms) S_RULES && fail l).

(** Evaluate a measurement: the first component is true for pass, false
    for fail; the second has the statistics except for the flag name. *)
Definition eval_measurement (fs : FileSystem) (workspace : Workspace)
    (ms : MeasurementGroup) : res (bool * Stats) :=
  l ← eval_source fs workspace ms;
  let fail := final_fail ms l in
  Ok (negb fail,
      (source l,
       if negb (String.eqb (source_choice ms) S_RULES)
       then measurement ms else "Rules",
       display_value l,
       if fail then "Fail" else "Pass")).

(** The statistics rows of a flag from the results of its criteria. *)
Definition flag_rows (flag : Flag) (results : list (bool * Stats))
    : list (string * Stats) :=
  map (fun r => (measurement_name flag, r.2)) results.

(** [for measurement_setting in flag.measurement_settings[1:]] of
    [run_flag], on the state [(ok, statistics)]. *)
Fixpoint run_flag_rest (fs : FileSystem) (workspace : Workspace)
    (flag : Flag) (rest : list MeasurementGroup)
    (st : bool * list (string * Stats))
    : res (bool * list (string * Stats)) :=
  match rest with
  | [] => Ok st
  | measurement_setting :: rest' =>
      let '(ok, statistics) := st in
      '(ok_1, stats) ← eval_measurement fs workspace measurement_setting;
      let statistics := statistics ++ [(measurement_name flag, stats)] in
      ok ← (if String.eqb (combination_choice flag) C_ALL
            then Ok (ok || ok_1)
            else if String.eqb (combination_choice flag) C_ANY
            then Ok (ok && ok_1)
            else Raise (NotImplementedError
                          ("Unimplemented combination choice: "
                           +:+ combination_choice flag)));
      run_flag_rest fs workspace flag rest' (ok, statistics)
  end.

(** [run_flag] up to the aggregate verdict [ok]. *)
Definition run_flag_verdict (fs : FileSystem) (workspace : Workspace)
    (flag : Flag) : res (bool * list (string * Stats)) :=
  first ← Py.index (measurement_settings flag) 0;
  '(ok, stats) ← eval_measurement fs workspace first;
  let statistics := [(measurement_name flag, stats)] in
  run_flag_rest fs workspace flag (drop 1 (measurement_settings flag))
    (ok, statistics).

Definition run_flag (fs : FileSystem) (workspace : Workspace) (flag : Flag)
    : res (Workspace * list (string * Stats)) :=
  '(ok, statistics) ← run_flag_verdict fs workspace flag;
  let m := measurements workspace in
  let m := add_image_measurement m (measurement_name flag)
             (MInt (if ok : bool then 0 else 1)) in
  let disposition :=
    if negb ok && wants_skip flag then DISPOSITION_SKIP
    else disposition workspace in
  Ok ({| measurements := m; disposition := disposition |}, statistics).

(** [run]: every flag in turn, on the workspace the previous one left. *)
Fixpoint run_flags (fs : FileSystem) (workspace : Workspace)
    (flags : list Flag) (statistics : list (string * Stats))
    : res (Workspace * list (string * Stats)) :=
  match flags with
  | [] => Ok (workspace, statistics)
  | flag :: flags' =>
      '(workspace, stats) ← run_flag fs workspace flag;
      run_flags fs workspace flags' (statistics ++ stats)
  end.

Definition run (fs : FileSystem) (workspace : Workspace)
    (flags : list Flag) : res (Workspace * list (string * Stats)) :=
  run_flags fs workspace flags [].

End Evaluation.

(** ** Validation and construction of the settings *)

Section Validation.
Context `{Externals}.

(** The body of the loops of [validate_module] for the measurement
    group at position [(flag_idx, meas_idx)]; [measurement_columns] is
    [pipeline.get_measurement_columns(self)]. *)
Definition validate_measurement (fs : FileSystem)
    (measurement_columns : list (string * string * string))
    (flag_idx meas_idx : nat) (measurement_setting : MeasurementGroup)
    : res unit :=
  let setting := RulesFileNameSetting flag_idx meas_idx in
  if String.eqb (source_choice measurement_setting) S_RULES then
    loaded ←
      match get_rules fs measurement_setting with
      | Ok loaded => Ok loaded
      | Raise instance =>
          Raise (ValidationError (exn_str instance) setting)
      end;
    if negb (forallb (fun r => String.eqb (rule_object_name r) cpmeas_IMAGE)
               (rules loaded))
    then
      Raise (ValidationError
               ("The rules listed in "
                +:+ rules_file_name measurement_setting
                +:+ " describe objects instead of images.") setting)
    else
      let rule_features := map rule_feature (rules loaded) in
      let measurement_cols := map (fun c => c.1.2) measurement_columns in
      let undef_features :=
        elements ((list_to_set rule_features : gset string)
                  ∖ list_to_set measurement_cols) in
      match undef_features with
      | feature :: _ =>
          Raise (ValidationError
                   ("The rule described by " +:+ feature
                    +:+ " has not been measured earlier in the pipeline.")
                   setting)
      | [] => Ok ()
      end
  else Ok ().

Fixpoint validate_measurements (fs : FileSystem)
    (measurement_columns : list (string * string * string))
    (flag_idx meas_idx : nat) (l : list MeasurementGroup) : res unit :=
  match l with
  | [] => Ok ()
  | measurement_setting :: l' =>
      _ ← validate_measurement fs measurement_columns flag_idx meas_idx
            measurement_setting;
      validate_measurements fs measurement_columns flag_idx (S meas_idx) l'
  end.

Fixpoint validate_flags (fs : FileSystem)
    (measurement_columns : list (string * string * string))
    (flag_idx : nat) (flags : list Flag) : res unit :=
  match flags with
  | [] => Ok ()
  | flag :: flags' =>
      _ ← validate_measurements fs measurement_columns flag_idx 0
            (measurement_settings flag);
      validate_flags fs measurement_columns (S flag_idx) flags'
  end.

(** If using rules, validate them *)
Definition validate_module (fs : FileSystem)
    (measurement_columns : list (string * string * string))
    (flags : list Flag) : res unit :=
  validate_flags fs measurement_columns 0 flags.

End Validation.

(** [l[k:]] for any integer [k]: a negative [k] counts from the end. *)
Definition slice_from {A} (l : list A) (k : Z) : list A :=
  if k <? 0 then drop (Z.to_nat (Z.of_nat (length l) + k)) l
  else drop (Z.to_nat k) l.

(** [for flag in self.flags] of [prepare_settings]: the number of
    measurement groups each flag ends up with. A new flag has one
    measurement group; more are added up to [count]. *)
Fixpoint prepare_flags (setting_values : list string) (n_flags : nat)
    : res (list nat) :=
  match n_flags with
  | O => Ok []
  | S k =>
      count ← Py.index setting_values 0 ≫= Py.int;
      let n_measurements := Z.to_nat (Z.max 1 count) in
      let setting_values :=
        slice_from setting_values
          (Z.of_nat N_FIXED_SETTINGS_PER_FLAG
           + count * Z.of_nat N_SETTINGS_PER_MEASUREMENT) in
      rest ← prepare_flags setting_values k;
      Ok (n_measurements :: rest)
  end.

(** Construct the correct number of flags: one flag to start with, more
    up to [flag_count]. *)
Definition prepare_settings (setting_values : list string)
    : res (list nat) :=
  flag_count ← Py.index setting_values 0 ≫= Py.int;
  let n_flags := Z.to_nat (Z.max 1 flag_count) in
  let setting_values := drop N_FIXED_SETTINGS setting_values in
  prepare_flags setting_values n_flags.

(** ** The layouts of the persisted settings

    The flat list of a revision, written from its parts: the flag count,
    then for each flag its fixed settings (the first of which is the
    measurement count) followed by its measurement groups. *)

Record Block := {
  header : list string;
  groups : list (list string)
}.

Definition flatten_block (b : Block) : list string :=
  header b ++ concat (groups b).

Definition layout (flag_count : string) (blocks : list Block)
    : list string :=
  flag_count :: flat_map flatten_block blocks.

(** A flag with [hw] fixed settings and [mw] settings per measurement
    whose first setting is the number of its measurement groups. *)
Definition shaped (hw mw : nat) (b : Block) : Prop :=
  length (header b) = hw
  /\ Forall (fun g => length g = mw) (groups b)
  /\ exists c, head (header b) = Some c
              /\ Py.int c = Ok (Z.of_nat (length (groups b))).

Definition well_formed (hw mw : nat) (flag_count : string)
    (blocks : list Block) : Prop :=
  Py.int flag_count = Ok (Z.of_nat (length blocks))
  /\ Forall (shaped hw mw) blocks.

Definition map_block (fh : list string -> list string)
    (fg : list string -> list string) (b : Block) : Block :=
  {| header := fh (header b); groups := map fg (groups b) |}.

(** A revision-1 measurement group (7 settings) and flag (4 settings). *)
Record LegacyMeasurement := {
  lm_source : string;
  lm_object : string;
  lm_measurement : string;
  lm_wants_minimum : string;
  lm_minimum : string;
  lm_wants_maximum : string;
  lm_maximum : string
}.

Record LegacyFlag := {
  lf_count : string;
  lf_category : string;
  lf_feature : string;
  lf_combination : string;
  lf_measurements : list LegacyMeasurement
}.

Definition measurement_v1 (m : LegacyMeasurement) : list string :=
  [lm_source m; lm_object m; lm_measurement m; lm_wants_minimum m;
   lm_minimum m; lm_wants_maximum m; lm_maximum m].

Definition flag_v1 (f : LegacyFlag) : list string :=
  [lf_count f; lf_category f; lf_feature f; lf_combination f]
  ++ flat_map measurement_v1 (lf_measurements f).

Definition layout_v1 (flag_count : string) (flags : list LegacyFlag)
    : list string :=
  flag_count :: flat_map flag_v1 flags.

Section CurrentLayout.
Context `{Externals}.

(** What each step does to a flag's fixed settings and to a
    measurement group. *)
Definition add_skip (h : list string) : list string := h ++ [cps_NO].

Definition rename_head (g : list string) : list string :=
  match g with
  | s :: r => rename_source s :: r
  | [] => []
  end.

Definition add_rules (g : list string) : list string :=
  g ++ [default_rules_location; "rules.txt"].

Definition add_class (g : list string) : list string := g ++ ["1"].

(** The same measurement group in revision 4 (10 settings): the source
    renamed, the six values as they were, then the rules location, the
    rules file name and the class. *)
Definition measurement_v4 (m : LegacyMeasurement) : list string :=
  [rename_source (lm_source m); lm_object m; lm_measurement m;
   lm_wants_minimum m; lm_minimum m; lm_wants_maximum m; lm_maximum m;
   default_rules_location; "rules.txt"; "1"].

(** The same flag in revision 4 (5 settings): the skip setting added. *)
Definition flag_v4 (f : LegacyFlag) : list string :=
  [lf_count f; lf_category f; lf_feature f; lf_combination f; cps_NO]
  ++ flat_map measurement_v4 (lf_measurements f).

Definition layout_v4 (flag_count : string) (flags : list LegacyFlag)
    : list string :=
  flag_count :: flat_map flag_v4 flags.

End CurrentLayout.

(** A revision-1 flag as a block of the flat list. *)
Definition block_of (f : LegacyFlag) : Block :=
  {| header := [lf_count f; lf_category f; lf_feature f; lf_combination f];
     groups := map measurement_v1 (lf_measurements f) |}.

Definition legacy_well_formed (flag_count : string)
    (flags : list LegacyFlag) : Prop :=
  Py.int flag_count = Ok (Z.of_nat (length flags))
  /\ Forall (fun f => Py.int (lf_count f)
                      = Ok (Z.of_nat (length (lf_measurements f)))) flags.



(** The errors of indexing and of [int]: what a malformed list makes
    the migrator raise. *)
Definition lookup_or_parse_error (e : exn) : Prop :=
  match e with
  | IndexError | ValueError _ => True
  | _ => False
  end.

Section LegacyImport.
Context `{Externals}.

(** The single flag a legacy import describes: one image measurement
    [measurement_name] with the bounds [min_value] and [max_value],
    named after [new_name]. *)
Definition imported_flag (measurement_name min_value max_value
    new_name : string) : LegacyFlag :=
  {| lf_count := "1";
     lf_category :=
       if Py.find new_name "_" =? -1 then "Metadata"
       else Py.upto new_name (Py.find new_name "_");
     lf_feature :=
       if Py.find new_name "_" =? -1 then new_name
       else Py.from new_name (Py.find new_name "_" + 1);
     lf_combination := C_ANY;
     lf_measurements :=
       [ {| lm_source := S_IMAGE;
            lm_object := cps_NONE;
            lm_measurement := measurement_name;
            lm_wants_minimum :=
              if String.eqb min_value "No minimum" then cps_NO
              else cps_YES;
            lm_minimum :=
              if String.eqb min_value "No minimum" then "0"
              else min_value;
            lm_wants_maximum :=
              if String.eqb max_value "No maximum" then cps_NO
              else cps_YES;
            lm_maximum :=
              if String.eqb max_value "No maximum" then "1"
              else max_value |} ] |}.

End LegacyImport.

(** ** What the rules branch computes *)

(** The rows [eval_rules] keeps: those with at least one score that is
    not NaN. *)
Definition kept_rows (scores : matrix) : list (list float) :=
  filter (fun row => Np.any_not_nan row = true) (rows scores).

(** The class of a row: the position [np.argmax] gives (0-based). *)
Definition class_of (row : list float) : nat :=
  match row with
  | [] => O
  | x :: r => Np.argmax_scan x 0 1 r
  end.

(** The number of kept rows whose class is one of [classes]. *)
Definition hits (scores : matrix) (classes : list Z) : Z :=
  Z.of_nat
    (length (filter (fun row => Z.of_nat (class_of row) ∈ classes)
               (kept_rows scores))).

(** The rules criterion as the specification words it: rows with any NaN
    score are dropped, and the vote and the display count the rows that
    remain. *)
Module SpecRules.

Definition remaining (scores : matrix) : list (list float) :=
  filter (fun row => existsb PrimFloat.is_nan row = false) (rows scores).

Definition hit_count (scores : matrix) (classes : list Z) : Z :=
  Z.of_nat
    (length (filter (fun row => Z.of_nat (class_of row) ∈ classes)
               (remaining scores))).

Definition remaining_rows (scores : matrix) : Z :=
  Z.of_nat (length (remaining scores)).

Definition fails (scores : matrix) (classes : list Z) : bool :=
  remaining_rows scores - hit_count scores classes
  <? hit_count scores classes.

Definition display (scores : matrix) (classes : list Z) : string :=
  if 1 <? remaining_rows scores
  then Py.fmt_d (hit_count scores classes) +:+ " of "
       +:+ Py.fmt_d (remaining_rows scores)
  else "--".

End SpecRules.

(** ** Rules a pipeline cannot run *)

Section InvalidRules.
Context `{Externals}.

Definition rules_path (ms : MeasurementGroup) : string :=
  os_path_join (rules_directory ms) (rules_file_name ms).

(** The rules file of [ms] is missing or unreadable, or one of its
    rules is on an object other than the image, or on a measurement
    that is not among the columns made earlier in the pipeline. *)
Definition invalid_rules (fs : FileSystem)
    (measurement_columns : list (string * string * string))
    (ms : MeasurementGroup) : Prop :=
  fs !! rules_path ms = None
  \/ (exists content e,
        fs !! rules_path ms = Some content
        /\ rules_parse content = Raise e)
  \/ (exists content parsed r,
        fs !! rules_path ms = Some content
        /\ rules_parse content = Ok parsed
        /\ r ∈ rules parsed
        /\ (rule_object_name r <> cpmeas_IMAGE
            \/ rule_feature r ∉ map (fun c => c.1.2) measurement_columns)).

End InvalidRules.

(** ** A sample environment

    The constants are those of CellProfiler's [settings.py] and
    [measurements.py]; the reductions are sequential folds; the rules
    parser accepts every file and the scorer returns a given matrix;
    float formatting is left symbolic. Used to run the model. *)
Module Sample.

Definition minimum (a b : float) : float :=
  if PrimFloat.is_nan a || PrimFloat.ltb a b then a else b.
Definition maximum (a b : float) : float :=
  if PrimFloat.is_nan a || PrimFloat.ltb b a then a else b.

Definition reduce (f : float -> float -> float) (data : list float)
    : float :=
  match data with
  | [] => PrimFloat.nan
  | x :: r => fold_left f r x
  end.

Definition mean (data : list float) : float :=
  PrimFloat.div (fold_left PrimFloat.add data PrimFloat.zero)
    (float_of_Z (Z.of_nat (length data))).

#[local] Set Warnings "-inexact-float".
Definition one_row : matrix :=
  {| ncols := 2; rows := [[0.79%float; (-0.79)%float]] |}.

Definition externals_scoring (scores : matrix) : Externals := {|
  cps_YES := "Yes";
  cps_NO := "No";
  cps_NONE := "None";
  default_rules_location := "Default Input Folder|None";
  cpmeas_IMAGE := "Image";
  os_path_join := fun d f => d +:+ "/" +:+ f;
  rules_parse := fun _ => Ok {| rules := [] |};
  rules_score := fun _ _ => Ok scores;
  np_mean := mean;
  np_min := reduce minimum;
  np_max := reduce maximum;
  str_round3 := fun _ => "<value>";
  str_float := fun _ => "<value>";
  fmt_range := fun _ _ => "<min> - <max>"
|}.

#[export] Instance externals : Externals := externals_scoring one_row.

(** An image criterion on the feature [name] with both bounds on. *)
Definition image_criterion (name : string) (lo hi : float)
    : MeasurementGroup :=
  {| source_choice := S_IMAGE; object_name := "None";
     measurement := name;
     wants_minimum := true; minimum_value := lo;
     wants_maximum := true; maximum_value := hi;
     rules_directory := "/rules"; rules_file_name := "rules.txt";
     rules_class := ["1"] |}.

Definition object_criterion (choice object name : string)
    : MeasurementGroup :=
  {| source_choice := choice; object_name := object;
     measurement := name;
     wants_minimum := false; minimum_value := 0%float;
     wants_maximum := false; maximum_value := 1%float;
     rules_directory := "/rules"; rules_file_name := "rules.txt";
     rules_class := ["1"] |}.

Definition rules_criterion (selected : list string) : MeasurementGroup :=
  {| source_choice := S_RULES; object_name := "None";
     measurement := "None";
     wants_minimum := true; minimum_value := 0%float;
     wants_maximum := true; maximum_value := 1%float;
     rules_directory := "/rules"; rules_file_name := "rules.txt";
     rules_class := selected |}.

Definition store : Measurements :=
  {| image_measurements :=
       {[ "Focus" := MFloat 0.5%float; "Blur" := MFloat 3%float ]};
     object_measurements :=
       {[ ("Nuclei", "Area") := [] ;
          ("Cells", "Area") := [2%float; 4%float] ]} |}.

Definition workspace : Workspace :=
  {| measurements := store; disposition := DISPOSITION_CONTINUE |}.

Definition disk : FileSystem := {[ "/rules/rules.txt" := "IF (...)" ]}.

Definition flag (choice : string) (skip : bool)
    (l : list MeasurementGroup) : Flag :=
  {| category := "Metadata"; feature_name := "QCFlag";
     combination_choice := choice; wants_skip := skip;
     measurement_settings := l |}.

(** "Blur" is 3, above the bound 1: the criterion fails; "Focus" is 0.5,
    at the lower bound 0.5: it passes. *)
Definition blurred : MeasurementGroup := image_criterion "Blur" 0.5 1.
Definition focused : MeasurementGroup := image_criterion "Focus" 0.5 1.

Definition fail_pass_fail : Flag :=
  flag C_ANY true [blurred; focused; blurred].
Definition flagged : Flag := flag C_ANY true [blurred].
Definition unflagged : Flag := flag C_ANY true [focused].
Definition no_nuclei : Flag :=
  flag C_ANY false [object_criterion S_ALL_OBJECTS "Nuclei" "Area"].
Definition by_rules : Flag :=
  flag C_ANY false [focused; rules_criterion ["1"]].

(** Score matrices with NaN entries. *)
Definition half_nan_row : matrix :=
  {| ncols := 2; rows := [[PrimFloat.nan; 1%float]] |}.
Definition two_nan_rows : matrix :=
  {| ncols := 2;
     rows := [[PrimFloat.nan; PrimFloat.nan]; [1%float; 0%float];
              [PrimFloat.nan; PrimFloat.nan]] |}.

(** A revision-1 list: one flag with two measurement groups. *)
Definition legacy_flags : list LegacyFlag :=
  [ {| lf_count := "2"; lf_category := "Metadata"; lf_feature := "QCFlag";
       lf_combination := C_ANY;
       lf_measurements :=
         [ {| lm_source := "Image"; lm_object := "None";
              lm_measurement := "ImageQuality_Focus";
              lm_wants_minimum := "Yes"; lm_minimum := "0.5";
              lm_wants_maximum := "No"; lm_maximum := "1" |};
           {| lm_source := "All objects"; lm_object := "Nuclei";
              lm_measurement := "AreaShape_Area";
              lm_wants_minimum := "Yes"; lm_minimum := "10";
              lm_wants_maximum := "Yes"; lm_maximum := "20" |} ] |} ].



End Sample.

(** ** The measurements the module declares *)

Section Declarations.
Context `{Externals}.

(** [cpmeas.COLTYPE_INTEGER] *)
Variable COLTYPE_INTEGER : string.

(** Return column definitions for each flag measurement in the module *)
Definition get_measurement_columns (flags : list Flag)
    : list (string * string * string) :=
  map (fun flag => (cpmeas_IMAGE, measurement_name flag, COLTYPE_INTEGER))
    flags.

Definition get_categories (flags : list Flag) (object_name : string)
    : list string :=
  if String.eqb object_name cpmeas_IMAGE
  then map category flags
  else [].

Definition get_measurements (flags : list Flag)
    (object_name category' : string) : list string :=
  if negb (String.eqb object_name cpmeas_IMAGE)
  then []
  else map feature_name
         (filter (fun flag => category flag = category') flags).

End Declarations.

(** ** The settings as they are saved *)

(** Modelled from the spec: the saved text of a [cps.HiddenCount], the
    "string-encoded" number of elements of its sequence
    ([str(len(sequence))]). *)
Definition hidden_count {A} (sequence : list A) : string :=
  Py.fmt_d (Z.of_nat (length sequence)).

(** The saved text of each setting of a measurement group and of a
    flag. *)
Record MeasurementText := {
  t_source_choice : string;
  t_object_name : string;
  t_measurement : string;
  t_wants_minimum : string;
  t_minimum_value : string;
  t_wants_maximum : string;
  t_maximum_value : string;
  t_rules_directory : string;
  t_rules_file_name : string;
  t_rules_class : string
}.

Record FlagText := {
  t_category : string;
  t_feature_name : string;
  t_combination_choice : string;
  t_wants_skip : string;
  t_measurement_settings : list MeasurementText
}.

(** [settings]: the flag count, then for each flag its measurement count
    and its four settings, followed by the ten settings of each of its
    measurement groups. *)
Definition settings (flags : list FlagText) : list string :=
  let result := [hidden_count flags] in
  result
  ++ flat_map
       (fun flag =>
          [hidden_count (t_measurement_settings flag); t_category flag;
           t_feature_name flag; t_combination_choice flag;
           t_wants_skip flag]
          ++ flat_map
               (fun mg =>
                  [t_source_choice mg; t_object_name mg; t_measurement mg;
                   t_wants_minimum mg; t_minimum_value mg;
                   t_wants_maximum mg; t_maximum_value mg;
                   t_rules_directory mg; t_rules_file_name mg;
                   t_rules_class mg])
               (t_measurement_settings flag))
       flags.

(** The flag of a saved module as a block of the flat list. *)
Definition text_block (flag : FlagText) : Block :=
  {| header := [hidden_count (t_measurement_settings flag); t_category flag;
                t_feature_name flag; t_combination_choice flag;
                t_wants_skip flag];
     groups :=
       map (fun mg =>
              [t_source_choice mg; t_object_name mg; t_measurement mg;
               t_wants_minimum mg; t_minimum_value mg;
               t_wants_maximum mg; t_maximum_value mg;
               t_rules_directory mg; t_rules_file_name mg;
               t_rules_class mg])
         (t_measurement_settings flag) |}.

Section MigratedText.
Context `{Externals}.

(** The saved text of a revision-1 flag once migrated. *)
Definition migrated_text (f : LegacyFlag) : FlagText :=
  {| t_category := lf_category f;
     t_feature_name := lf_feature f;
     t_combination_choice := lf_combination f;
     t_wants_skip := cps_NO;
     t_measurement_settings :=
       map (fun m =>
              {| t_source_choice := rename_source (lm_source m);
                 t_object_name := lm_object m;
                 t_measurement := lm_measurement m;
                 t_wants_minimum := lm_wants_minimum m;
                 t_minimum_value := lm_minimum m;
                 t_wants_maximum := lm_wants_maximum m;
                 t_maximum_value := lm_maximum m;
                 t_rules_directory := default_rules_location;
                 t_rules_file_name := "rules.txt";
                 t_rules_class := "1" |})
         (lf_measurements f) |}.

End MigratedText.

(** ** The classes offered for a rules criterion *)

Section ClassChoices.
Context `{Externals}.

(** [[str(i) for i in range(1, n + 1)]] *)
Definition class_numbers (n : nat) : list string :=
  map (fun i => Py.fmt_d (Z.of_nat i)) (seq 1 n).

(** Get the available choices from the rules file: the classes of the
    first rule, or two classes when anything at all goes wrong. *)
Definition get_rules_class_choices (fs : FileSystem)
    (group : MeasurementGroup) : list string :=
  match
    (loaded ← get_rules fs group;
     first_rule ← Py.index (rules loaded) 0;
     first_weights ← Py.index (rule_weights first_rule) 0;
     Ok (length first_weights))
  with
  | Ok nclasses => class_numbers nclasses
  | Raise _ => class_numbers 2
  end.

End ClassChoices.

(** ** The settings on display *)

(** What [visible_settings] lists: a setting of a measurement group or
    of a flag with its current value, a button, or a divider
    ([cps.Divider(line=True)]). *)
Inductive Setting :=
| Divider
| SourceChoice (value : string)
| ObjectName (value : string)
| RulesDirectory (value : string)
| RulesFileName (value : string)
| RulesClass (value : list string)
| MeasurementName (value : string)
| WantsMinimum (value : bool)
| MinimumValue (value : float)
| WantsMaximum (value : bool)
| MaximumValue (value : float)
| MeasurementRemover
| FlagCategory (value : string)
| FlagFeatureName (value : string)
| WantsSkip (value : bool)
| CombinationChoice (value : string)
| AddMeasurementButton
| FlagRemover
| AddFlagButton.

(** [measurement_visibles]; [has_remover] is [hasattr(m_g, "remover")],
    which holds for a group added with [can_delete]. *)
Definition measurement_visibles (has_remover : bool)
    (m_g : MeasurementGroup) : list Setting :=
  let result := if has_remover then [Divider] else [] in
  let result := result ++ [SourceChoice (source_choice m_g)] in
  let result :=
    if String.eqb (source_choice m_g) S_ALL_OBJECTS
       || String.eqb (source_choice m_g) S_AVERAGE_OBJECT
    then result ++ [ObjectName (object_name m_g)]
    else result in
  let result :=
    if String.eqb (source_choice m_g) S_RULES
    then result ++ [RulesDirectory (rules_directory m_g);
                    RulesFileName (rules_file_name m_g);
                    RulesClass (rules_class m_g)]
    else
      let result := result ++ [MeasurementName (measurement m_g);
                               WantsMinimum (wants_minimum m_g)] in
      let result :=
        if wants_minimum m_g
        then result ++ [MinimumValue (minimum_value m_g)]
        else result in
      let result := result ++ [WantsMaximum (wants_maximum m_g)] in
      if wants_maximum m_g
      then result ++ [MaximumValue (maximum_value m_g)]
      else result in
  if has_remover then result ++ [MeasurementRemover; Divider] else result.

(** [flag_visibles]; [has_remover] is [hasattr(flag, "remover")] and
    [removers j] that of the measurement group at position [j]. *)
Definition flag_visibles (has_remover : bool) (removers : nat -> bool)
    (flag : Flag) : list Setting :=
  let result := if has_remover then [Divider; Divider] else [] in
  let result := result ++ [FlagCategory (category flag);
                           FlagFeatureName (feature_name flag);
                           WantsSkip (wants_skip flag)] in
  let result :=
    if (1 <? length (measurement_settings flag))%nat
    then result ++ [CombinationChoice (combination_choice flag)]
    else result in
  let result :=
    result
    ++ concat (imap (fun j m_g => measurement_visibles (removers j) m_g)
                 (measurement_settings flag)) in
  let result := result ++ [AddMeasurementButton] in
  if has_remover then result ++ [FlagRemover; Divider; Divider]
  else result.

(** [visible_settings]: the flags in turn, then the button that adds a
    flag. [flag_removers i] says whether the flag at position [i] has a
    remover, [removers i j] whether its measurement group at position
    [j] has one. *)
Definition visible_settings (flag_removers : nat -> bool)
    (removers : nat -> nat -> bool) (flags : list Flag) : list Setting :=
  let result :=
    concat (imap (fun i flag =>
                    flag_visibles (flag_removers i) (removers i) flag)
              flags) in
  result ++ [AddFlagButton].

(** The settings of a list that carry a value. *)
Definition carries_value (setting : Setting) : bool :=
  match setting with
  | Divider | MeasurementRemover | AddMeasurementButton | FlagRemover
  | AddFlagButton => false
  | _ => true
  end.

(** The values on display for a flag: those of its own settings and of
    its measurement groups. *)
Definition flag_values (flag : Flag) : list Setting :=
  [FlagCategory (category flag); FlagFeatureName (feature_name flag);
   WantsSkip (wants_skip flag)]
  ++ (if (1 <? length (measurement_settings flag))%nat
      then [CombinationChoice (combination_choice flag)] else [])
  ++ flat_map (measurement_visibles false) (measurement_settings flag).

(** Two flags with the same values on display. *)
Definition same_on_display (f f' : Flag) : Prop :=
  category f = category f'
  /\ feature_name f = feature_name f'
  /\ wants_skip f = wants_skip f'
  /\ Forall2 (fun m m' => measurement_visibles false m
                          = measurement_visibles false m')
       (measurement_settings f) (measurement_settings f')
  /\ ((1 < length (measurement_settings f))%nat ->
      combination_choice f = combination_choice f').

(** ** The table of the data tool

    [run_as_data_tool] runs the module on every image set in turn.
    [img_stats] is the statistics table the run of an image set has
    left; the header is made at the first image set, and the image set
    at position [i] gives one row. *)




(** ** The groups of settings [prepare_settings] builds *)

(** A flag of the module as a group of settings: whether it has a
    remover ([hasattr(flag, "remover")]), and for each of its
    measurement groups whether that group has one. *)
Record FlagGroup := {
  remover : bool;
  measurement_removers : list bool
}.

(** [add_measurement]: one more measurement group at the end of the
    flag's list, with a remover when it can be deleted. *)
Definition add_measurement (flag_settings : FlagGroup) (can_delete : bool)
    : FlagGroup :=
  {| remover := remover flag_settings;
     measurement_removers :=
       measurement_removers flag_settings ++ [can_delete] |}.

(** [add_flag]: a new flag at the end of the list, with its first
    measurement group. *)
Definition add_flag (flags : list FlagGroup) (can_delete : bool)
    : list FlagGroup :=
  let group := {| remover := false; measurement_removers := [] |} in
  let group :=
    add_measurement group (if negb can_delete then false else true) in
  let group :=
    if can_delete
    then {| remover := true;
            measurement_removers := measurement_removers group |}
    else group in
  flags ++ [group].

(** [while test(s): s = body(s)], given up with [None] when it has not
    ended after [fuel] iterations. *)
Fixpoint while {State : Type} (fuel : nat) (test : State -> bool)
    (body : State -> State) (s : State) : option State :=
  match fuel with
  | O => if test s then None else Some s
  | S fuel' => if test s then while fuel' test body (body s) else Some s
  end.

(** [for flag in self.flags] of [prepare_settings], with its inner
    loop. *)
Fixpoint prepare_groups (fuel : nat) (setting_values : list string)
    (flags : list FlagGroup) : option (res (list FlagGroup)) :=
  match flags with
  | [] => Some (Ok [])
  | flag :: flags' =>
      match Py.index setting_values 0 ≫= Py.int with
      | Raise e => Some (Raise e)
      | Ok count =>
          flag ←
            while fuel
              (fun flag =>
                 Z.of_nat (length (measurement_removers flag)) <? count)
              (fun flag => add_measurement flag true) flag;
          let setting_values :=
            slice_from setting_values
              (Z.of_nat N_FIXED_SETTINGS_PER_FLAG
               + count * Z.of_nat N_SETTINGS_PER_MEASUREMENT) in
          rest ← prepare_groups fuel setting_values flags';
          Some (rest ← rest; Ok (flag :: rest))
      end
  end.

(** [prepare_settings], with its loops: the flags it has built when it
    returns. *)
Definition prepare_settings_groups (fuel : nat)
    (setting_values : list string) : option (res (list FlagGroup)) :=
  match Py.index setting_values 0 ≫= Py.int with
  | Raise e => Some (Raise e)
  | Ok flag_count =>
      let flags := [] in
      let flags := add_flag flags false in
      flags ←
        while fuel (fun flags => Z.of_nat (length flags) <? flag_count)
          (fun flags => add_flag flags true) flags;
      let setting_values := drop N_FIXED_SETTINGS setting_values in
      prepare_groups fuel setting_values flags
  end.

(** ** The module list of the frame that adds modules

    [AddModuleFrame.__get_module_files] of
    [cellprofiler/gui/addmoduleframe.py]. *)

(** [l.insert(i, x)] for any integer [i]: a negative index counts from
    the end, and an index beyond either end is brought back to it. *)
Definition list_insert_at {A} (l : list A) (i : Z) (x : A) : list A :=
  let n := Z.of_nat (length l) in
  let i := if i <? 0 then Z.max 0 (n + i) else Z.min i n in
  take (Z.to_nat i) l ++ x :: drop (Z.to_nat i) l.

(** A module class as the frame reads it: [category] is a string or a
    sequence of strings. *)
Record ModuleClass := {
  is_input_module : bool;
  module_category : string + list string;
  module_name : string
}.

(** [self.__module_files] and [self.__module_dict]; a loader is
    represented by the name of the module it instantiates. *)
Record ModuleFiles := {
  module_files : list string;
  module_dict : gmap string (gmap string string)
}.

Definition standard_categories : list string :=
  ["File Processing"; "Image Processing"; "Object Processing";
   "Measurement"; "Data Tools"].

(** [cellprofiler.modules.get_module_class], which raises for a module
    that does not load. *)
Class ModuleLoader := {
  get_module_class : string -> res ModuleClass
}.

Section ModuleFrame.
Context `{ModuleLoader}.

Definition categories_of (module : ModuleClass) : list string :=
  (match module_category module with
   | inl category => [category]
   | inr categories => categories
   end) ++ ["All"].

(** [if category not in self.__module_files: ...] *)
Definition new_category (st : ModuleFiles) (category : string)
    : ModuleFiles :=
  if decide (category ∈ module_files st) then st
  else {| module_files := list_insert_at (module_files st) (-2) category;
          module_dict := <[category := ∅]> (module_dict st) |}.

(** [for category in categories]; a [KeyError] would end the loop, as
    it is caught around it. *)
Fixpoint add_categories (module : ModuleClass) (mn : string)
    (categories : list string) (st : ModuleFiles) : ModuleFiles :=
  match categories with
  | [] => st
  | category :: categories' =>
      let st := new_category st category in
      match module_dict st !! category with
      | Some modules =>
          add_categories module mn categories'
            {| module_files := module_files st;
               module_dict :=
                 <[category := <[module_name module := mn]> modules]>
                   (module_dict st) |}
      | None => st
      end
  end.

(** The body of [for mn in get_module_names()]: a module whose class
    does not load is logged and left out. *)
Definition add_module (st : ModuleFiles) (mn : string) : ModuleFiles :=
  match get_module_class mn with
  | Raise _ => st
  | Ok module =>
      if is_input_module module then st
      else add_categories module mn (categories_of module) st
  end.

Definition get_module_files (module_names : list string) : ModuleFiles :=
  let module_files := standard_categories ++ ["Other"; "All"] in
  let module_dict :=
    fold_left (fun d key => <[key := ∅]> d) module_files ∅ in
  fold_left add_module module_names
    {| module_files := module_files; module_dict := module_dict |}.

(** The category list keeps the standard categories first and "Other"
    and "All" last, without repetition, and lists the keys of the
    dictionary. *)
Definition well_listed (st : ModuleFiles) : Prop :=
  (exists extra,
     module_files st = standard_categories ++ extra ++ ["Other"; "All"])
  /\ NoDup (module_files st)
  /\ (forall c, c ∈ module_files st <-> is_Some (module_dict st !! c)).

(** The module named [n] is listed under the category [c]. *)
Definition listed (st : ModuleFiles) (c n : string) : Prop :=
  exists modules,
    module_dict st !! c = Some modules /\ is_Some (modules !! n).

(** Every entry of the dictionary is the loader of a module among
    [names] that loads, is not an input module, has the name of the
    entry and belongs to its category. *)
Definition entries_sound (names : list string) (st : ModuleFiles) : Prop :=
  forall c modules n mn,
    module_dict st !! c = Some modules ->
    modules !! n = Some mn ->
    mn ∈ names
    /\ exists module,
         get_module_class mn = Ok module
         /\ is_input_module module = false
         /\ module_name module = n
         /\ c ∈ categories_of module.

(** Every module among [names] that loads and is not an input module
    is listed under each of its categories and under "All". *)
Definition entries_complete (names : list string) (st : ModuleFiles)
    : Prop :=
  forall mn module c,
    mn ∈ names ->
    get_module_class mn = Ok module ->
    is_input_module module = false ->
    c ∈ categories_of module ->
    listed st c (module_name module).

End ModuleFrame.

(** ** A sample module and a sample rules file

    A module of two flags, a store with NaN values, saved settings, and
    an environment whose rules parser rejects an empty file and reads
    any other as one rule on the image feature "Focus" with three
    classes. Used to run the model. *)
Module Examples.
Import Sample.

#[local] Set Warnings "-inexact-float".

Definition focus_rule : Rule :=
  {| rule_object_name := "Image"; rule_feature := "Focus";
     rule_weights := [[1%float; 0%float; 0%float];
                      [0%float; 1%float; 1%float]] |}.

Definition three_classes : matrix :=
  {| ncols := 3; rows := [[0%float; 2%float; 1%float]] |}.

Definition externals_rules : Externals := {|
  cps_YES := "Yes";
  cps_NO := "No";
  cps_NONE := "None";
  default_rules_location := "Default Input Folder|None";
  cpmeas_IMAGE := "Image";
  os_path_join := fun d f => d +:+ "/" +:+ f;
  rules_parse := fun content =>
    if String.eqb content "" then Raise (ValueError "no rule")
    else Ok {| rules := [focus_rule] |};
  rules_score := fun _ _ => Ok three_classes;
  np_mean := mean;
  np_min := reduce minimum;
  np_max := reduce maximum;
  str_round3 := fun _ => "<value>";
  str_float := fun _ => "<value>";
  fmt_range := fun _ _ => "<min> - <max>"
|}.

(** No image feature "Missing" is in the sample store. *)
Definition missing : MeasurementGroup := image_criterion "Missing" 0.5 1.

(** A second flag, set when both of its criteria fail. *)
Definition blurry : Flag :=
  {| category := "Metadata"; feature_name := "Blurry";
     combination_choice := C_ALL; wants_skip := false;
     measurement_settings := [blurred; focused] |}.

Definition module_flags : list Flag := [flagged; blurry].

(** Flags with a criterion that raises, with a combination choice that
    is not implemented, and without criterion. *)
Definition interrupted : Flag := flag C_ANY true [blurred; missing; focused].
Definition most : Flag := flag "Flag if most fail" false [blurred; focused].
Definition most_of_one : Flag := flag "Flag if most fail" false [blurred].
Definition empty : Flag := flag C_ANY false [].

(** A workspace whose image set is already to be skipped. *)
Definition skipped : Workspace :=
  {| measurements := store; disposition := DISPOSITION_SKIP |}.

(** A store whose "Focus" and whose areas of "Cells" hold a NaN. *)
Definition nan_store : Measurements :=
  {| image_measurements := {[ "Focus" := MFloat PrimFloat.nan ]};
     object_measurements :=
       {[ ("Cells", "Area") := [PrimFloat.nan; 1%float] ]} |}.

Definition nan_workspace : Workspace :=
  {| measurements := nan_store; disposition := DISPOSITION_CONTINUE |}.

(** A rules criterion with other thresholds, measurement and object
    than [rules_criterion ["1"]]. *)
Definition other_rules_criterion : MeasurementGroup :=
  {| source_choice := S_RULES; object_name := "Nuclei";
     measurement := "Area";
     wants_minimum := false; minimum_value := 7%float;
     wants_maximum := true; maximum_value := 8%float;
     rules_directory := "/rules"; rules_file_name := "rules.txt";
     rules_class := ["1"] |}.

(** The saved text of a module of two flags, the first with two
    measurement groups. *)
Definition saved_criterion (choice name : string) : MeasurementText :=
  {| t_source_choice := choice; t_object_name := "None";
     t_measurement := name;
     t_wants_minimum := "Yes"; t_minimum_value := "0.5";
     t_wants_maximum := "No"; t_maximum_value := "1";
     t_rules_directory := "Default Input Folder|None";
     t_rules_file_name := "rules.txt"; t_rules_class := "1" |}.

Definition saved_flags : list FlagText :=
  [ {| t_category := "Metadata"; t_feature_name := "QCFlag";
       t_combination_choice := C_ANY; t_wants_skip := "No";
       t_measurement_settings :=
         [saved_criterion S_IMAGE "ImageQuality_Focus";
          saved_criterion S_IMAGE "ImageQuality_Blur"] |};
    {| t_category := "Metadata"; t_feature_name := "Blurry";
       t_combination_choice := C_ALL; t_wants_skip := "Yes";
       t_measurement_settings :=
         [saved_criterion S_RULES "None"] |} ].

(** The columns made before the module in the pipeline. *)
Definition earlier_columns : list (string * string * string) :=
  [("Image", "Focus", "float")].

(** Two image criteria that differ in what is not on display: the
    object, and the maximum that is switched off. *)
Definition focus_above (object : string) (hi : float) : MeasurementGroup :=
  {| source_choice := S_IMAGE; object_name := object;
     measurement := "Focus";
     wants_minimum := true; minimum_value := 0.5%float;
     wants_maximum := false; maximum_value := hi;
     rules_directory := "/rules"; rules_file_name := "rules.txt";
     rules_class := ["1"] |}.

(** No flag of the sample modules has a remover, and of the measurement
    groups all but the first of a flag have one. *)
Definition first_only (i : nat) : bool := negb (i =? 0)%nat.

(** Four modules: an input module, a module of the standard category
    "Data Tools", one that does not load, and one of two categories,
    the second of which is new. *)
Definition sample_loader : ModuleLoader := {|
  get_module_class := fun mn =>
    if String.eqb mn "Images" then
      Ok {| is_input_module := true;
            module_category := inl "File Processing";
            module_name := "Images" |}
    else if String.eqb mn "FlagImage" then
      Ok {| is_input_module := false;
            module_category := inl "Data Tools";
            module_name := "FlagImage" |}
    else if String.eqb mn "MeasureTexture" then
      Ok {| is_input_module := false;
            module_category := inr ["Measurement"; "Texture"];
            module_name := "MeasureTexture" |}
    else Raise (ExternalError ("No module named " +:+ mn))
|}.

Definition sample_module_names : list string :=
  ["Images"; "FlagImage"; "Broken"; "MeasureTexture"].

End Examples.

(** * Properties *)

(** ** Lists and slices *)

Lemma index_middle {A} (l pre suf : list A) (x : A) (i : nat) :
  l = pre ++ x :: suf -> i = length pre -> Py.index l i = Ok x.
Proof.
  intros -> ->. unfold Py.index. by rewrite list_lookup_middle.
Qed.

Lemma slice_middle {A} (l pre g suf : list A) (a b : nat) :
  l = pre ++ g ++ suf -> a = length pre -> b = (a + length g)%nat ->
  Py.slice l a b = g.
Proof.
  intros -> -> ->. unfold Py.slice.
  rewrite drop_app_length.
  replace (length pre + length g - length pre)%nat with (length g) by lia.
  by rewrite take_app_length.
Qed.

Lemma bind_error {A B} (m : res A) (f : A -> res B) (e : exn) :
  m ≫= f = Raise e ->
  (exists e', m = Raise e' /\ e = e')
  \/ (exists a, m = Ok a /\ f a = Raise e).
Proof.
  destruct m as [a|e']; cbn.
  - intros Hf. right. by exists a.
  - intros [= <-]. left. by exists e'.
Qed.

Lemma range_len_of_nat (n : nat) : Py.range_len (Z.of_nat n) = n.
Proof. unfold Py.range_len. lia. Qed.

(** ** The migration steps on well-formed lists *)

Section MigrationSteps.
Context `{Externals}.

Ltac list_eq :=
  subst; unfold flatten_block; simpl;
  repeat (rewrite <- app_assoc; simpl); done.
Ltac steps := cbn -[upgrade_v1 upgrade_v2 upgrade_v3 layout].
Ltac len_eq :=
  subst; repeat (simpl; rewrite ?length_app); simpl in *; lia.

Lemma v3_measurements_layout (gs : list (list string)) :
  forall sv pre suf new idx,
    Forall (fun g => length g = N_SETTINGS_PER_MEASUREMENT_V3) gs ->
    sv = pre ++ concat gs ++ suf ->
    idx = length pre ->
    v3_measurements sv (length gs) (new, idx)
    = Ok (new ++ concat (map add_class gs),
          (idx + length (concat gs))%nat).
Proof.
  induction gs as [|g gs IH]; intros sv pre suf new idx Hgs Hsv Hidx; simpl.
  - rewrite app_nil_r. do 2 f_equal. lia.
  - apply Forall_cons in Hgs as [Hg Hgs'].
    rewrite (slice_middle sv pre g (concat gs ++ suf));
      [ | list_eq | done | lia ].
    rewrite (IH sv (pre ++ g) suf); [ | done | list_eq | len_eq ].
    unfold add_class.
    rewrite !length_app, <- !app_assoc; simpl. do 2 f_equal. lia.
Qed.

Lemma v3_flags_layout (bs : list Block) :
  forall sv pre suf new idx,
    Forall (shaped N_FIXED_SETTINGS_PER_FLAG
              N_SETTINGS_PER_MEASUREMENT_V3) bs ->
    sv = pre ++ flat_map flatten_block bs ++ suf ->
    idx = length pre ->
    v3_flags sv (length bs) (new, idx)
    = Ok (new ++ flat_map flatten_block
                   (map (map_block id add_class) bs),
          (idx + length (flat_map flatten_block bs))%nat).
Proof.
  induction bs as [|b bs IH]; intros sv pre suf new idx Hbs Hsv Hidx; simpl.
  - rewrite app_nil_r. do 2 f_equal. lia.
  - apply Forall_cons in Hbs as [Hb Hbs'].
    destruct b as [h gs]. destruct Hb as (Hh & Hgs & c & Hc & Hint).
    simpl in Hh, Hgs, Hc, Hint. destruct h as [|c' h']; [done|].
    injection Hc as ->. unfold flatten_block at 1 in Hsv; simpl in Hsv.
    rewrite (slice_middle sv pre (c :: h')
               (concat gs ++ flat_map flatten_block bs ++ suf));
      [ | list_eq | done | simpl in *; lia ].
    rewrite (index_middle sv pre
               (h' ++ concat gs ++ flat_map flatten_block bs ++ suf) c);
      [ | list_eq | done ].
    simpl. rewrite Hint; simpl. rewrite range_len_of_nat.
    rewrite (v3_measurements_layout gs sv (pre ++ c :: h')
               (flat_map flatten_block bs ++ suf));
      [ | done | list_eq | simpl in *; len_eq ].
    simpl.
    rewrite (IH sv (pre ++ (c :: h') ++ concat gs) suf);
      [ | done | list_eq | simpl in *; len_eq ].
    unfold flatten_block at 3 4; simpl.
    rewrite !length_app, <- !app_assoc; simpl. do 2 f_equal.
    unfold flatten_block in *; simpl in *; lia.
Qed.

Lemma upgrade_v3_layout (n : string) (bs : list Block)
    (extra : list string) :
  well_formed N_FIXED_SETTINGS_PER_FLAG N_SETTINGS_PER_MEASUREMENT_V3
    n bs ->
  upgrade_v3 (layout n bs ++ extra)
  = Ok (layout n (map (map_block id add_class) bs)).
Proof.
  intros [Hn Hbs]. unfold upgrade_v3, layout; simpl.
  rewrite Hn; simpl. rewrite range_len_of_nat.
  rewrite (v3_flags_layout bs _ [n] extra); [ done | done | | done ].
  done.
Qed.

(** *** Revision 2 *)

Lemma v2_measurements_layout (gs : list (list string)) :
  forall sv pre suf new idx,
    Forall (fun g => length g = N_SETTINGS_PER_MEASUREMENT_V2) gs ->
    sv = pre ++ concat gs ++ suf ->
    idx = length pre ->
    v2_measurements sv (length gs) (new, idx)
    = Ok (new ++ concat (map add_rules gs),
          (idx + length (concat gs))%nat).
Proof.
  induction gs as [|g gs IH]; intros sv pre suf new idx Hgs Hsv Hidx; simpl.
  - rewrite app_nil_r. do 2 f_equal. lia.
  - apply Forall_cons in Hgs as [Hg Hgs'].
    destruct g as [|s r]; [done|].
    rewrite (index_middle sv pre (r ++ concat gs ++ suf) s);
      [ | list_eq | done ].
    simpl.
    rewrite (slice_middle sv (pre ++ [s]) r (concat gs ++ suf));
      [ | list_eq | len_eq | simpl in *; len_eq ].
    rewrite (IH sv (pre ++ s :: r) suf); [ | done | list_eq | len_eq ].
    unfold add_rules at 2.
    rewrite !length_app, <- !app_assoc; simpl. do 2 f_equal.
    simpl in Hg. lia.
Qed.

Lemma v2_flags_layout (bs : list Block) :
  forall sv pre suf new idx,
    Forall (shaped N_FIXED_SETTINGS_PER_FLAG
              N_SETTINGS_PER_MEASUREMENT_V2) bs ->
    sv = pre ++ flat_map flatten_block bs ++ suf ->
    idx = length pre ->
    v2_flags sv (length bs) (new, idx)
    = Ok (new ++ flat_map flatten_block
                   (map (map_block id add_rules) bs),
          (idx + length (flat_map flatten_block bs))%nat).
Proof.
  induction bs as [|b bs IH]; intros sv pre suf new idx Hbs Hsv Hidx; simpl.
  - rewrite app_nil_r. do 2 f_equal. lia.
  - apply Forall_cons in Hbs as [Hb Hbs'].
    destruct b as [h gs]. destruct Hb as (Hh & Hgs & c & Hc & Hint).
    simpl in Hh, Hgs, Hc, Hint. destruct h as [|c' h']; [done|].
    injection Hc as ->. unfold flatten_block at 1 in Hsv; simpl in Hsv.
    rewrite (slice_middle sv pre (c :: h')
               (concat gs ++ flat_map flatten_block bs ++ suf));
      [ | list_eq | done | simpl in *; lia ].
    rewrite (index_middle sv pre
               (h' ++ concat gs ++ flat_map flatten_block bs ++ suf) c);
      [ | list_eq | done ].
    simpl. rewrite Hint; simpl. rewrite range_len_of_nat.
    rewrite (v2_measurements_layout gs sv (pre ++ c :: h')
               (flat_map flatten_block bs ++ suf));
      [ | done | list_eq | simpl in *; len_eq ].
    simpl.
    rewrite (IH sv (pre ++ (c :: h') ++ concat gs) suf);
      [ | done | list_eq | simpl in *; len_eq ].
    unfold flatten_block at 3 4; simpl.
    rewrite !length_app, <- !app_assoc; simpl. do 2 f_equal.
    unfold flatten_block in *; simpl in *; lia.
Qed.

Lemma upgrade_v2_layout (n : string) (bs : list Block)
    (extra : list string) :
  well_formed N_FIXED_SETTINGS_PER_FLAG N_SETTINGS_PER_MEASUREMENT_V2
    n bs ->
  upgrade_v2 (layout n bs ++ extra)
  = Ok (layout n (map (map_block id add_rules) bs)).
Proof.
  intros [Hn Hbs]. unfold upgrade_v2, layout; simpl.
  rewrite Hn; simpl. rewrite range_len_of_nat.
  rewrite (v2_flags_layout bs _ [n] extra); [ done | done | | done ].
  done.
Qed.

(** *** Revision 1 *)

Lemma v1_measurements_layout (gs : list (list string)) :
  forall sv pre suf new idx,
    Forall (fun g => length g = 7%nat) gs ->
    sv = pre ++ concat gs ++ suf ->
    idx = length pre ->
    v1_measurements sv (length gs) (new, idx)
    = Ok (new ++ concat (map rename_head gs),
          (idx + length (concat gs))%nat).
Proof.
  induction gs as [|g gs IH]; intros sv pre suf new idx Hgs Hsv Hidx; simpl.
  - rewrite app_nil_r. do 2 f_equal. lia.
  - apply Forall_cons in Hgs as [Hg Hgs'].
    destruct g as [|s r]; [done|].
    rewrite (index_middle sv pre (r ++ concat gs ++ suf) s);
      [ | list_eq | done ].
    simpl.
    rewrite (slice_middle sv (pre ++ [s]) r (concat gs ++ suf));
      [ | list_eq | len_eq | simpl in *; len_eq ].
    rewrite (IH sv (pre ++ s :: r) suf); [ | done | list_eq | len_eq ].
    rewrite !length_app, <- !app_assoc; simpl. do 2 f_equal.
    simpl in Hg. lia.
Qed.

Lemma v1_flags_layout (bs : list Block) :
  forall sv pre suf new idx,
    Forall (shaped 4 7) bs ->
    sv = pre ++ flat_map flatten_block bs ++ suf ->
    idx = length pre ->
    v1_flags sv (length bs) (new, idx)
    = Ok (new ++ flat_map flatten_block
                   (map (map_block add_skip rename_head) bs),
          (idx + length (flat_map flatten_block bs))%nat).
Proof.
  induction bs as [|b bs IH]; intros sv pre suf new idx Hbs Hsv Hidx; simpl.
  - rewrite app_nil_r. do 2 f_equal. lia.
  - apply Forall_cons in Hbs as [Hb Hbs'].
    destruct b as [h gs]. destruct Hb as (Hh & Hgs & c & Hc & Hint).
    simpl in Hh, Hgs, Hc, Hint. destruct h as [|c' h']; [done|].
    injection Hc as ->. unfold flatten_block at 1 in Hsv; simpl in Hsv.
    rewrite (slice_middle sv pre (c :: h')
               (concat gs ++ flat_map flatten_block bs ++ suf));
      [ | list_eq | done | simpl in *; lia ].
    rewrite (index_middle sv pre
               (h' ++ concat gs ++ flat_map flatten_block bs ++ suf) c);
      [ | list_eq | done ].
    simpl. rewrite Hint; simpl. rewrite range_len_of_nat.
    rewrite (v1_measurements_layout gs sv (pre ++ c :: h')
               (flat_map flatten_block bs ++ suf));
      [ | done | list_eq | simpl in *; len_eq ].
    simpl.
    rewrite (IH sv (pre ++ (c :: h') ++ concat gs) suf);
      [ | done | list_eq | simpl in *; len_eq ].
    unfold flatten_block at 3 4, add_skip; simpl.
    rewrite !length_app, <- !app_assoc; simpl. f_equal. f_equal.
    + repeat (rewrite <- app_assoc; simpl). done.
    + unfold flatten_block in *; simpl in *; lia.
Qed.

Lemma upgrade_v1_layout (n : string) (bs : list Block)
    (extra : list string) :
  well_formed 4 7 n bs ->
  upgrade_v1 (layout n bs ++ extra)
  = Ok (layout n (map (map_block add_skip rename_head) bs)).
Proof.
  intros [Hn Hbs]. unfold upgrade_v1, layout; simpl.
  rewrite Hn; simpl. rewrite range_len_of_nat.
  rewrite (v1_flags_layout bs _ [n] extra); [ done | done | | done ].
  done.
Qed.

(** *** The chain *)

Lemma shaped_v1_v2 (b : Block) :
  shaped 4 7 b ->
  shaped N_FIXED_SETTINGS_PER_FLAG N_SETTINGS_PER_MEASUREMENT_V2
    (map_block add_skip rename_head b).
Proof.
  destruct b as [h gs]. intros (Hh & Hgs & c & Hc & Hint).
  unfold shaped, map_block; simpl in *.
  split; [ | split ].
  - unfold add_skip. rewrite length_app; simpl.
    unfold N_FIXED_SETTINGS_PER_FLAG. lia.
  - apply Forall_map. eapply Forall_impl; [ exact Hgs | ].
    intros [|s r] Hg; simpl in *; done.
  - exists c. rewrite length_map. split; [ | done ].
    destruct h; [ done | ]. simpl in *. done.
Qed.

Lemma shaped_v2_v3 (b : Block) :
  shaped N_FIXED_SETTINGS_PER_FLAG N_SETTINGS_PER_MEASUREMENT_V2 b ->
  shaped N_FIXED_SETTINGS_PER_FLAG N_SETTINGS_PER_MEASUREMENT_V3
    (map_block id add_rules b).
Proof.
  destruct b as [h gs]. intros (Hh & Hgs & c & Hc & Hint).
  unfold shaped, map_block; simpl in *.
  split; [ done | split ].
  - apply Forall_map. eapply Forall_impl; [ exact Hgs | ].
    intros g Hg; simpl in *. unfold add_rules. rewrite length_app, Hg.
    done.
  - exists c. by rewrite length_map.
Qed.

Lemma well_formed_v1_v2 (n : string) (bs : list Block) :
  well_formed 4 7 n bs ->
  well_formed N_FIXED_SETTINGS_PER_FLAG N_SETTINGS_PER_MEASUREMENT_V2 n
    (map (map_block add_skip rename_head) bs).
Proof.
  intros [Hn Hbs]. split; [ by rewrite length_map | ].
  apply Forall_map. eapply Forall_impl; [ exact Hbs | ].
  apply shaped_v1_v2.
Qed.

Lemma well_formed_v2_v3 (n : string) (bs : list Block) :
  well_formed N_FIXED_SETTINGS_PER_FLAG N_SETTINGS_PER_MEASUREMENT_V2
    n bs ->
  well_formed N_FIXED_SETTINGS_PER_FLAG N_SETTINGS_PER_MEASUREMENT_V3 n
    (map (map_block id add_rules) bs).
Proof.
  intros [Hn Hbs]. split; [ by rewrite length_map | ].
  apply Forall_map. eapply Forall_impl; [ exact Hbs | ].
  apply shaped_v2_v3.
Qed.

Lemma upgrade_from_v3 (n : string) (bs : list Block)
    (extra : list string) (name : string) :
  well_formed N_FIXED_SETTINGS_PER_FLAG N_SETTINGS_PER_MEASUREMENT_V3
    n bs ->
  upgrade_settings (layout n bs ++ extra) 3 name false
  = Ok (layout n (map (map_block id add_class) bs), 4, false).
Proof.
  intros Hwf. unfold upgrade_settings. steps.
  by rewrite (upgrade_v3_layout n bs extra Hwf).
Qed.

Lemma upgrade_from_v2 (n : string) (bs : list Block)
    (extra : list string) (name : string) :
  well_formed N_FIXED_SETTINGS_PER_FLAG N_SETTINGS_PER_MEASUREMENT_V2
    n bs ->
  upgrade_settings (layout n bs ++ extra) 2 name false
  = Ok (layout n (map (map_block id add_class)
                    (map (map_block id add_rules) bs)), 4, false).
Proof.
  intros Hwf. unfold upgrade_settings. steps.
  rewrite (upgrade_v2_layout n bs extra Hwf). steps.
  pose proof (upgrade_v3_layout n _ [] (well_formed_v2_v3 n bs Hwf)) as E.
  rewrite app_nil_r in E. by rewrite E.
Qed.

Lemma upgrade_from_v1 (n : string) (bs : list Block)
    (extra : list string) (name : string) :
  well_formed 4 7 n bs ->
  upgrade_settings (layout n bs ++ extra) 1 name false
  = Ok (layout n (map (map_block id add_class)
                    (map (map_block id add_rules)
                       (map (map_block add_skip rename_head) bs))),
        4, false).
Proof.
  intros Hwf. unfold upgrade_settings. steps.
  rewrite (upgrade_v1_layout n bs extra Hwf). steps.
  pose proof (well_formed_v1_v2 n bs Hwf) as Hwf2.
  pose proof (upgrade_v2_layout n _ [] Hwf2) as E2.
  rewrite app_nil_r in E2. rewrite E2. steps.
  pose proof (upgrade_v3_layout n _ [] (well_formed_v2_v3 n _ Hwf2)) as E3.
  rewrite app_nil_r in E3. by rewrite E3.
Qed.

(** *** Revision-1 flags as blocks *)

Lemma layout_v1_blocks (n : string) (fs : list LegacyFlag) :
  layout_v1 n fs = layout n (map block_of fs).
Proof.
  unfold layout_v1, layout. f_equal.
  induction fs as [|f fs IH]; simpl; [ done | ].
  rewrite <- IH. unfold flag_v1, flatten_block; simpl.
  do 5 f_equal. by rewrite flat_map_concat_map.
Qed.

Lemma layout_v4_blocks (n : string) (fs : list LegacyFlag) :
  layout_v4 n fs
  = layout n (map (map_block id add_class)
                (map (map_block id add_rules)
                   (map (map_block add_skip rename_head)
                      (map block_of fs)))).
Proof.
  unfold layout_v4, layout. f_equal.
  induction fs as [|f fs IH]; simpl; [ done | ].
  rewrite <- IH. unfold flag_v4, flatten_block; simpl.
  do 6 f_equal.
  induction (lf_measurements f) as [|m ms IHm]; simpl; [ done | ].
  by rewrite IHm.
Qed.

Lemma legacy_well_formed_blocks (n : string) (fs : list LegacyFlag) :
  legacy_well_formed n fs -> well_formed 4 7 n (map block_of fs).
Proof.
  intros [Hn Hfs]. split; [ by rewrite length_map | ].
  apply Forall_map. eapply Forall_impl; [ exact Hfs | ].
  intros f Hf. split; [ done | split ].
  - simpl. apply Forall_map. by apply Forall_true.
  - exists (lf_count f). simpl. by rewrite length_map.
Qed.

Lemma upgrade_legacy_layout (n : string) (fs : list LegacyFlag)
    (extra : list string) (name : string) :
  legacy_well_formed n fs ->
  upgrade_settings (layout_v1 n fs ++ extra) 1 name false
  = Ok (layout_v4 n fs, 4, false).
Proof.
  intros Hwf. rewrite layout_v1_blocks, layout_v4_blocks.
  apply upgrade_from_v1. by apply legacy_well_formed_blocks.
Qed.
End MigrationSteps.

(** ** Comparison of floats *)

Module FloatOrder.

Lemma SFcompare_antisym (a b : spec_float) :
  SFcompare b a = option_map CompOpp (SFcompare a b).
Proof.
  destruct a as [sa|sa| |sa ma ea], b as [sb|sb| |sb mb eb]; simpl;
    try reflexivity;
    try (destruct sa; reflexivity); try (destruct sb; reflexivity);
    try (destruct sa, sb; reflexivity).
  f_equal. destruct sa, sb; try reflexivity;
    rewrite (Z.compare_antisym ea eb);
    destruct (ea ?= eb)%Z; simpl; try reflexivity.
  - f_equal. by rewrite (Pos.compare_cont_antisym ma mb Eq).
  - by rewrite (Pos.compare_cont_antisym ma mb Eq).
Qed.

Lemma SFcompare_eq_left (a b x : spec_float) :
  SFcompare a b = Some Eq -> SFcompare a x = SFcompare b x.
Proof.
  destruct a as [sa|sa| |sa ma ea], b as [sb|sb| |sb mb eb]; simpl;
    try discriminate; try reflexivity;
    try (destruct sa; discriminate); try (destruct sb; discriminate).
  - destruct sa, sb; try discriminate; reflexivity.
  - intros E.
    assert (sa = sb /\ ea = eb /\ ma = mb) as (-> & -> & ->);
      [ | reflexivity ].
    destruct sa, sb; try discriminate;
      destruct (ea ?= eb)%Z eqn:Ee; try discriminate;
      apply Z.compare_eq in Ee; (split; [ done | split; [ done | ] ]);
      apply (Pos.compare_eq ma mb); unfold Pos.compare;
      destruct (Pos.compare_cont Eq ma mb); simpl in E; congruence.
Qed.

Lemma eqb_compare (x y : float) :
  PrimFloat.eqb x y = true -> SFcompare (Prim2SF x) (Prim2SF y) = Some Eq.
Proof.
  rewrite FloatAxioms.eqb_spec. unfold SFeqb.
  destruct (SFcompare _ _) as [[| |]|]; done.
Qed.

(** [x == y] excludes [x < y] and [y < x]. *)
Lemma eqb_not_ltb (x y : float) :
  PrimFloat.eqb x y = true ->
  PrimFloat.ltb x y = false /\ PrimFloat.ltb y x = false.
Proof.
  intros E%eqb_compare. rewrite !FloatAxioms.ltb_spec. unfold SFltb.
  rewrite (SFcompare_antisym (Prim2SF x) (Prim2SF y)), E. done.
Qed.

(** [a <= b] excludes [b < a]. *)
Lemma leb_not_ltb (a b : float) :
  PrimFloat.leb a b = true -> PrimFloat.ltb b a = false.
Proof.
  rewrite FloatAxioms.leb_spec, FloatAxioms.ltb_spec. unfold SFleb, SFltb.
  rewrite (SFcompare_antisym (Prim2SF a) (Prim2SF b)).
  destruct (SFcompare _ _) as [[| |]|]; done.
Qed.

(** Equal floats compare alike with any third one. *)
Lemma eqb_leb_l (x y z : float) :
  PrimFloat.eqb x y = true -> PrimFloat.leb x z = PrimFloat.leb y z.
Proof.
  intros E%eqb_compare. rewrite !FloatAxioms.leb_spec. unfold SFleb.
  by rewrite (SFcompare_eq_left _ _ (Prim2SF z) E).
Qed.

Lemma eqb_leb_r (x y z : float) :
  PrimFloat.eqb x y = true -> PrimFloat.leb z x = PrimFloat.leb z y.
Proof.
  intros E%eqb_compare. rewrite !FloatAxioms.leb_spec. unfold SFleb.
  rewrite (SFcompare_antisym (Prim2SF x) (Prim2SF z)).
  rewrite (SFcompare_antisym (Prim2SF y) (Prim2SF z)).
  by rewrite (SFcompare_eq_left _ _ (Prim2SF z) E).
Qed.

Lemma SFcompare_refl (a : spec_float) :
  a <> S754_nan -> SFcompare a a = Some Eq.
Proof.
  destruct a as [s|s| |s m e]; simpl; try done.
  - by destruct s.
  - intros _. rewrite Z.compare_refl, Pos.compare_cont_refl. by destruct s.
Qed.

Lemma SFcompare_defined (a b : spec_float) :
  a <> S754_nan -> b <> S754_nan -> exists c, SFcompare a b = Some c.
Proof.
  destruct a as [sa|sa| |sa ma ea], b as [sb|sb| |sb mb eb]; simpl;
    try done; by eexists.
Qed.

Lemma SFleb_trans (a b c : spec_float) :
  SFleb a b = true -> SFleb b c = true -> SFleb a c = true.
Proof.
  unfold SFleb.
  destruct a as [sa|sa| |sa ma ea], b as [sb|sb| |sb mb eb],
           c as [sc|sc| |sc mc ec]; simpl;
    try done;
    try (destruct sa; done); try (destruct sb; done);
    try (destruct sc; done);
    try (destruct sa, sb; done); try (destruct sb, sc; done);
    try (destruct sa, sc; done);
    try (destruct sa, sb, sc; done).
  change (Pos.compare_cont Eq ma mb) with (Pos.compare ma mb).
  change (Pos.compare_cont Eq mb mc) with (Pos.compare mb mc).
  change (Pos.compare_cont Eq ma mc) with (Pos.compare ma mc).
  destruct sa, sb, sc; try done;
    destruct (Z.compare_spec ea eb), (Z.compare_spec eb ec),
             (Z.compare_spec ea ec); try done; try lia;
    destruct (Pos.compare_spec ma mb), (Pos.compare_spec mb mc),
             (Pos.compare_spec ma mc); simpl; try done; try lia.
Qed.

Lemma is_nan_false (x : float) :
  PrimFloat.is_nan x = false <-> Prim2SF x <> S754_nan.
Proof.
  unfold PrimFloat.is_nan. rewrite FloatAxioms.eqb_spec. unfold SFeqb.
  split.
  - intros Hx Hnan. rewrite Hnan in Hx. simpl in Hx. done.
  - intros Hx. by rewrite (SFcompare_refl _ Hx).
Qed.

(** On floats that are not NaN, [<=] is reflexive, transitive and
    total. *)
Lemma leb_trans (x y z : float) :
  PrimFloat.leb x y = true -> PrimFloat.leb y z = true ->
  PrimFloat.leb x z = true.
Proof. rewrite !FloatAxioms.leb_spec. apply SFleb_trans. Qed.

Lemma leb_refl (x : float) :
  PrimFloat.is_nan x = false -> PrimFloat.leb x x = true.
Proof.
  intros Hx%is_nan_false. rewrite FloatAxioms.leb_spec. unfold SFleb.
  by rewrite (SFcompare_refl _ Hx).
Qed.

Lemma leb_total (x y : float) :
  PrimFloat.is_nan x = false -> PrimFloat.is_nan y = false ->
  PrimFloat.leb x y = false -> PrimFloat.leb y x = true.
Proof.
  intros Hx%is_nan_false Hy%is_nan_false.
  rewrite !FloatAxioms.leb_spec. unfold SFleb.
  rewrite (SFcompare_antisym (Prim2SF x) (Prim2SF y)).
  destruct (SFcompare_defined _ _ Hx Hy) as (c & ->).
  by destruct c.
Qed.

(** A value at a bound of an ordered interval is inside it. *)
Lemma at_bound_inside (v lo hi : float) :
  PrimFloat.leb lo hi = true ->
  PrimFloat.eqb v lo = true \/ PrimFloat.eqb v hi = true ->
  PrimFloat.ltb v lo = false /\ PrimFloat.ltb hi v = false.
Proof.
  intros Hle [E|E]; destruct (eqb_not_ltb _ _ E) as [Hlt Hgt].
  - split; [ done | ].
    apply leb_not_ltb. by rewrite (eqb_leb_l v lo hi E).
  - split; [ | done ].
    apply leb_not_ltb. by rewrite (eqb_leb_r v hi lo E).
Qed.

End FloatOrder.

(** ** The settings migrator: results *)

Section MigrationResults.
Context `{Externals}.

Lemma upgrade_settings_legacy (l : list string) (v : Z) (name : string) :
  v = 1 \/ v = 2 ->
  upgrade_settings l v name true
  = (sv ← unpack_matlab l v; upgrade_settings sv 1 name false).
Proof.
  intros [-> | ->]; unfold upgrade_settings;
    cbn -[unpack_matlab upgrade_v1 upgrade_v2 upgrade_v3];
    destruct (unpack_matlab _ _); reflexivity.
Qed.

Lemma unpack_matlab_v1 (image_name category feature min_value max_value
    new_or_append new_name old_name : string) :
  unpack_matlab [image_name; category; feature; min_value; max_value;
                 new_or_append; new_name; old_name] 1
  = Ok (layout_v1 "1"
          [imported_flag (Py.join "_" [category; feature; image_name])
             min_value max_value new_name]).
Proof.
  unfold unpack_matlab, imported_flag, layout_v1, flag_v1, measurement_v1.
  cbn -[Py.find Py.upto Py.from String.eqb Py.join].
  destruct (String.eqb min_value "No minimum"),
           (String.eqb max_value "No maximum"),
           (Py.find new_name "_" =? -1); reflexivity.
Qed.

Lemma unpack_matlab_v2 (image_name category feature scale min_value
    max_value new_or_append new_name old_name : string) :
  unpack_matlab [image_name; category; feature; scale; min_value;
                 max_value; new_or_append; new_name; old_name] 2
  = Ok (layout_v1 "1"
          [imported_flag
             (Py.join "_" [category; feature; image_name; scale])
             min_value max_value new_name]).
Proof.
  unfold unpack_matlab, imported_flag, layout_v1, flag_v1, measurement_v1.
  cbn -[Py.find Py.upto Py.from String.eqb Py.join].
  destruct (String.eqb min_value "No minimum"),
           (String.eqb max_value "No maximum"),
           (Py.find new_name "_" =? -1); reflexivity.
Qed.

Lemma imported_flag_well_formed (measurement_name min_value max_value
    new_name : string) :
  legacy_well_formed "1"
    [imported_flag measurement_name min_value max_value new_name].
Proof.
  split; [ reflexivity | ]. repeat constructor.
Qed.

Lemma length_layout_v4 (n : string) (fs : list LegacyFlag) :
  length (layout_v4 n fs)
  = (N_FIXED_SETTINGS
     + sum_list_with
         (fun f => N_FIXED_SETTINGS_PER_FLAG
                   + N_SETTINGS_PER_MEASUREMENT
                     * length (lf_measurements f)) fs)%nat.
Proof.
  unfold layout_v4; simpl. f_equal.
  induction fs as [|f fs IH]; simpl; [ done | ].
  rewrite length_app, IH. f_equal. f_equal.
  induction (lf_measurements f) as [|m ms IHm]; simpl; [ done | ].
  rewrite IHm. unfold N_SETTINGS_PER_MEASUREMENT. lia.
Qed.

(** C8: a well-formed revision-1 list (a flag count, then per flag 4
    settings and 7 settings per measurement group) migrates to the
    revision-4 list of the same flags (5 settings per flag, 10 per
    measurement group): every value is kept, the source is renamed, and
    the skip setting, the rules location, ["rules.txt"] and class ["1"]
    are added. The migration goes through revisions 2 and 3, from each
    of which it can be resumed; a legacy import of 8 or 9 values is
    first turned into the revision-1 list of one flag and then takes
    the same chain. The renaming takes ["Image"],
    ["Average for objects"] and ["All objects"] (or any source that
    starts with ["Measurement for all"]) to the three current choices
    and keeps every other source. *)
Theorem upgrade_settings_v1_to_v4 (n : string) (fs : list LegacyFlag)
    (name : string) :
  legacy_well_formed n fs ->
  upgrade_settings (layout_v1 n fs) 1 name false
  = Ok (layout_v4 n fs, 4, false)
  /\ length (layout_v4 n fs)
     = (N_FIXED_SETTINGS
        + sum_list_with
            (fun f => N_FIXED_SETTINGS_PER_FLAG
                      + N_SETTINGS_PER_MEASUREMENT
                        * length (lf_measurements f)) fs)%nat
  /\ (exists l2 l3,
        upgrade_v1 (layout_v1 n fs) = Ok l2
        /\ upgrade_v2 l2 = Ok l3
        /\ upgrade_v3 l3 = Ok (layout_v4 n fs)
        /\ upgrade_settings l2 2 name false = Ok (layout_v4 n fs, 4, false)
        /\ upgrade_settings l3 3 name false
           = Ok (layout_v4 n fs, 4, false))
  /\ (forall image_name category feature min_value max_value
             new_or_append new_name old_name,
        let imported :=
          [imported_flag (Py.join "_" [category; feature; image_name])
             min_value max_value new_name] in
        upgrade_settings
          [image_name; category; feature; min_value; max_value;
           new_or_append; new_name; old_name] 1 name true
        = upgrade_settings (layout_v1 "1" imported) 1 name false
        /\ upgrade_settings (layout_v1 "1" imported) 1 name false
           = Ok (layout_v4 "1" imported, 4, false))
  /\ (forall image_name category feature scale min_value max_value
             new_or_append new_name old_name,
        let imported :=
          [imported_flag
             (Py.join "_" [category; feature; image_name; scale])
             min_value max_value new_name] in
        upgrade_settings
          [image_name; category; feature; scale; min_value; max_value;
           new_or_append; new_name; old_name] 2 name true
        = upgrade_settings (layout_v1 "1" imported) 1 name false
        /\ upgrade_settings (layout_v1 "1" imported) 1 name false
           = Ok (layout_v4 "1" imported, 4, false))
  /\ (exists current : string -> string,
        upgrade_settings (layout_v1 n fs) 1 name false
        = Ok (n :: flat_map
                     (fun f =>
                        [lf_count f; lf_category f; lf_feature f;
                         lf_combination f; cps_NO]
                        ++ flat_map
                             (fun m =>
                                [current (lm_source m); lm_object m;
                                 lm_measurement m; lm_wants_minimum m;
                                 lm_minimum m; lm_wants_maximum m;
                                 lm_maximum m; default_rules_location;
                                 "rules.txt"; "1"])
                             (lf_measurements f))
                     fs,
              4, false)
        /\ current "Image" = "Whole-image measurement"
        /\ current "Average for objects"
           = "Average measurement for all objects in each image"
        /\ current "All objects"
           = "Measurements for all objects in each image"
        /\ (forall s,
              Py.startswith s "Measurement for all" = true ->
              current s = "Measurements for all objects in each image")
        /\ (forall s,
              s <> "Image" -> s <> "Average for objects" ->
              s <> "All objects" ->
              Py.startswith s "Measurement for all" = false ->
              current s = s)
        /\ (forall s,
              s ∈ ["Image"; "Average for objects"; "All objects"] ->
              current s ∈ S_ALL /\ current s <> S_RULES)).
Proof.
  intros Hwf.
  pose proof (legacy_well_formed_blocks n fs Hwf) as Hwf1.
  pose proof (well_formed_v1_v2 _ _ Hwf1) as Hwf2.
  pose proof (well_formed_v2_v3 _ _ Hwf2) as Hwf3.
  split; [ | split; [ | split; [ | split; [ | split ] ] ] ].
  - rewrite <- (app_nil_r (layout_v1 n fs)).
    by apply upgrade_legacy_layout.
  - apply length_layout_v4.
  - eexists _, _.
    rewrite layout_v1_blocks, layout_v4_blocks.
    pose proof (upgrade_v1_layout n _ [] Hwf1) as E1.
    pose proof (upgrade_v2_layout n _ [] Hwf2) as E2.
    pose proof (upgrade_v3_layout n _ [] Hwf3) as E3.
    pose proof (upgrade_from_v2 n _ [] name Hwf2) as F2.
    pose proof (upgrade_from_v3 n _ [] name Hwf3) as F3.
    rewrite app_nil_r in E1, E2, E3, F2, F3.
    repeat split; [ exact E1 | exact E2 | exact E3 | exact F2 | exact F3 ].
  - intros. subst imported. split.
    + rewrite upgrade_settings_legacy by (by left).
      by rewrite unpack_matlab_v1.
    + rewrite <- (app_nil_r (layout_v1 _ _)).
      apply upgrade_legacy_layout, imported_flag_well_formed.
  - intros. subst imported. split.
    + rewrite upgrade_settings_legacy by (by right).
      by rewrite unpack_matlab_v2.
    + rewrite <- (app_nil_r (layout_v1 _ _)).
      apply upgrade_legacy_layout, imported_flag_well_formed.
  - exists rename_source. split_and!.
    + rewrite <- (app_nil_r (layout_v1 n fs)).
      by rewrite (upgrade_legacy_layout n fs [] name Hwf).
    + reflexivity.
    + reflexivity.
    + reflexivity.
    + intros s Hstart. unfold rename_source. by rewrite Hstart.
    + intros s Himage Haverage Hall Hstart. unfold rename_source.
      rewrite Hstart.
      apply String.eqb_neq in Himage, Haverage, Hall.
      by rewrite Himage, Haverage, Hall.
    + intros s Hin.
      repeat (apply elem_of_cons in Hin as [-> | Hin];
              [ split; [ vm_compute | discriminate ] | ]).
      * left.
      * right. left.
      * do 2 right. left.
      * by apply elem_of_nil in Hin.
Qed.

(** *** Errors of the migrator *)

Lemma index_error {A} (l : list A) (i : nat) (e : exn) :
  Py.index l i = Raise e -> lookup_or_parse_error e.
Proof.
  unfold Py.index. destruct (l !! i); [ discriminate | ].
  by intros [= <-].
Qed.

Lemma int_error (x : string) (e : exn) :
  Py.int x = Raise e -> lookup_or_parse_error e.
Proof.
  unfold Py.int. repeat case_match; try discriminate; by intros [= <-].
Qed.

Lemma index_int_error (l : list string) (i : nat) (e : exn) :
  Py.index l i ≫= Py.int = Raise e -> lookup_or_parse_error e.
Proof.
  destruct (Py.index l i) as [x|e'] eqn:E; cbn.
  - apply int_error.
  - intros [= <-]. by eapply index_error.
Qed.













Lemma prepare_flags_error (k : nat) :
  forall sv e, prepare_flags sv k = Raise e -> lookup_or_parse_error e.
Proof.
  induction k as [|k IH]; intros sv e; cbn; [ discriminate | ].
  intros Hrun.
  apply bind_error in Hrun as [(e1 & E1 & ->) | (count & _ & Hrun)].
  { by eapply index_int_error. }
  apply bind_error in Hrun as [(e1 & E1 & ->) | (rest & _ & Hrun)].
  { by eapply IH. }
  discriminate.
Qed.



End MigrationResults.

(** ** The criterion evaluator: results *)

Section CriterionResults.
Context `{Externals}.

Lemma source_not_rules (ms : MeasurementGroup) :
  source_choice ms <> S_RULES ->
  String.eqb (source_choice ms) S_RULES = false.
Proof. intros Hs. by apply String.eqb_neq. Qed.

(** The locals of a criterion that is not a rules criterion have both
    [min_value] and [max_value] bound. *)
Lemma eval_source_bounds (fs : FileSystem) (ws : Workspace)
    (ms : MeasurementGroup) (l : Locals) :
  source_choice ms <> S_RULES ->
  eval_source fs ws ms = Ok l ->
  exists lo hi, min_value l = Some lo /\ max_value l = Some hi.
Proof.
  intros Hs%source_not_rules. unfold eval_source. rewrite Hs.
  destruct (String.eqb (source_choice ms) S_IMAGE).
  { destruct (get_current_image_measurement _ _); cbn; [ | discriminate ].
    intros [= <-]. by eexists _, _. }
  destruct (String.eqb (source_choice ms) S_AVERAGE_OBJECT).
  { destruct (get_current_measurement _ _ _) as [data|]; cbn;
      [ | discriminate ].
    destruct (length data =? 0)%nat; intros [= <-]; by eexists _, _. }
  destruct (String.eqb (source_choice ms) S_ALL_OBJECTS).
  { destruct (get_current_measurement _ _ _) as [data|]; cbn;
      [ | discriminate ].
    destruct (length data =? 0)%nat; intros [= <-]; by eexists _, _. }
  discriminate.
Qed.

(** C4, as amended: for a criterion that is not a rules criterion, the
    verdict is Fail exactly when the minimum is wanted and
    [min < minimum_value], or the maximum is wanted and
    [max > maximum_value], or the empty-data flag was set. A value equal
    to a bound is not failed by that bound. An image value equal to
    either bound of an ordered interval passes; in general an image
    value equal to one bound fails exactly when the other bound is
    wanted and fails it. *)
Theorem threshold_verdict (fs : FileSystem) (ws : Workspace)
    (ms : MeasurementGroup) (l : Locals) :
  source_choice ms <> S_RULES ->
  eval_source fs ws ms = Ok l ->
  exists lo hi failed,
    min_value l = Some lo /\ max_value l = Some hi
    /\ eval_measurement fs ws ms
       = Ok (negb failed,
             (source l, measurement ms, display_value l,
              if failed then "Fail" else "Pass"))
    /\ (failed = true <->
        (wants_minimum ms = true
         /\ PrimFloat.ltb lo (minimum_value ms) = true)
        \/ (wants_maximum ms = true
            /\ PrimFloat.ltb (maximum_value ms) hi = true)
        \/ fail l = true)
    /\ (PrimFloat.eqb lo (minimum_value ms) = true ->
        PrimFloat.ltb lo (minimum_value ms) = false)
    /\ (PrimFloat.eqb hi (maximum_value ms) = true ->
        PrimFloat.ltb (maximum_value ms) hi = false)
    /\ (source_choice ms = S_IMAGE ->
        lo = hi /\ fail l = false
        /\ (PrimFloat.leb (minimum_value ms) (maximum_value ms) = true ->
            PrimFloat.eqb lo (minimum_value ms) = true
            \/ PrimFloat.eqb lo (maximum_value ms) = true ->
            failed = false)
        /\ (PrimFloat.eqb lo (minimum_value ms) = true ->
            (failed = true <->
             wants_maximum ms = true
             /\ PrimFloat.ltb (maximum_value ms) lo = true))
        /\ (PrimFloat.eqb lo (maximum_value ms) = true ->
            (failed = true <->
             wants_minimum ms = true
             /\ PrimFloat.ltb lo (minimum_value ms) = true))).
Proof.
  intros Hs Hl.
  destruct (eval_source_bounds fs ws ms l Hs Hl) as (lo & hi & Hlo & Hhi).
  exists lo, hi, (final_fail ms l).
  split; [ done | split; [ done | ] ].
  assert (final_fail ms l
          = (fail l
             || (wants_minimum ms && PrimFloat.ltb lo (minimum_value ms))
             || (wants_maximum ms && PrimFloat.ltb (maximum_value ms) hi)))
    as Hfinal.
  { unfold final_fail. rewrite (source_not_rules ms Hs), Hlo, Hhi. simpl.
    by rewrite orb_false_r. }
  split; [ | split; [ | split; [ | split ] ] ].
  - unfold eval_measurement. rewrite Hl; cbn.
    by rewrite (source_not_rules ms Hs).
  - rewrite Hfinal, !orb_true_iff, !andb_true_iff. tauto.
  - intros E. by destruct (FloatOrder.eqb_not_ltb _ _ E).
  - intros E. by destruct (FloatOrder.eqb_not_ltb _ _ E).
  - intros Himage. revert Hl. unfold eval_source.
    rewrite Himage; cbn.
    destruct (get_current_image_measurement _ _) as [value|]; cbn;
      [ | discriminate ].
    intros [= <-]. simpl in Hlo, Hhi.
    injection Hlo as <-. injection Hhi as <-.
    split; [ done | split; [ done | ] ].
    split; [ | split ].
    + intros Hle Hat. rewrite Hfinal; simpl.
      destruct (FloatOrder.at_bound_inside value _ _ Hle Hat) as [-> ->].
      by rewrite !andb_false_r.
    + intros Hat. rewrite Hfinal; simpl.
      destruct (FloatOrder.eqb_not_ltb _ _ Hat) as [-> _].
      rewrite andb_false_r; simpl. apply andb_true_iff.
    + intros Hat. rewrite Hfinal; simpl.
      destruct (FloatOrder.eqb_not_ltb _ _ Hat) as [_ ->].
      rewrite andb_false_r, orb_false_r. apply andb_true_iff.
Qed.

(** An object criterion without data: the locals and the result. *)
Lemma empty_objects_eval (fs : FileSystem) (ws : Workspace)
    (ms : MeasurementGroup) :
  source_choice ms = S_AVERAGE_OBJECT \/ source_choice ms = S_ALL_OBJECTS ->
  get_current_measurement (measurements ws) (object_name ms)
    (measurement ms) = Ok [] ->
  exists src,
    eval_source fs ws ms
    = Ok {| min_value := Some PrimFloat.nan;
            max_value := Some PrimFloat.nan;
            fail := true;
            display_value := "No objects";
            source := src |}
    /\ eval_measurement fs ws ms
       = Ok (false, (src, measurement ms, "No objects", "Fail")).
Proof.
  intros [Hs | Hs] Hdata; unfold eval_measurement, eval_source, final_fail;
    rewrite Hs, Hdata; cbn; eexists; (split; [ reflexivity | ]);
    reflexivity.
Qed.

(** C5: an object criterion (average or all objects) on an empty vector
    does not raise: it is a Fail shown as "No objects", with NaN for
    [min_value] and [max_value], whatever the threshold settings. *)
Theorem empty_objects_fail (fs : FileSystem) (ws : Workspace)
    (ms : MeasurementGroup) :
  source_choice ms = S_AVERAGE_OBJECT \/ source_choice ms = S_ALL_OBJECTS ->
  get_current_measurement (measurements ws) (object_name ms)
    (measurement ms) = Ok [] ->
  exists src,
    eval_source fs ws ms
    = Ok {| min_value := Some PrimFloat.nan;
            max_value := Some PrimFloat.nan;
            fail := true;
            display_value := "No objects";
            source := src |}
    /\ PrimFloat.is_nan PrimFloat.nan = true
    /\ eval_measurement fs ws ms
       = Ok (false, (src, measurement ms, "No objects", "Fail")).
Proof.
  intros Hs Hdata.
  destruct (empty_objects_eval fs ws ms Hs Hdata) as (src & Hl & Heval).
  exists src. split; [ exact Hl | ]. split; [ reflexivity | exact Heval ].
Qed.

(** C10: a rules criterion reads its file when it is evaluated. With
    the file absent at that time the evaluation raises the validation
    error that names the path, and so does the run of a flag that
    starts with this criterion; with the file present the outcome is
    computed from the rules parsed from its content at that time. *)
Theorem eval_rules_reads_file (fs : FileSystem) (ws : Workspace)
    (ms : MeasurementGroup) :
  source_choice ms = S_RULES ->
  (fs !! rules_path ms = None ->
   let missing :=
     ValidationError ("No such rules file: " +:+ rules_path ms)
       (RefValue (rules_file_name ms)) in
   eval_measurement fs ws ms = Raise missing
   /\ forall flag rest,
        measurement_settings flag = ms :: rest ->
        run_flag fs ws flag = Raise missing)
  /\ (forall content,
        fs !! rules_path ms = Some content ->
        get_rules fs ms = rules_parse content
        /\ eval_source fs ws ms
           = (parsed ← rules_parse content;
              scores ← rules_score parsed (measurements ws);
              eval_rules scores (rules_class ms))).
Proof.
  intros Hs. split.
  - intros Hnone missing.
    assert (eval_measurement fs ws ms = Raise missing) as Heval.
    { unfold eval_measurement, eval_source, get_rules.
      rewrite Hs; cbn. fold (rules_path ms). by rewrite Hnone. }
    split; [ done | ].
    intros flag rest Hflag.
    unfold run_flag, run_flag_verdict. rewrite Hflag; cbn.
    by rewrite Heval.
  - intros content Hsome.
    assert (get_rules fs ms = rules_parse content) as Hget.
    { unfold get_rules. fold (rules_path ms). by rewrite Hsome. }
    split; [ done | ].
    unfold eval_source. rewrite Hs; cbn. by rewrite Hget.
Qed.

End CriterionResults.

(** ** The flag aggregator: results *)

Section AggregatorResults.
Context `{Externals}.


Lemma run_flag_rest_combines (fs : FileSystem) (ws : Workspace)
    (flag : Flag) (op : bool -> bool -> bool)
    (rest : list MeasurementGroup) (results : list (bool * Stats)) :
  (combination_choice flag = C_ALL /\ op = orb)
  \/ (combination_choice flag = C_ANY /\ op = andb) ->
  Forall2 (fun ms r => eval_measurement fs ws ms = Ok r) rest results ->
  forall ok statistics,
    run_flag_rest fs ws flag rest (ok, statistics)
    = Ok (fold_left op (map fst results) ok,
          statistics ++ flag_rows flag results).
Proof.
  intros Hop Hall.
  induction Hall as [|ms [ok_1 stats] rest results Hms _ IH];
    intros ok statistics; cbn -[String.eqb].
  - by rewrite app_nil_r.
  - rewrite Hms; cbn -[String.eqb].
    destruct Hop as [[-> ->] | [-> ->]]; cbn; rewrite IH;
      by rewrite <- app_assoc.
Qed.

(** C1: with two or more criteria, all of which evaluate, the verdict
    of a flag folds the pass booleans from left to right with [or]
    under "Flag if all fail" and with [and] under "Flag if any fail". *)
Theorem run_flag_combination (fs : FileSystem) (ws : Workspace)
    (flag : Flag) (r0 r1 : bool * Stats) (rs : list (bool * Stats)) :
  Forall2 (fun ms r => eval_measurement fs ws ms = Ok r)
    (measurement_settings flag) (r0 :: r1 :: rs) ->
  (combination_choice flag = C_ALL ->
   run_flag_verdict fs ws flag
   = Ok (fold_left orb (map fst (r1 :: rs)) r0.1,
         flag_rows flag (r0 :: r1 :: rs)))
  /\ (combination_choice flag = C_ANY ->
      run_flag_verdict fs ws flag
      = Ok (fold_left andb (map fst (r1 :: rs)) r0.1,
            flag_rows flag (r0 :: r1 :: rs))).
Proof.
  intros Hall. unfold run_flag_verdict.
  destruct (measurement_settings flag) as [|ms0 rest];
    [ inversion Hall | ].
  apply Forall2_cons in Hall as [H0 Hrest].
  cbn -[run_flag_rest]. rewrite H0. destruct r0 as [ok0 stats0].
  cbn -[run_flag_rest]. rewrite drop_0.
  split; intros Hchoice.
  - by rewrite (run_flag_rest_combines fs ws flag orb rest (r1 :: rs));
      [ | left | ].
  - by rewrite (run_flag_rest_combines fs ws flag andb rest (r1 :: rs));
      [ | right | ].
Qed.

Lemma run_flag_from_verdict (fs : FileSystem) (ws : Workspace)
    (flag : Flag) (ok : bool) (statistics : list (string * Stats)) :
  run_flag_verdict fs ws flag = Ok (ok, statistics) ->
  run_flag fs ws flag
  = Ok ({| measurements :=
             add_image_measurement (measurements ws)
               (measurement_name flag) (MInt (if ok then 0 else 1));
           disposition :=
             if negb ok && wants_skip flag then DISPOSITION_SKIP
             else disposition ws |},
        statistics).
Proof. intros Hv. unfold run_flag. by rewrite Hv. Qed.

(** C2: when the criteria of a flag have been evaluated to the verdict
    [ok], [run_flag] writes one image measurement, named
    [category_feature_name], the integer 0 if [ok] and 1 otherwise,
    leaving every other measurement as it was; with [ok] false and
    skipping wanted the disposition becomes SKIP. A flag over a single
    object criterion without data is written all the same, as 1. *)
Theorem run_flag_writes (fs : FileSystem) (ws : Workspace) (flag : Flag) :
  (forall ok statistics,
     run_flag_verdict fs ws flag = Ok (ok, statistics) ->
     exists ws' v,
       run_flag fs ws flag = Ok (ws', statistics)
       /\ v = (if ok then 0 else 1)
       /\ (v = 0 \/ v = 1)
       /\ measurement_name flag
          = category flag +:+ "_" +:+ feature_name flag
       /\ image_measurements (measurements ws')
          = <[measurement_name flag := MInt v]>
              (image_measurements (measurements ws))
       /\ image_measurements (measurements ws') !! measurement_name flag
          = Some (MInt v)
       /\ (forall other, other <> measurement_name flag ->
             image_measurements (measurements ws') !! other
             = image_measurements (measurements ws) !! other)
       /\ object_measurements (measurements ws')
          = object_measurements (measurements ws)
       /\ (ok = false -> wants_skip flag = true ->
           disposition ws' = DISPOSITION_SKIP)
       /\ (ok = true \/ wants_skip flag = false ->
           disposition ws' = disposition ws))
  /\ (forall ms,
        measurement_settings flag = [ms] ->
        source_choice ms = S_AVERAGE_OBJECT
        \/ source_choice ms = S_ALL_OBJECTS ->
        get_current_measurement (measurements ws) (object_name ms)
          (measurement ms) = Ok [] ->
        exists ws' statistics,
          run_flag fs ws flag = Ok (ws', statistics)
          /\ image_measurements (measurements ws') !! measurement_name flag
             = Some (MInt 1)).
Proof.
  split.
  - intros ok statistics Hv.
    eexists _, (if ok then 0 else 1).
    split; [ by apply run_flag_from_verdict | ].
    split; [ done | ].
    split; [ destruct ok; auto | ].
    split; [ done | ].
    split; [ done | ].
    split; [ cbn; by rewrite lookup_insert_eq | ].
    split; [ intros other Hne; cbn; by rewrite lookup_insert_ne | ].
    split; [ done | ].
    split; [ by intros -> -> | ].
    intros [-> | Hskip]; cbn; [ done | ].
    rewrite Hskip. by rewrite andb_false_r.
  - intros ms Hflag Hs Hdata.
    destruct (empty_objects_eval fs ws ms Hs Hdata) as (src & _ & He).
    eexists _, _. split.
    + apply run_flag_from_verdict.
      unfold run_flag_verdict. rewrite Hflag; cbn. rewrite He. done.
    + cbn. by rewrite lookup_insert_eq.
Qed.

(** C3, as amended: the integer written for a flag is 1 when the image
    is flagged (the verdict [ok] is false: the criteria fail as the
    combination requires) and 0 when it is not. *)
Theorem run_flag_polarity (fs : FileSystem) (ws : Workspace)
    (flag : Flag) (ok : bool) (statistics : list (string * Stats)) :
  run_flag_verdict fs ws flag = Ok (ok, statistics) ->
  exists ws',
    run_flag fs ws flag = Ok (ws', statistics)
    /\ (ok = false ->
        image_measurements (measurements ws') !! measurement_name flag
        = Some (MInt 1))
    /\ (ok = true ->
        image_measurements (measurements ws') !! measurement_name flag
        = Some (MInt 0)).
Proof.
  intros Hv. eexists. split; [ by apply run_flag_from_verdict | ].
  split; intros ->; cbn; by rewrite lookup_insert_eq.
Qed.

End AggregatorResults.

(** ** The rules criterion: results *)

Section RulesResults.
Context `{Externals}.

Lemma mapM_Ok {A B} (f : A -> res B) (l : list A) (k : list B) :
  Forall2 (fun x y => f x = Ok y) l k -> mapM f l = Ok k.
Proof.
  induction 1 as [|x y l k Hx _ IH]; cbn; [ done | ].
  rewrite Hx; cbn. by rewrite IH.
Qed.

Lemma selections_parse (selections : list string) (classes : list Z) :
  Forall2 (fun x c => Py.int x = Ok (c + 1)) selections classes ->
  mapM (fun x => i ← Py.int x; Ok (i - 1)) selections = Ok classes.
Proof.
  intros Hsel. apply mapM_Ok.
  eapply Forall2_impl; [ exact Hsel | ].
  intros x c Hx; cbn. rewrite Hx; cbn. by rewrite Z.add_simpl_r.
Qed.

Lemma kept_rows_zip (scores : matrix) :
  map snd (filter (fun p : bool * list float => p.1 = true)
             (zip (map Np.any_not_nan (rows scores)) (rows scores)))
  = kept_rows scores.
Proof.
  unfold kept_rows.
  induction (rows scores) as [|row l IH]; [ done | ].
  cbn [map zip_with]. rewrite !filter_cons. cbn [fst].
  destruct (decide (Np.any_not_nan row = true)); cbn [map snd];
    by rewrite IH.
Qed.

Lemma argmax_rows (n : nat) (l : list (list float)) :
  n <> 0%nat -> Forall (fun row => row <> []) l ->
  Np.argmax_axis1 n l = Ok (map class_of l).
Proof.
  intros Hn Hl. unfold Np.argmax_axis1.
  destruct (Nat.eqb_spec n 0); [ done | ].
  apply mapM_Ok. induction Hl as [|row l Hrow _ IH]; cbn; [ done | ].
  constructor; [ | done ]. by destruct row.
Qed.

Lemma pairs_of_row (o : nat) (classes : list Z) :
  NoDup classes ->
  length (filter (fun p : nat * Z => Z.of_nat p.1 = p.2)
            (c ← classes; [(o, c)]))
  = if decide (Z.of_nat o ∈ classes) then 1%nat else 0%nat.
Proof.
  induction 1 as [|c classes Hc _ IH].
  - by destruct (decide _) as [Hin%elem_of_nil|].
  - rewrite bind_cons. cbn [app]. rewrite filter_cons. cbn [fst snd].
    destruct (decide (Z.of_nat o = c)) as [<-|Hne]; cbn [length];
      rewrite IH.
    + destruct (decide (Z.of_nat o ∈ classes)); [ done | ].
      destruct (decide (Z.of_nat o ∈ Z.of_nat o :: classes)) as [|Hn];
        [ done | ].
      exfalso. apply Hn. by left.
    + destruct (decide (Z.of_nat o ∈ classes)) as [Hin|Hin];
        destruct (decide (Z.of_nat o ∈ c :: classes)) as [Hin'|Hin'];
        try done.
      * exfalso. apply Hin'. by right.
      * apply elem_of_cons in Hin' as [?|?]; done.
Qed.

(** Without repeated classes, the pairs that agree are the rows whose
    class is selected. *)
Lemma sum_eq_selected (objclass : list nat) (classes : list Z) :
  NoDup classes ->
  Np.sum_eq objclass classes
  = Z.of_nat (length (filter (fun o => Z.of_nat o ∈ classes) objclass)).
Proof.
  intros Hnd. unfold Np.sum_eq. f_equal.
  induction objclass as [|o l IH]; [ done | ].
  rewrite bind_cons, filter_app, length_app, IH.
  rewrite (pairs_of_row o classes Hnd), filter_cons.
  destruct (decide (Z.of_nat o ∈ classes)); done.
Qed.

Lemma filter_class_of (classes : list Z) (l : list (list float)) :
  length (filter (fun o => Z.of_nat o ∈ classes) (map class_of l))
  = length (filter (fun row => Z.of_nat (class_of row) ∈ classes) l).
Proof.
  induction l as [|row l IH]; [ done | ].
  cbn [map]. rewrite !filter_cons.
  destruct (decide (Z.of_nat (class_of row) ∈ classes)); cbn [length];
    by rewrite IH.
Qed.

Lemma argmax_scan_greatest (l : list float) :
  forall pre mp max_ind,
    Forall (fun y => PrimFloat.is_nan y = false) (pre ++ l) ->
    (pre ++ l) !! max_ind = Some mp ->
    Forall (fun y => PrimFloat.leb y mp = true) pre ->
    exists v,
      (pre ++ l) !! Np.argmax_scan mp max_ind (length pre) l = Some v
      /\ Forall (fun y => PrimFloat.leb y v = true) (pre ++ l).
Proof.
  induction l as [|x l IH]; intros pre mp max_ind Hnan Hmp Hpre.
  - exists mp. rewrite app_nil_r in *.
    split; [ | done ]. unfold Np.argmax_scan. by destruct (is_nan mp).
  - assert (PrimFloat.is_nan mp = false) as Hmpn.
    { rewrite Forall_forall in Hnan. apply Hnan.
      by eapply list_elem_of_lookup_2. }
    assert (PrimFloat.is_nan x = false) as Hxn.
    { rewrite Forall_forall in Hnan. apply Hnan.
      apply elem_of_app. right. by left. }
    cbn [Np.argmax_scan]. rewrite Hmpn.
    replace (pre ++ x :: l) with ((pre ++ [x]) ++ l) in *
      by (by rewrite <- app_assoc).
    replace (S (length pre)) with (length (pre ++ [x]))
      by (rewrite length_app; simpl; lia).
    destruct (PrimFloat.leb x mp) eqn:Hle; cbn [negb].
    + apply IH; [ done | done | ].
      apply Forall_app. split; [ done | by constructor ].
    + apply IH; [ done | | ].
      * rewrite lookup_app_l by (rewrite length_app; simpl; lia).
        by apply list_lookup_middle.
      * pose proof (FloatOrder.leb_total x mp Hxn Hmpn Hle) as Hge.
        apply Forall_app. split.
        -- eapply Forall_impl; [ exact Hpre | ].
           intros y Hy. exact (FloatOrder.leb_trans y mp x Hy Hge).
        -- constructor; [ by apply FloatOrder.leb_refl | done ].
Qed.

(** On a row without NaN, the class is the position of a greatest
    score. *)
Lemma class_of_greatest (row : list float) :
  row <> [] ->
  Forall (fun y => PrimFloat.is_nan y = false) row ->
  exists v, row !! class_of row = Some v
            /\ Forall (fun y => PrimFloat.leb y v = true) row.
Proof.
  destruct row as [|x r]; [ done | ]. intros _ Hnan.
  apply (argmax_scan_greatest r [x] x 0%nat); [ done | done | ].
  constructor; [ | done ]. apply FloatOrder.leb_refl.
  by apply Forall_cons in Hnan as [Hx _].
Qed.

Lemma eval_rules_vote (scores : matrix) (selections : list string)
    (classes : list Z) :
  Forall2 (fun x c => Py.int x = Ok (c + 1)) selections classes ->
  NoDup classes ->
  ncols scores <> 0%nat ->
  Forall (fun row => length row = ncols scores) (rows scores) ->
  let total := Z.of_nat (length (rows scores)) in
  let hit_count := hits scores classes in
  eval_rules scores selections
  = Ok {| min_value := None; max_value := None;
          fail := total - hit_count <? hit_count;
          display_value :=
            if 1 <? total
            then Py.fmt_d hit_count +:+ " of " +:+ Py.fmt_d total
            else "--";
          source := cpmeas_IMAGE |}.
Proof.
  intros Hsel Hnd Hn Hrows total hit_count. unfold eval_rules.
  rewrite (selections_parse _ _ Hsel); cbn -[Np.argmax_axis1 Np.sum_eq].
  rewrite kept_rows_zip.
  rewrite (argmax_rows (ncols scores) (kept_rows scores) Hn).
  - cbn -[Np.sum_eq].
    rewrite (sum_eq_selected _ _ Hnd), filter_class_of.
    reflexivity.
  - apply Forall_forall. intros row [_ Hrow]%list_elem_of_filter.
    rewrite Forall_forall in Hrows. specialize (Hrows row Hrow).
    destruct row; [ simpl in Hrows; congruence | done ].
Qed.

(** C6, as amended: a rules criterion with score matrix [scores] and
    selected classes [classes] (0-based, without repetition) drops the
    rows whose scores are all NaN, gives each kept row the class of its
    [argmax], and counts in [hit_count] the kept rows whose class is
    selected; it fails exactly when [hit_count > total - hit_count],
    where [total] counts all the rows of the matrix, and shows
    "hit_count of total" when [total > 1] and "--" otherwise. On a row
    without NaN the class is the position of a greatest score. *)
Theorem rules_vote (fs : FileSystem) (ws : Workspace) (ms : MeasurementGroup)
    (parsed : Rules) (scores : matrix) (classes : list Z) :
  source_choice ms = S_RULES ->
  get_rules fs ms = Ok parsed ->
  rules_score parsed (measurements ws) = Ok scores ->
  Forall2 (fun x c => Py.int x = Ok (c + 1)) (rules_class ms) classes ->
  NoDup classes ->
  ncols scores <> 0%nat ->
  Forall (fun row => length row = ncols scores) (rows scores) ->
  let total := Z.of_nat (length (rows scores)) in
  let hit_count := hits scores classes in
  let failed := total - hit_count <? hit_count in
  eval_measurement fs ws ms
  = Ok (negb failed,
        (cpmeas_IMAGE, "Rules",
         if 1 <? total
         then Py.fmt_d hit_count +:+ " of " +:+ Py.fmt_d total
         else "--",
         if failed then "Fail" else "Pass"))
  /\ (failed = true <-> hit_count > total - hit_count)
  /\ (forall row,
        row ∈ kept_rows scores
        <-> row ∈ rows scores
            /\ exists x, x ∈ row /\ PrimFloat.is_nan x = false)
  /\ (forall row,
        row ∈ rows scores ->
        Forall (fun y => PrimFloat.is_nan y = false) row ->
        exists v, row !! class_of row = Some v
                  /\ Forall (fun y => PrimFloat.leb y v = true) row).
Proof.
  intros Hs Hget Hscore Hsel Hnd Hn Hrows total hit_count failed.
  split; [ | split; [ | split ] ]; cycle 3.
  { intros row Hrow Hnan. apply class_of_greatest; [ | done ].
    rewrite Forall_forall in Hrows. specialize (Hrows row Hrow).
    destruct row; [ simpl in Hrows; congruence | done ]. }
  - unfold eval_measurement, eval_source, final_fail.
    rewrite Hs; cbn -[eval_rules]. rewrite Hget; cbn -[eval_rules].
    rewrite Hscore; cbn -[eval_rules].
    by rewrite (eval_rules_vote scores _ classes Hsel Hnd Hn Hrows).
  - unfold failed. rewrite Z.ltb_lt. lia.
  - intros row. unfold kept_rows. rewrite list_elem_of_filter.
    unfold Np.any_not_nan. rewrite existsb_exists.
    split.
    + intros [(x & Hx & Hnan) Hrow]. split; [ done | ].
      exists x. split; [ by apply list_elem_of_In | by apply negb_true_iff ].
    + intros [Hrow (x & Hx & Hnan)]. split; [ | done ].
      exists x. split; [ by apply list_elem_of_In | by rewrite Hnan ].
Qed.

End RulesResults.

(** ** Validation of rules: results *)

Section ValidationResults.
Context `{Externals}.

Lemma get_rules_path (fs : FileSystem) (ms : MeasurementGroup) :
  get_rules fs ms
  = match fs !! rules_path ms with
    | None =>
        Raise (ValidationError ("No such rules file: " +:+ rules_path ms)
                 (RefValue (rules_file_name ms)))
    | Some content => rules_parse content
    end.
Proof. reflexivity. Qed.

(** Invalid rules make the check of their measurement group raise. *)
Lemma validate_measurement_invalid (fs : FileSystem)
    (cols : list (string * string * string)) (i j : nat)
    (ms : MeasurementGroup) :
  source_choice ms = S_RULES ->
  invalid_rules fs cols ms ->
  exists msg,
    validate_measurement fs cols i j ms
    = Raise (ValidationError msg (RulesFileNameSetting i j)).
Proof.
  intros Hs Hbad. unfold validate_measurement.
  rewrite Hs; cbn -[get_rules]. rewrite get_rules_path.
  destruct Hbad as [Hnone | [(content & e & Hsome & Hparse)
                            | (content & parsed & r & Hsome & Hparse
                               & Hr & Hbad)]].
  - rewrite Hnone; cbn. by eexists.
  - rewrite Hsome, Hparse; cbn. by eexists.
  - rewrite Hsome, Hparse; cbn.
    destruct (forallb _ (rules parsed)) eqn:Hall; cbn; [ | by eexists ].
    destruct Hbad as [Hobj | Hfeat].
    + exfalso. rewrite forallb_forall in Hall.
      apply list_elem_of_In in Hr. specialize (Hall r Hr).
      by apply String.eqb_eq in Hall.
    + destruct (elements _) as [|feature l] eqn:Hel; [ | by eexists ].
      exfalso. apply elements_empty_inv in Hel.
      assert (rule_feature r ∈ (list_to_set (map rule_feature (rules parsed))
                                 : gset string)) as Hin.
      { apply elem_of_list_to_set, list_elem_of_In, in_map.
        by apply list_elem_of_In. }
      assert (rule_feature r ∉ (list_to_set (map (fun c => c.1.2) cols)
                                 : gset string)) as Hout.
      { by rewrite elem_of_list_to_set. }
      apply (not_elem_of_empty (C := gset string) (rule_feature r)).
      rewrite <- Hel. by apply elem_of_difference.
Qed.

(** The check of a measurement group raises nothing but a validation
    error on its own rules-file setting, and only for invalid rules. *)
Lemma validate_measurement_raises (fs : FileSystem)
    (cols : list (string * string * string)) (i j : nat)
    (ms : MeasurementGroup) (e : exn) :
  validate_measurement fs cols i j ms = Raise e ->
  source_choice ms = S_RULES
  /\ invalid_rules fs cols ms
  /\ exists msg, e = ValidationError msg (RulesFileNameSetting i j).
Proof.
  unfold validate_measurement.
  destruct (String.eqb_spec (source_choice ms) S_RULES) as [Hs|];
    [ | discriminate ].
  rewrite get_rules_path. unfold invalid_rules.
  destruct (fs !! rules_path ms) as [content|] eqn:Hfile; cbn.
  - destruct (rules_parse content) as [parsed|e'] eqn:Hparse; cbn.
    + destruct (forallb _ (rules parsed)) eqn:Hall; cbn.
      * destruct (elements _) as [|feature l] eqn:Hel; [ discriminate | ].
        intros [= <-]. split; [ done | ]. split; [ | by eexists ].
        right; right.
        assert (feature ∈ (list_to_set (map rule_feature (rules parsed))
                             : gset string)
                          ∖ list_to_set (map (fun c => c.1.2) cols))
          as [Hin Hout]%elem_of_difference.
        { apply elem_of_elements. rewrite Hel. by left. }
        apply elem_of_list_to_set, list_elem_of_In, in_map_iff in Hin
          as (r & <- & Hr).
        exists content, parsed, r.
        split_and!; [ done | done | by apply list_elem_of_In | ].
        right. by rewrite elem_of_list_to_set in Hout.
      * intros [= <-]. split; [ done | ]. split; [ | by eexists ].
        right; right.
        assert (exists r, In r (rules parsed)
                          /\ rule_object_name r <> cpmeas_IMAGE)
          as (r & Hr & Hobj).
        { clear -Hall. induction (rules parsed) as [|r l IH];
            [ discriminate | ].
          cbn in Hall. apply andb_false_iff in Hall as [Hr | Hl].
          - exists r. split; [ by left | ]. by apply String.eqb_neq.
          - destruct (IH Hl) as (r' & Hr' & Hobj). exists r'.
            split; [ by right | done ]. }
        exists content, parsed, r.
        split_and!; [ done | done | by apply list_elem_of_In | ].
        by left.
    + intros [= <-]. split; [ done | ]. split; [ | by eexists ].
      right; left. by exists content, e'.
  - intros [= <-]. split; [ done | ]. split; [ by left | by eexists ].
Qed.

Lemma validate_measurements_invalid (fs : FileSystem)
    (cols : list (string * string * string)) (i : nat)
    (l : list MeasurementGroup) :
  forall j0 k ms,
    l !! k = Some ms ->
    source_choice ms = S_RULES ->
    invalid_rules fs cols ms ->
    exists msg k' ms',
      validate_measurements fs cols i j0 l
      = Raise (ValidationError msg (RulesFileNameSetting i (j0 + k')))
      /\ (k' <= k)%nat
      /\ l !! k' = Some ms'
      /\ source_choice ms' = S_RULES
      /\ invalid_rules fs cols ms'.
Proof.
  induction l as [|m l IH]; intros j0 k ms Hk Hs Hbad; [ done | ].
  cbn -[validate_measurement].
  destruct (validate_measurement fs cols i j0 m) as [[]|e] eqn:Hm;
    cbn -[validate_measurement].
  - destruct k as [|k].
    + injection Hk as ->.
      destruct (validate_measurement_invalid fs cols i j0 ms Hs Hbad)
        as (msg & Hraise). congruence.
    + destruct (IH (S j0) k ms Hk Hs Hbad)
        as (msg & k' & ms' & Hrun & Hle & Hk' & Hs' & Hbad').
      exists msg, (S k'), ms'. rewrite Hrun.
      split_and!; [ do 3 f_equal; lia | lia | done | done | done ].
  - destruct (validate_measurement_raises fs cols i j0 m e Hm)
      as (Hs' & Hbad' & msg & ->).
    exists msg, 0%nat, m.
    split_and!; [ do 3 f_equal; lia | lia | done | done | done ].
Qed.

(** A group that raises nothing is either not a rules criterion or has
    valid rules; the checks of a list of groups raise nothing but a
    validation error on the setting of one of them. *)
Lemma validate_measurements_raises (fs : FileSystem)
    (cols : list (string * string * string)) (i : nat)
    (l : list MeasurementGroup) :
  forall j0 e,
    validate_measurements fs cols i j0 l = Raise e ->
    exists msg k ms,
      e = ValidationError msg (RulesFileNameSetting i (j0 + k))
      /\ l !! k = Some ms
      /\ source_choice ms = S_RULES
      /\ invalid_rules fs cols ms.
Proof.
  induction l as [|m l IH]; intros j0 e; [ discriminate | ].
  cbn -[validate_measurement].
  destruct (validate_measurement fs cols i j0 m) as [[]|e'] eqn:Hm;
    cbn -[validate_measurement].
  - intros Hrun. destruct (IH (S j0) e Hrun)
      as (msg & k & ms & -> & Hk & Hs & Hbad).
    exists msg, (S k), ms.
    split_and!; [ do 2 f_equal; lia | done | done | done ].
  - intros [= <-].
    destruct (validate_measurement_raises fs cols i j0 m e' Hm)
      as (Hs & Hbad & msg & ->).
    exists msg, 0%nat, m.
    split_and!; [ do 2 f_equal; lia | done | done | done ].
Qed.

Lemma validate_flags_invalid (fs : FileSystem)
    (cols : list (string * string * string)) (flags : list Flag) :
  forall i0 i j flag ms,
    flags !! i = Some flag ->
    measurement_settings flag !! j = Some ms ->
    source_choice ms = S_RULES ->
    invalid_rules fs cols ms ->
    exists msg i' j' flag' ms',
      validate_flags fs cols i0 flags
      = Raise (ValidationError msg (RulesFileNameSetting (i0 + i') j'))
      /\ (i' < i \/ (i' = i /\ j' <= j))%nat
      /\ flags !! i' = Some flag'
      /\ measurement_settings flag' !! j' = Some ms'
      /\ source_choice ms' = S_RULES
      /\ invalid_rules fs cols ms'.
Proof.
  induction flags as [|f flags IH]; intros i0 i j flag ms Hi Hj Hs Hbad;
    [ done | ].
  cbn -[validate_measurements].
  destruct (validate_measurements fs cols i0 0 (measurement_settings f))
    as [[]|e] eqn:Hf; cbn -[validate_measurements].
  - destruct i as [|i].
    + injection Hi as ->.
      destruct (validate_measurements_invalid fs cols i0
                  (measurement_settings flag) 0 j ms Hj Hs Hbad)
        as (msg & k' & ms' & Hrun & _). congruence.
    + destruct (IH (S i0) i j flag ms Hi Hj Hs Hbad)
        as (msg & i' & j' & flag' & ms' & Hrun & Hle & Hi' & Hj' & Hs'
            & Hbad').
      exists msg, (S i'), j', flag', ms'. rewrite Hrun.
      split_and!; [ do 3 f_equal; lia | lia | done | done | done | done ].
  - destruct (validate_measurements_raises fs cols i0
                (measurement_settings f) 0 e Hf)
      as (msg & k & ms' & -> & Hk & Hs' & Hbad').
    exists msg, 0%nat, k, f, ms'.
    split; [ do 3 f_equal; lia | ].
    split; [ | done ].
    destruct i as [|i]; [ | left; lia ].
    injection Hi as ->. right. split; [ done | ].
    destruct (le_lt_dec k j) as [Hle | Hlt]; [ done | ].
    exfalso.
    destruct (validate_measurements_invalid fs cols i0
                (measurement_settings flag) 0 j ms Hj Hs Hbad)
      as (msg' & k' & ms'' & Hrun & Hle' & _).
    rewrite Hrun in Hf. injection Hf as _ Hkk. lia.
Qed.


End ValidationResults.

(** ** The results on concrete inputs *)

Section Instances.
Import Sample.
#[local] Existing Instance Sample.externals.

Lemma upgrade_settings_v1_to_v4_witness :
  legacy_well_formed "1" legacy_flags
  /\ upgrade_settings (layout_v1 "1" legacy_flags) 1 "FlagImage" false
     = Ok (layout_v4 "1" legacy_flags, 4, false)
  /\ layout_v1 "1" legacy_flags
     = ["1"; "2"; "Metadata"; "QCFlag"; "Flag if any fail";
        "Image"; "None"; "ImageQuality_Focus"; "Yes"; "0.5"; "No"; "1";
        "All objects"; "Nuclei"; "AreaShape_Area"; "Yes"; "10"; "Yes";
        "20"]
  /\ layout_v4 "1" legacy_flags
     = ["1"; "2"; "Metadata"; "QCFlag"; "Flag if any fail"; "No";
        "Whole-image measurement"; "None"; "ImageQuality_Focus"; "Yes";
        "0.5"; "No"; "1"; "Default Input Folder|None"; "rules.txt"; "1";
        "Measurements for all objects in each image"; "Nuclei";
        "AreaShape_Area"; "Yes"; "10"; "Yes"; "20";
        "Default Input Folder|None"; "rules.txt"; "1"].
Proof.
  assert (legacy_well_formed "1" legacy_flags) as Hwf.
  { split; [ reflexivity | repeat constructor ]. }
  split; [ exact Hwf | ].
  split; [ | split; reflexivity ].
  exact (proj1 (upgrade_settings_v1_to_v4 "1" legacy_flags "FlagImage" Hwf)).
Defined.



(** Three criteria that fail, pass and fail under "Flag if any fail":
    the verdict is false. *)
Lemma run_flag_combination_witness :
  let fails := (false, ("Image", "Blur", "<value>", "Fail")) in
  let passes := (true, ("Image", "Focus", "<value>", "Pass")) in
  Forall2 (fun ms r => eval_measurement disk workspace ms = Ok r)
    (measurement_settings fail_pass_fail) [fails; passes; fails]
  /\ run_flag_verdict disk workspace fail_pass_fail
     = Ok (false, flag_rows fail_pass_fail [fails; passes; fails]).
Proof.
  intros fails passes.
  assert (Forall2 (fun ms r => eval_measurement disk workspace ms = Ok r)
            (measurement_settings fail_pass_fail) [fails; passes; fails])
    as Hall.
  { repeat constructor; vm_compute; reflexivity. }
  split; [ exact Hall | ].
  exact (proj2 (run_flag_combination disk workspace fail_pass_fail
                  fails passes [fails] Hall) eq_refl).
Defined.

Lemma run_flag_writes_witness :
  run_flag_verdict disk workspace no_nuclei
  = Ok (false, [("Metadata_QCFlag", ("Nuclei", "Area", "No objects", "Fail"))])
  /\ exists ws',
       run_flag disk workspace no_nuclei
       = Ok (ws', [("Metadata_QCFlag",
                    ("Nuclei", "Area", "No objects", "Fail"))])
       /\ image_measurements (measurements ws') !! "Metadata_QCFlag"
          = Some (MInt 1)
       /\ disposition ws' = DISPOSITION_CONTINUE.
Proof.
  assert (run_flag_verdict disk workspace no_nuclei
          = Ok (false, [("Metadata_QCFlag",
                         ("Nuclei", "Area", "No objects", "Fail"))]))
    as Hv.
  { vm_compute; reflexivity. }
  split; [ exact Hv | ].
  destruct (proj1 (run_flag_writes disk workspace no_nuclei) _ _ Hv)
    as (ws' & v & Hrun & -> & _ & _ & _ & Hget & _ & _ & _ & Hkeep).
  exists ws'. split; [ exact Hrun | ]. split; [ exact Hget | ].
  apply Hkeep. by right.
Defined.

(** A flagged image (the criterion fails, and the image set is skipped)
    gets the value 1, not 0; an image that is not flagged gets 0, not 1. *)
Lemma run_flag_polarity_counterexample :
  (exists ws' stats,
     run_flag disk workspace flagged = Ok (ws', stats)
     /\ run_flag_verdict disk workspace flagged = Ok (false, stats)
     /\ disposition ws' = DISPOSITION_SKIP
     /\ image_measurements (measurements ws') !! "Metadata_QCFlag"
        = Some (MInt 1)
     /\ image_measurements (measurements ws') !! "Metadata_QCFlag"
        <> Some (MInt 0))
  /\ (exists ws' stats,
        run_flag disk workspace unflagged = Ok (ws', stats)
        /\ run_flag_verdict disk workspace unflagged = Ok (true, stats)
        /\ disposition ws' = DISPOSITION_CONTINUE
        /\ image_measurements (measurements ws') !! "Metadata_QCFlag"
           = Some (MInt 0)
        /\ image_measurements (measurements ws') !! "Metadata_QCFlag"
           <> Some (MInt 1)).
Proof.
  split.
  - assert (run_flag_verdict disk workspace flagged
            = Ok (false, [("Metadata_QCFlag",
                           ("Image", "Blur", "<value>", "Fail"))])) as Hv.
    { vm_compute; reflexivity. }
    eexists _, _. split; [ exact (run_flag_from_verdict _ _ _ _ _ Hv) | ].
    split; [ exact Hv | ]. split; [ reflexivity | ].
    cbn. rewrite lookup_insert_eq. split; [ done | discriminate ].
  - assert (run_flag_verdict disk workspace unflagged
            = Ok (true, [("Metadata_QCFlag",
                          ("Image", "Focus", "<value>", "Pass"))])) as Hv.
    { vm_compute; reflexivity. }
    eexists _, _. split; [ exact (run_flag_from_verdict _ _ _ _ _ Hv) | ].
    split; [ exact Hv | ]. split; [ reflexivity | ].
    cbn. rewrite lookup_insert_eq. split; [ done | discriminate ].
Qed.

Lemma run_flag_polarity_witness :
  run_flag_verdict disk workspace flagged
  = Ok (false, [("Metadata_QCFlag", ("Image", "Blur", "<value>", "Fail"))])
  /\ exists ws',
       run_flag disk workspace flagged
       = Ok (ws', [("Metadata_QCFlag",
                    ("Image", "Blur", "<value>", "Fail"))])
       /\ image_measurements (measurements ws') !! measurement_name flagged
          = Some (MInt 1).
Proof.
  assert (run_flag_verdict disk workspace flagged
          = Ok (false, [("Metadata_QCFlag",
                         ("Image", "Blur", "<value>", "Fail"))])) as Hv.
  { vm_compute; reflexivity. }
  split; [ exact Hv | ].
  destruct (run_flag_polarity disk workspace flagged _ _ Hv)
    as (ws' & Hrun & Hone & _).
  exists ws'. split; [ exact Hrun | ]. by apply Hone.
Defined.

(** "Focus" is 0.5, the lower bound of the criterion: it passes. *)
Lemma threshold_verdict_witness :
  source_choice focused <> S_RULES
  /\ eval_source disk workspace focused
     = Ok {| min_value := Some 0.5%float; max_value := Some 0.5%float;
             fail := false; display_value := "<value>";
             source := "Image" |}
  /\ exists failed,
       eval_measurement disk workspace focused
       = Ok (negb failed,
             ("Image", "Focus", "<value>",
              if failed then "Fail" else "Pass"))
       /\ failed = false.
Proof.
  assert (source_choice focused <> S_RULES) as Hs by discriminate.
  assert (eval_source disk workspace focused
          = Ok {| min_value := Some 0.5%float; max_value := Some 0.5%float;
                  fail := false; display_value := "<value>";
                  source := "Image" |}) as Hl.
  { vm_compute; reflexivity. }
  split; [ exact Hs | ]. split; [ exact Hl | ].
  destruct (threshold_verdict disk workspace focused _ Hs Hl)
    as (lo & hi & failed & Hlo & Hhi & Heval & _ & _ & _ & Himage).
  exists failed. split; [ exact Heval | ].
  injection Hlo as <-.
  destruct (Himage eq_refl) as (_ & _ & Hbound & _).
  apply Hbound; [ reflexivity | left; reflexivity ].
Defined.

(** "Focus" is 0.5 and equal to the minimum 0.5, but the maximum is
    0.25: a value exactly at the minimum fails. *)
Lemma threshold_verdict_counterexample :
  let ms := image_criterion "Focus" 0.5 0.25 in
  get_current_image_measurement (measurements workspace) (measurement ms)
  = Ok 0.5%float
  /\ PrimFloat.eqb 0.5 (minimum_value ms) = true
  /\ source_choice ms <> S_RULES
  /\ eval_measurement disk workspace ms
     = Ok (false, ("Image", "Focus", "<value>", "Fail")).
Proof. split_and!; [ | | discriminate | ]; vm_compute; reflexivity. Qed.

Lemma empty_objects_fail_witness :
  let ms := object_criterion S_ALL_OBJECTS "Nuclei" "Area" in
  get_current_measurement (measurements workspace) (object_name ms)
    (measurement ms) = Ok []
  /\ exists src,
       eval_measurement disk workspace ms
       = Ok (false, (src, "Area", "No objects", "Fail")).
Proof.
  intros ms.
  assert (get_current_measurement (measurements workspace) (object_name ms)
            (measurement ms) = Ok []) as Hdata.
  { vm_compute; reflexivity. }
  split; [ exact Hdata | ].
  destruct (empty_objects_fail disk workspace ms (or_intror eq_refl) Hdata)
    as (src & _ & _ & Heval).
  exists src. exact Heval.
Defined.

Lemma eval_rules_reads_file_witness :
  let ms := rules_criterion ["1"] in
  (∅ : FileSystem) !! rules_path ms = None
  /\ eval_measurement ∅ workspace ms
     = Raise (ValidationError "No such rules file: /rules/rules.txt"
                (RefValue "rules.txt"))
  /\ disk !! rules_path ms = Some "IF (...)"
  /\ get_rules disk ms = rules_parse "IF (...)".
Proof.
  intros ms.
  split; [ reflexivity | ].
  split.
  - exact (proj1 (proj1 (eval_rules_reads_file ∅ workspace ms eq_refl)
                    eq_refl)).
  - assert (disk !! rules_path ms = Some "IF (...)") as Hfile.
    { vm_compute; reflexivity. }
    split; [ exact Hfile | ].
    exact (proj1 (proj2 (eval_rules_reads_file disk workspace ms eq_refl)
                    _ Hfile)).
Defined.

(** One row with the scores [0.79; -0.79] and class 1 selected: one hit
    out of one row, shown as "--", and the criterion fails. *)
Lemma rules_vote_witness :
  let ms := rules_criterion ["1"] in
  hits one_row [0] = 1
  /\ Z.of_nat (length (rows one_row)) = 1
  /\ eval_measurement disk workspace ms
     = Ok (false, ("Image", "Rules", "--", "Fail")).
Proof.
  intros ms.
  split; [ vm_compute; reflexivity | ]. split; [ reflexivity | ].
  assert (get_rules disk ms = Ok {| rules := [] |}) as Hget.
  { vm_compute; reflexivity. }
  assert (Forall2 (fun x c => Py.int x = Ok (c + 1)) (rules_class ms) [0])
    as Hsel.
  { repeat constructor. }
  assert (NoDup [0]) as Hnd.
  { apply NoDup_singleton. }
  assert (Forall (fun row => length row = ncols one_row) (rows one_row))
    as Hrows.
  { repeat constructor. }
  exact (proj1 (rules_vote disk workspace ms _ one_row [0] eq_refl Hget
                  eq_refl Hsel Hnd (fun E => O_S 1 (eq_sym E)) Hrows)).
Defined.

(** A row with one NaN score is kept and its class is that of the NaN:
    the criterion fails where the specification's vote passes. Rows that
    are all NaN are dropped but still count in the total: the criterion
    passes, shown as "1 of 3", where the specification's vote fails and
    shows "--". *)
Lemma rules_vote_counterexample :
  let ms := rules_criterion ["1"] in
  (@eval_measurement (externals_scoring half_nan_row) disk workspace ms
   = Ok (false, ("Image", "Rules", "--", "Fail"))
   /\ SpecRules.fails half_nan_row [0] = false)
  /\ (@eval_measurement (externals_scoring two_nan_rows) disk workspace ms
      = Ok (true, ("Image", "Rules", "1 of 3", "Pass"))
      /\ SpecRules.fails two_nan_rows [0] = true
      /\ SpecRules.display two_nan_rows [0] = "--").
Proof. repeat split; vm_compute; reflexivity. Qed.


End Instances.

(** * Further properties of the module *)

(** ** One flag *)

Section FlagSemantics.
Context `{Externals}.

Lemma fold_left_andb (l : list bool) (b : bool) :
  fold_left andb l b = false <-> b = false \/ Exists (fun x => x = false) l.
Proof.
  revert b. induction l as [|x l IH]; intros b; simpl.
  - rewrite Exists_nil. tauto.
  - rewrite IH, Exists_cons, andb_false_iff. tauto.
Qed.

Lemma fold_left_orb (l : list bool) (b : bool) :
  fold_left orb l b = false <-> b = false /\ Forall (fun x => x = false) l.
Proof.
  revert b. induction l as [|x l IH]; intros b; simpl.
  - rewrite Forall_nil. tauto.
  - rewrite IH, Forall_cons, orb_false_iff. tauto.
Qed.

(** The verdict of a flag whose criteria all evaluate, for a combination
    choice that is implemented. *)
Lemma run_flag_verdict_fold (fs : FileSystem) (ws : Workspace) (flag : Flag)
    (op : bool -> bool -> bool) (r0 : bool * Stats)
    (rs : list (bool * Stats)) :
  (combination_choice flag = C_ALL /\ op = orb)
  \/ (combination_choice flag = C_ANY /\ op = andb) ->
  Forall2 (fun ms r => eval_measurement fs ws ms = Ok r)
    (measurement_settings flag) (r0 :: rs) ->
  run_flag_verdict fs ws flag
  = Ok (fold_left op (map fst rs) r0.1, flag_rows flag (r0 :: rs)).
Proof.
  intros Hop Hall. unfold run_flag_verdict.
  destruct (measurement_settings flag) as [|ms0 rest];
    [ inversion Hall | ].
  apply Forall2_cons in Hall as [H0 Hrest].
  cbn -[run_flag_rest]. rewrite H0. destruct r0 as [ok0 stats0].
  cbn -[run_flag_rest]. rewrite drop_0.
  by rewrite (run_flag_rest_combines fs ws flag op rest rs Hop Hrest).
Qed.

(** X1: the value written for a flag says what the combination choice
    names. Under "Flag if any fail" the flag is 1 exactly when at least
    one criterion fails; under "Flag if all fail" it is 1 exactly when
    every criterion fails. *)
Theorem run_flag_any_all (fs : FileSystem) (ws : Workspace) (flag : Flag)
    (results : list (bool * Stats)) :
  results <> [] ->
  Forall2 (fun ms r => eval_measurement fs ws ms = Ok r)
    (measurement_settings flag) results ->
  combination_choice flag = C_ANY \/ combination_choice flag = C_ALL ->
  exists ws' v,
    run_flag fs ws flag = Ok (ws', flag_rows flag results)
    /\ image_measurements (measurements ws') !! measurement_name flag
       = Some (MInt v)
    /\ (v = 0 \/ v = 1)
    /\ (combination_choice flag = C_ANY ->
        (v = 1 <-> Exists (fun r => r.1 = false) results))
    /\ (combination_choice flag = C_ALL ->
        (v = 1 <-> Forall (fun r => r.1 = false) results)).
Proof.
  intros Hne Hall Hchoice.
  destruct results as [|r0 rs]; [ done | ].
  assert (exists op,
    ((combination_choice flag = C_ALL /\ op = orb)
     \/ (combination_choice flag = C_ANY /\ op = andb))) as (op & Hop).
  { destruct Hchoice as [Hany | Hall']; [ exists andb | exists orb ]; auto. }
  pose proof (run_flag_verdict_fold fs ws flag op r0 rs Hop Hall) as Hv.
  pose proof (run_flag_from_verdict fs ws flag _ _ Hv) as Hrun.
  eexists _, _. split; [ exact Hrun | ].
  split; [ cbn; by rewrite lookup_insert_eq | ].
  split; [ destruct (fold_left op _ _); auto | ].
  assert (forall b : bool, (if b then 0 else 1) = 1 <-> b = false) as Hone.
  { intros [|]; split; done. }
  split; intros Hc; rewrite Hone.
  - destruct Hop as [[Hc' _] | [_ ->]];
      [ rewrite Hc in Hc'; discriminate | ].
    rewrite fold_left_andb, Exists_cons, Exists_fmap. tauto.
  - destruct Hop as [[_ ->] | [Hc' _]];
      [ | rewrite Hc in Hc'; discriminate ].
    rewrite fold_left_orb, Forall_cons, Forall_fmap. tauto.
Qed.

End FlagSemantics.

Section FlagErrors.
Context `{Externals}.

Lemma run_flag_rest_error (fs : FileSystem) (ws : Workspace) (flag : Flag)
    (pre : list MeasurementGroup) (results : list (bool * Stats))
    (ms : MeasurementGroup) (suf : list MeasurementGroup) (e : exn) :
  combination_choice flag = C_ANY \/ combination_choice flag = C_ALL ->
  Forall2 (fun m r => eval_measurement fs ws m = Ok r) pre results ->
  eval_measurement fs ws ms = Raise e ->
  forall st, run_flag_rest fs ws flag (pre ++ ms :: suf) st = Raise e.
Proof.
  intros Hchoice Hpre Hms.
  induction Hpre as [|m [ok_1 stats] pre results Hm _ IH];
    intros [ok statistics]; cbn -[String.eqb].
  - by rewrite Hms.
  - rewrite Hm; cbn -[String.eqb].
    destruct Hchoice as [-> | ->]; cbn; apply IH.
Qed.

(** X2: every criterion of a flag is evaluated, whatever the verdict so
    far: when the criteria before one evaluate and this one raises,
    [run_flag] raises the same error and writes nothing. From the third
    criterion on this needs an implemented combination choice, which is
    checked after each criterion but the first. *)
Theorem run_flag_first_error (fs : FileSystem) (ws : Workspace) (flag : Flag)
    (pre : list MeasurementGroup) (results : list (bool * Stats))
    (ms : MeasurementGroup) (suf : list MeasurementGroup) (e : exn) :
  measurement_settings flag = pre ++ ms :: suf ->
  Forall2 (fun m r => eval_measurement fs ws m = Ok r) pre results ->
  eval_measurement fs ws ms = Raise e ->
  (length pre <= 1)%nat
  \/ combination_choice flag = C_ANY \/ combination_choice flag = C_ALL ->
  run_flag_verdict fs ws flag = Raise e
  /\ run_flag fs ws flag = Raise e.
Proof.
  intros Hflag Hpre Hms Hchoice.
  assert (run_flag_verdict fs ws flag = Raise e) as Hv.
  { unfold run_flag_verdict. rewrite Hflag.
    destruct Hpre as [|m0 [ok0 stats0] pre results Hm0 Hpre].
    - cbn -[run_flag_rest]. by rewrite Hms.
    - cbn -[run_flag_rest]. rewrite Hm0; cbn -[run_flag_rest].
      rewrite drop_0.
      destruct Hchoice as [Hlen | Hchoice].
      + destruct pre as [|m1 pre]; [ | simpl in Hlen; lia ].
        cbn -[String.eqb]. by rewrite Hms.
      + by apply (run_flag_rest_error fs ws flag pre results ms suf e). }
  split; [ exact Hv | ]. unfold run_flag. by rewrite Hv.
Qed.

(** X3: the combination choice plays no part in a flag with a single
    criterion, whose verdict is that of the criterion; with two criteria
    or more that evaluate, a choice other than the two implemented ones
    raises [NotImplementedError]; a flag without criterion raises
    [IndexError]. *)
Theorem run_flag_combination_choice (fs : FileSystem) (ws : Workspace)
    (flag : Flag) :
  (forall ms0 r0,
     measurement_settings flag = [ms0] ->
     eval_measurement fs ws ms0 = Ok r0 ->
     run_flag_verdict fs ws flag
     = Ok (r0.1, [(measurement_name flag, r0.2)]))
  /\ (forall ms0 ms1 rest r0 r1,
        measurement_settings flag = ms0 :: ms1 :: rest ->
        eval_measurement fs ws ms0 = Ok r0 ->
        eval_measurement fs ws ms1 = Ok r1 ->
        combination_choice flag <> C_ALL ->
        combination_choice flag <> C_ANY ->
        run_flag fs ws flag
        = Raise (NotImplementedError
                   ("Unimplemented combination choice: "
                    +:+ combination_choice flag)))
  /\ (measurement_settings flag = [] ->
      run_flag fs ws flag = Raise IndexError).
Proof.
  split; [ | split ].
  - intros ms0 [ok0 stats0] Hflag H0.
    unfold run_flag_verdict. rewrite Hflag; cbn. by rewrite H0.
  - intros ms0 ms1 rest [ok0 stats0] [ok1 stats1] Hflag H0 H1 Hall Hany.
    unfold run_flag, run_flag_verdict. rewrite Hflag.
    cbn -[String.eqb]. rewrite H0; cbn -[String.eqb].
    rewrite H1; cbn -[String.eqb].
    apply String.eqb_neq in Hall, Hany. by rewrite Hall, Hany.
  - intros Hflag. unfold run_flag, run_flag_verdict. by rewrite Hflag.
Qed.

End FlagErrors.

(** ** All the flags of the module *)

Section RunResults.
Context `{Externals}.

Lemma run_flag_inv (fs : FileSystem) (ws ws' : Workspace) (flag : Flag)
    (statistics : list (string * Stats)) :
  run_flag fs ws flag = Ok (ws', statistics) ->
  exists ok,
    run_flag_verdict fs ws flag = Ok (ok, statistics)
    /\ ws' = {| measurements :=
                 add_image_measurement (measurements ws)
                   (measurement_name flag) (MInt (if ok then 0 else 1));
               disposition :=
                 if negb ok && wants_skip flag then DISPOSITION_SKIP
                 else disposition ws |}.
Proof.
  unfold run_flag.
  destruct (run_flag_verdict fs ws flag) as [[ok stats]|e]; cbn;
    [ | discriminate ].
  intros [= <- <-]. by exists ok.
Qed.

Lemma run_flag_rest_rows (fs : FileSystem) (ws : Workspace) (flag : Flag)
    (rest : list MeasurementGroup) :
  forall ok statistics ok' statistics',
    run_flag_rest fs ws flag rest (ok, statistics) = Ok (ok', statistics') ->
    map fst statistics'
    = map fst statistics ++ replicate (length rest) (measurement_name flag).
Proof.
  induction rest as [|ms rest IH]; intros ok statistics ok' statistics';
    cbn -[String.eqb].
  - intros [= _ <-]. by rewrite app_nil_r.
  - destruct (eval_measurement fs ws ms) as [[ok_1 stats]|e];
      cbn -[String.eqb]; [ | discriminate ].
    destruct (String.eqb (combination_choice flag) C_ALL);
      [ | destruct (String.eqb (combination_choice flag) C_ANY) ];
      cbn -[String.eqb]; try discriminate;
      intros Hrest%IH; rewrite Hrest, map_app, <- app_assoc; done.
Qed.

Lemma run_flag_verdict_rows (fs : FileSystem) (ws : Workspace) (flag : Flag)
    (ok : bool) (statistics : list (string * Stats)) :
  run_flag_verdict fs ws flag = Ok (ok, statistics) ->
  map fst statistics
  = replicate (length (measurement_settings flag)) (measurement_name flag).
Proof.
  unfold run_flag_verdict.
  destruct (measurement_settings flag) as [|ms0 rest]; [ discriminate | ].
  cbn -[run_flag_rest].
  destruct (eval_measurement fs ws ms0) as [[ok0 stats0]|e];
    cbn -[run_flag_rest]; [ | discriminate ].
  rewrite drop_0. intros Hrest%run_flag_rest_rows. by rewrite Hrest.
Qed.

Lemma run_flags_rows (fs : FileSystem) (flags : list Flag) :
  forall ws acc ws' statistics,
    run_flags fs ws flags acc = Ok (ws', statistics) ->
    map fst statistics
    = map fst acc
      ++ flat_map (fun flag =>
                     replicate (length (measurement_settings flag))
                       (measurement_name flag)) flags.
Proof.
  induction flags as [|flag flags IH]; intros ws acc ws' statistics;
    cbn -[run_flag].
  - intros [= _ <-]. by rewrite app_nil_r.
  - destruct (run_flag fs ws flag) as [[ws1 stats]|e] eqn:Hflag;
      cbn -[run_flag]; [ | discriminate ].
    intros Hrest%IH. rewrite Hrest, map_app, <- app_assoc. do 2 f_equal.
    apply run_flag_inv in Hflag as (ok & Hv & _).
    by apply run_flag_verdict_rows in Hv.
Qed.

(** X4: the statistics table of a run that completes has one row per
    criterion, flag after flag in the order of the settings, each row
    under the measurement name of its flag. *)
Theorem run_rows (fs : FileSystem) (ws ws' : Workspace) (flags : list Flag)
    (statistics : list (string * Stats)) :
  run fs ws flags = Ok (ws', statistics) ->
  map fst statistics
  = flat_map (fun flag =>
                replicate (length (measurement_settings flag))
                  (measurement_name flag)) flags
  /\ length statistics
     = sum_list_with (fun flag => length (measurement_settings flag)) flags.
Proof.
  intros Hrun%run_flags_rows. simpl in Hrun. split; [ exact Hrun | ].
  rewrite <- (length_map fst statistics), Hrun. clear Hrun.
  induction flags as [|flag flags IH]; simpl; [ done | ].
  by rewrite length_app, length_replicate, IH.
Qed.

Lemma run_flags_store (fs : FileSystem) (flags : list Flag) :
  forall ws acc ws' statistics,
    run_flags fs ws flags acc = Ok (ws', statistics) ->
    (forall flag, flag ∈ flags ->
       image_measurements (measurements ws') !! measurement_name flag
       = Some (MInt 0)
       \/ image_measurements (measurements ws') !! measurement_name flag
          = Some (MInt 1))
    /\ (forall name, name ∉ map measurement_name flags ->
          image_measurements (measurements ws') !! name
          = image_measurements (measurements ws) !! name)
    /\ (forall name v,
          image_measurements (measurements ws') !! name = Some v ->
          image_measurements (measurements ws) !! name = Some v
          \/ v = MInt 0 \/ v = MInt 1)
    /\ object_measurements (measurements ws')
       = object_measurements (measurements ws).
Proof.
  induction flags as [|flag flags IH]; intros ws acc ws' statistics;
    cbn -[run_flag measurement_name].
  - intros [= <- _]. split; [ | split; [ | split ] ]; try done.
    + intros flag Hin. by apply elem_of_nil in Hin.
    + intros name v Hv. by left.
  - destruct (run_flag fs ws flag) as [[ws1 stats]|e] eqn:Hflag;
      cbn -[run_flag measurement_name]; [ | discriminate ].
    intros (Hflags & Hother & Hvalues & Hobj)%IH.
    apply run_flag_inv in Hflag as (ok & _ & ->).
    cbn [measurements image_measurements object_measurements
         add_image_measurement] in *.
    split; [ | split; [ | split ] ].
    + intros f [-> | Hin]%elem_of_cons; [ | by apply Hflags ].
      destruct (decide (measurement_name flag
                        ∈ map measurement_name flags)) as [Hlater | Hlater].
      * apply list_elem_of_In, in_map_iff in Hlater as (f' & Heq & Hf').
        rewrite <- Heq. apply Hflags. by apply list_elem_of_In.
      * rewrite (Hother _ Hlater), lookup_insert_eq.
        destruct ok; auto.
    + intros name Hname. apply not_elem_of_cons in Hname as [Hne Hname].
      rewrite (Hother _ Hname). by rewrite lookup_insert_ne.
    + intros name v Hv. destruct (Hvalues name v Hv) as [Hv' | Hv'];
        [ | by right ].
      destruct (decide (measurement_name flag = name)) as [<- | Hne].
      * rewrite lookup_insert_eq in Hv'. injection Hv' as <-.
        right. destruct ok; auto.
      * rewrite lookup_insert_ne in Hv' by done. by left.
    + done.
Qed.

(** X5: a run that completes leaves every flag of the module bound to
    the integer 0 or 1, whether or not an earlier flag asked to skip the
    image set; it changes no other image measurement and no object
    measurement, so that the image measurements after the run are those
    before it and the columns the module declares. *)
Theorem run_store (fs : FileSystem) (ws ws' : Workspace) (flags : list Flag)
    (statistics : list (string * Stats)) (coltype : string) :
  run fs ws flags = Ok (ws', statistics) ->
  (forall flag, flag ∈ flags ->
     image_measurements (measurements ws') !! measurement_name flag
     = Some (MInt 0)
     \/ image_measurements (measurements ws') !! measurement_name flag
        = Some (MInt 1))
  /\ (forall name, name ∉ map measurement_name flags ->
        image_measurements (measurements ws') !! name
        = image_measurements (measurements ws) !! name)
  /\ object_measurements (measurements ws')
     = object_measurements (measurements ws)
  /\ dom (image_measurements (measurements ws'))
     = dom (image_measurements (measurements ws))
       ∪ list_to_set (map (fun c => c.1.2)
                        (get_measurement_columns coltype flags)).
Proof.
  intros (Hflags & Hother & _ & Hobj)%run_flags_store.
  split; [ done | ]. split; [ done | ]. split; [ done | ].
  assert (map (fun c : string * string * string => c.1.2)
            (get_measurement_columns coltype flags)
          = map measurement_name flags) as ->.
  { unfold get_measurement_columns. rewrite map_map. done. }
  apply set_eq. intros name.
  rewrite elem_of_union, !elem_of_dom, elem_of_list_to_set.
  destruct (decide (name ∈ map measurement_name flags)) as [Hin | Hout].
  - split; [ by right | ]. intros _.
    apply list_elem_of_In, in_map_iff in Hin as (flag & <- & Hflag).
    apply list_elem_of_In in Hflag.
    destruct (Hflags flag Hflag) as [-> | ->]; by eexists.
  - rewrite (Hother name Hout). split; [ by left | ].
    intros [Hold | Hin]; done.
Qed.

Lemma run_flags_disposition (fs : FileSystem) (flags : list Flag) :
  forall ws acc ws' statistics,
    run_flags fs ws flags acc = Ok (ws', statistics) ->
    (disposition ws = DISPOSITION_SKIP -> disposition ws' = DISPOSITION_SKIP)
    /\ (disposition ws' = DISPOSITION_SKIP ->
        disposition ws = DISPOSITION_SKIP
        \/ exists flag, flag ∈ flags /\ wants_skip flag = true
             /\ exists ws1 ws2 stats,
                  run_flag fs ws1 flag = Ok (ws2, stats)
                  /\ image_measurements (measurements ws2)
                     !! measurement_name flag = Some (MInt 1))
    /\ (Forall (fun flag => wants_skip flag = false) flags ->
        disposition ws' = disposition ws).
Proof.
  induction flags as [|flag flags IH]; intros ws acc ws' statistics;
    cbn -[run_flag measurement_name].
  - intros [= <- _]. split; [ done | ]. split; [ by left | done ].
  - destruct (run_flag fs ws flag) as [[ws1 stats]|e] eqn:Hflag;
      cbn -[run_flag measurement_name]; [ | discriminate ].
    intros (Hkeep & Hfrom & Hnone)%IH.
    pose proof Hflag as (ok & _ & Hws1)%run_flag_inv.
    split; [ | split ].
    + intros Hskip. apply Hkeep. rewrite Hws1; cbn.
      by destruct (negb ok && wants_skip flag).
    + intros Hskip. destruct (Hfrom Hskip) as [Hskip1 | Hlater].
      * rewrite Hws1 in Hskip1; cbn in Hskip1.
        destruct ok; cbn in Hskip1; [ by left | ].
        destruct (wants_skip flag) eqn:Hwants; [ | by left ].
        right. exists flag. split; [ by left | ]. split; [ done | ].
        exists ws, ws1, stats. split; [ done | ].
        rewrite Hws1.
        cbn [measurements image_measurements add_image_measurement].
        by rewrite lookup_insert_eq.
      * destruct Hlater as (f & Hf & Hrest). right. exists f.
        split; [ by right | done ].
    + intros [Hwants Hrest]%Forall_cons. rewrite (Hnone Hrest), Hws1; cbn.
      rewrite Hwants. by rewrite andb_false_r.
Qed.

Lemma run_flags_acc (fs : FileSystem) (flags : list Flag) :
  forall ws acc,
    run_flags fs ws flags acc
    = match run_flags fs ws flags [] with
      | Ok (ws', statistics) => Ok (ws', acc ++ statistics)
      | Raise e => Raise e
      end.
Proof.
  induction flags as [|flag flags IH]; intros ws acc; cbn [run_flags].
  - by rewrite app_nil_r.
  - destruct (run_flag fs ws flag) as [[ws1 stats]|e]; [ | done ].
    cbn -[run_flags]. rewrite (IH ws1 (acc ++ stats)), (IH ws1 stats).
    destruct (run_flags fs ws1 flags []) as [[ws' statistics]|e];
      [ | done ].
    by rewrite app_assoc.
Qed.

Lemma run_cons (fs : FileSystem) (ws ws' : Workspace) (flag : Flag)
    (flags : list Flag) (statistics : list (string * Stats)) :
  run fs ws (flag :: flags) = Ok (ws', statistics)
  <-> exists ws1 stats rest,
        run_flag fs ws flag = Ok (ws1, stats)
        /\ run fs ws1 flags = Ok (ws', rest)
        /\ statistics = stats ++ rest.
Proof.
  unfold run. cbn [run_flags].
  destruct (run_flag fs ws flag) as [[ws1 stats]|e]; cbn -[run_flags].
  - rewrite run_flags_acc.
    destruct (run_flags fs ws1 flags []) as [[ws2 rest]|e] eqn:Hrest.
    + split.
      * intros [= <- <-]. by exists ws1, stats, rest.
      * intros (? & ? & ? & [= <- <-] & Hrest' & ->).
        rewrite Hrest in Hrest'. by injection Hrest' as <- <-.
    + split; [ done | ].
      intros (? & ? & ? & [= <- <-] & Hrest' & _).
      rewrite Hrest in Hrest'. discriminate.
  - split; [ done | ]. by intros (? & ? & ? & ? & _).
Qed.

Lemma run_app (fs : FileSystem) (pre suf : list Flag) :
  forall ws ws' statistics,
    run fs ws (pre ++ suf) = Ok (ws', statistics)
    <-> exists ws1 first rest,
          run fs ws pre = Ok (ws1, first)
          /\ run fs ws1 suf = Ok (ws', rest)
          /\ statistics = first ++ rest.
Proof.
  induction pre as [|flag pre IH]; intros ws ws' statistics.
  - cbn [app]. split.
    + intros Hrun. by exists ws, [], statistics.
    + intros (? & ? & ? & [= <- <-] & Hrun & ->). done.
  - cbn [app]. rewrite run_cons. split.
    + intros (ws1 & stats & rest & Hflag & (ws2 & first & rest' & Hpre
                & Hsuf & ->)%IH & ->).
      exists ws2, (stats ++ first), rest'.
      split; [ | by rewrite app_assoc ].
      apply run_cons. by exists ws1, stats, first.
    + intros (ws2 & first & rest & (ws1 & stats & first' & Hflag & Hpre
                & ->)%run_cons & Hsuf & ->).
      exists ws1, stats, (first' ++ rest).
      split; [ done | ]. split; [ | by rewrite app_assoc ].
      apply IH. by exists ws2, first', rest.
Qed.

Lemma run_flag_raised (fs : FileSystem) (ws ws' : Workspace) (flag : Flag)
    (stats : list (string * Stats)) :
  run_flag fs ws flag = Ok (ws', stats) ->
  (image_measurements (measurements ws') !! measurement_name flag
   = Some (MInt 0)
   \/ image_measurements (measurements ws') !! measurement_name flag
      = Some (MInt 1))
  /\ (disposition ws' = DISPOSITION_SKIP
      <-> disposition ws = DISPOSITION_SKIP
          \/ (wants_skip flag = true
              /\ image_measurements (measurements ws')
                 !! measurement_name flag = Some (MInt 1))).
Proof.
  intros (ok & _ & ->)%run_flag_inv.
  cbn -[measurement_name]. rewrite lookup_insert_eq.
  destruct ok, (wants_skip flag); cbn; split; try tauto;
    try (by left); try (by right);
    split; try tauto; intros [? | [? ?]]; done.
Qed.

Lemma run_skipped (fs : FileSystem) (flags : list Flag) :
  forall ws ws' statistics,
    run fs ws flags = Ok (ws', statistics) ->
    disposition ws' = DISPOSITION_SKIP
    <-> disposition ws = DISPOSITION_SKIP
        \/ exists pre flag suf ws1 first ws2 stats rest,
             flags = pre ++ flag :: suf
             /\ wants_skip flag = true
             /\ run fs ws pre = Ok (ws1, first)
             /\ run_flag fs ws1 flag = Ok (ws2, stats)
             /\ image_measurements (measurements ws2)
                !! measurement_name flag = Some (MInt 1)
             /\ run fs ws2 suf = Ok (ws', rest).
Proof.
  intros ws ws' statistics Hrun. split.
  - revert ws ws' statistics Hrun.
    induction flags as [|flag flags IH]; intros ws ws' statistics Hrun Hskip.
    + injection Hrun as <- <-. by left.
    + apply run_cons in Hrun as (ws1 & stats & rest & Hflag & Hrest & ->).
      destruct (IH ws1 ws' rest Hrest Hskip)
        as [Hskip1 | (pre & flag' & suf & ws2 & first & ws3 & stats'
                        & rest' & -> & Hwants & Hpre & Hflag' & Hone
                        & Hsuf)].
      * apply (run_flag_raised fs ws ws1 flag stats Hflag) in Hskip1
          as [? | [Hwants Hone]]; [ by left | right ].
        exists [], flag, flags, ws, [], ws1, stats, rest. by split_and!.
      * right.
        exists (flag :: pre), flag', suf, ws2, (stats ++ first), ws3,
          stats', rest'.
        split_and!; try done.
        apply run_cons. by exists ws1, stats, first.
  - intros [Hskip | (pre & flag & suf & ws1 & first & ws2 & stats & rest
                       & -> & Hwants & Hpre & Hflag & Hone & Hsuf)].
    + by apply (proj1 (run_flags_disposition fs flags ws [] ws' statistics
                         Hrun)).
    + apply (proj1 (run_flags_disposition fs suf ws2 [] ws' rest Hsuf)).
      apply (run_flag_raised fs ws1 ws2 flag stats Hflag). by right.
Qed.

Lemma run_skipped_flag (fs : FileSystem) (flags : list Flag)
    (ws ws' : Workspace) (statistics : list (string * Stats)) :
  run fs ws flags = Ok (ws', statistics) ->
  NoDup (map measurement_name flags) ->
  disposition ws' = DISPOSITION_SKIP
  <-> disposition ws = DISPOSITION_SKIP
      \/ exists flag,
           flag ∈ flags /\ wants_skip flag = true
           /\ image_measurements (measurements ws') !! measurement_name flag
              = Some (MInt 1).
Proof.
  intros Hrun Hnd.
  assert (forall pre flag suf ws2 rest,
            flags = pre ++ flag :: suf ->
            run fs ws2 suf = Ok (ws', rest) ->
            image_measurements (measurements ws') !! measurement_name flag
            = image_measurements (measurements ws2)
              !! measurement_name flag) as Hlast.
  { intros pre flag suf ws2 rest -> Hsuf.
    destruct (run_flags_store fs suf ws2 [] ws' rest Hsuf)
      as (_ & Hkept & _).
    apply Hkept. rewrite map_app in Hnd. cbn [map] in Hnd.
    apply NoDup_app in Hnd as (_ & _ & Hnd).
    by apply NoDup_cons in Hnd as [Hfresh _]. }
  rewrite (run_skipped fs flags ws ws' statistics Hrun). split.
  - intros [? | (pre & flag & suf & ws1 & first & ws2 & stats & rest
                   & Hflags & Hwants & Hpre & Hflag & Hone & Hsuf)];
      [ by left | right ].
    exists flag. split; [ | split; [ done | ] ].
    + rewrite Hflags. apply elem_of_app. right. by left.
    + by rewrite (Hlast pre flag suf ws2 rest Hflags Hsuf).
  - intros [? | (flag & Hin & Hwants & Hone)]; [ by left | right ].
    apply list_elem_of_split in Hin as (pre & suf & Hflags).
    pose proof Hrun as Hparts. rewrite Hflags in Hparts.
    apply run_app in Hparts as (ws1 & first & rest & Hpre & Hrest & _).
    apply run_cons in Hrest as (ws2 & stats & rest' & Hflag & Hsuf & _).
    exists pre, flag, suf, ws1, first, ws2, stats, rest'.
    split_and!; try done.
    by rewrite <- (Hlast pre flag suf ws2 rest' Hflags Hsuf).
Qed.

(** X6: a run never takes back a request to skip: a disposition that is
    SKIP stays SKIP. After a run the disposition is SKIP exactly when
    it was SKIP before, or some flag of the module that wants skipping
    was written as 1 when its turn came in this run, on the workspace
    the flags before it had left. When the flags have distinct names
    this is to say that some flag that wants skipping is 1 in the
    measurements after the run. A module none of whose flags wants
    skipping leaves the disposition as it was. *)
Theorem run_disposition (fs : FileSystem) (ws ws' : Workspace)
    (flags : list Flag) (statistics : list (string * Stats)) :
  run fs ws flags = Ok (ws', statistics) ->
  (disposition ws = DISPOSITION_SKIP -> disposition ws' = DISPOSITION_SKIP)
  /\ (disposition ws' = DISPOSITION_SKIP
      <-> disposition ws = DISPOSITION_SKIP
          \/ exists pre flag suf ws1 first ws2 stats rest,
               flags = pre ++ flag :: suf
               /\ wants_skip flag = true
               /\ run fs ws pre = Ok (ws1, first)
               /\ run_flag fs ws1 flag = Ok (ws2, stats)
               /\ image_measurements (measurements ws2)
                  !! measurement_name flag = Some (MInt 1)
               /\ run fs ws2 suf = Ok (ws', rest))
  /\ (NoDup (map measurement_name flags) ->
      (disposition ws' = DISPOSITION_SKIP
       <-> disposition ws = DISPOSITION_SKIP
           \/ exists flag,
                flag ∈ flags /\ wants_skip flag = true
                /\ image_measurements (measurements ws')
                   !! measurement_name flag = Some (MInt 1)))
  /\ (Forall (fun flag => wants_skip flag = false) flags ->
      disposition ws' = disposition ws).
Proof.
  intros Hrun.
  destruct (run_flags_disposition fs flags ws [] ws' statistics Hrun)
    as (Hstays & _ & Hnone).
  split; [ exact Hstays | ].
  split; [ by apply (run_skipped fs flags ws ws' statistics) | ].
  split; [ | exact Hnone ].
  intros Hnd. by apply (run_skipped_flag fs flags ws ws' statistics).
Qed.

End RunResults.

(** ** The declared measurements *)

Section DeclarationResults.
Context `{Externals}.

Lemma get_measurements_image (flags : list Flag) (c f : string) :
  f ∈ get_measurements flags cpmeas_IMAGE c
  <-> exists flag, flag ∈ flags /\ category flag = c /\ feature_name flag = f.
Proof.
  unfold get_measurements. rewrite String.eqb_refl; cbn [negb].
  rewrite list_elem_of_In, in_map_iff. split.
  - intros (flag & Hf & [Hc Hflag]%list_elem_of_In%list_elem_of_filter).
    by exists flag.
  - intros (flag & Hflag & Hc & Hf). exists flag. split; [ done | ].
    apply list_elem_of_In, list_elem_of_filter. done.
Qed.

(** X7: the three declarations of the module agree. Each flag appears
    as a category and, under that category, as a feature of the image,
    and the column of the flag is named category_feature; conversely a
    declared column is an integer column of the image whose name is made
    of a declared category and a feature declared under it. For an
    object other than the image nothing is declared. *)
Theorem declarations_agree (flags : list Flag) (coltype : string) :
  (forall flag, flag ∈ flags ->
     category flag ∈ get_categories flags cpmeas_IMAGE
     /\ feature_name flag
        ∈ get_measurements flags cpmeas_IMAGE (category flag)
     /\ (cpmeas_IMAGE, category flag +:+ "_" +:+ feature_name flag, coltype)
        ∈ get_measurement_columns coltype flags)
  /\ (forall column, column ∈ get_measurement_columns coltype flags ->
        exists c f,
          column = (cpmeas_IMAGE, c +:+ "_" +:+ f, coltype)
          /\ c ∈ get_categories flags cpmeas_IMAGE
          /\ f ∈ get_measurements flags cpmeas_IMAGE c)
  /\ (forall c f,
        c ∈ get_categories flags cpmeas_IMAGE ->
        f ∈ get_measurements flags cpmeas_IMAGE c ->
        (cpmeas_IMAGE, c +:+ "_" +:+ f, coltype)
        ∈ get_measurement_columns coltype flags)
  /\ (forall object_name c,
        object_name <> cpmeas_IMAGE ->
        get_categories flags object_name = []
        /\ get_measurements flags object_name c = []).
Proof.
  assert (forall flag, flag ∈ flags ->
            category flag ∈ get_categories flags cpmeas_IMAGE) as Hcat.
  { intros flag Hflag. unfold get_categories. rewrite String.eqb_refl.
    apply list_elem_of_In, in_map. by apply list_elem_of_In. }
  assert (forall flag, flag ∈ flags ->
            (cpmeas_IMAGE, category flag +:+ "_" +:+ feature_name flag,
             coltype) ∈ get_measurement_columns coltype flags) as Hcol.
  { intros flag Hflag. unfold get_measurement_columns.
    apply list_elem_of_In, in_map_iff. exists flag.
    split; [ done | by apply list_elem_of_In ]. }
  split; [ | split; [ | split ] ].
  - intros flag Hflag. split; [ by apply Hcat | ]. split; [ | by apply Hcol ].
    apply get_measurements_image. by exists flag.
  - intros column Hin. unfold get_measurement_columns in Hin.
    apply list_elem_of_In, in_map_iff in Hin as (flag & <- & Hflag).
    apply list_elem_of_In in Hflag.
    exists (category flag), (feature_name flag).
    split; [ done | ]. split; [ by apply Hcat | ].
    apply get_measurements_image. by exists flag.
  - intros c f _ (flag & Hflag & <- & <-)%get_measurements_image.
    by apply Hcol.
  - intros object_name c Hne. apply String.eqb_neq in Hne.
    unfold get_categories, get_measurements. by rewrite Hne.
Qed.

End DeclarationResults.

(** ** One criterion *)

Module FloatNaN.

Lemma is_nan_true (x : float) :
  PrimFloat.is_nan x = true -> Prim2SF x = S754_nan.
Proof.
  intros Hx. destruct (Prim2SF x) eqn:Hsf; try reflexivity; exfalso;
    assert (PrimFloat.is_nan x = false) as Hno
      by (apply FloatOrder.is_nan_false; rewrite Hsf; discriminate);
    congruence.
Qed.

(** NaN is neither below nor above any float. *)
Lemma nan_not_ltb (x y : float) :
  PrimFloat.is_nan x = true ->
  PrimFloat.ltb x y = false /\ PrimFloat.ltb y x = false.
Proof.
  intros Hx%is_nan_true. rewrite !FloatAxioms.ltb_spec. unfold SFltb.
  rewrite Hx. simpl. split; [ done | ].
  by destruct (Prim2SF y).
Qed.

End FloatNaN.

Section CriterionEdges.
Context `{Externals}.

Lemma final_fail_nan (ms : MeasurementGroup) (lo hi : float) (d s : string) :
  source_choice ms <> S_RULES ->
  PrimFloat.is_nan lo = true -> PrimFloat.is_nan hi = true ->
  final_fail ms {| min_value := Some lo; max_value := Some hi;
                   fail := false; display_value := d; source := s |}
  = false.
Proof.
  intros Hs%source_not_rules Hlo Hhi. unfold final_fail. rewrite Hs; cbn.
  destruct (FloatNaN.nan_not_ltb lo (minimum_value ms) Hlo) as [-> _].
  destruct (FloatNaN.nan_not_ltb hi (maximum_value ms) Hhi) as [_ ->].
  by rewrite !andb_false_r.
Qed.

Lemma eval_source_image (fs : FileSystem) (ws : Workspace)
    (ms : MeasurementGroup) :
  source_choice ms = S_IMAGE ->
  eval_source fs ws ms
  = (value ← get_current_image_measurement (measurements ws)
               (measurement ms);
     Ok {| min_value := Some value; max_value := Some value;
           fail := false; display_value := str_round3 value;
           source := cpmeas_IMAGE |}).
Proof. intros Hs. unfold eval_source. by rewrite Hs. Qed.

Lemma eval_source_average (fs : FileSystem) (ws : Workspace)
    (ms : MeasurementGroup) (x : float) (data : list float) :
  source_choice ms = S_AVERAGE_OBJECT ->
  get_current_measurement (measurements ws) (object_name ms)
    (measurement ms) = Ok (x :: data) ->
  eval_source fs ws ms
  = Ok {| min_value := Some (np_mean (x :: data));
          max_value := Some (np_mean (x :: data));
          fail := false;
          display_value := str_round3 (np_mean (x :: data));
          source := "Ave. " +:+ object_name ms |}.
Proof. intros Hs Hdata. unfold eval_source. by rewrite Hs, Hdata. Qed.

Lemma eval_source_all (fs : FileSystem) (ws : Workspace)
    (ms : MeasurementGroup) (x : float) (data : list float) :
  source_choice ms = S_ALL_OBJECTS ->
  get_current_measurement (measurements ws) (object_name ms)
    (measurement ms) = Ok (x :: data) ->
  eval_source fs ws ms
  = Ok {| min_value := Some (np_min (x :: data));
          max_value := Some (np_max (x :: data));
          fail := false;
          display_value :=
            if PrimFloat.eqb (np_min (x :: data)) (np_max (x :: data))
            then str_float (np_min (x :: data))
            else fmt_range (np_min (x :: data)) (np_max (x :: data));
          source := object_name ms |}.
Proof. intros Hs Hdata. unfold eval_source. by rewrite Hs, Hdata. Qed.

(** X8: a measurement that is NaN never flags. An image criterion on a
    NaN value passes whatever the bounds, and so does an object
    criterion on a non-empty vector whose mean, or whose minimum and
    maximum, are NaN: no comparison with NaN holds. *)
Theorem nan_passes (fs : FileSystem) (ws : Workspace)
    (ms : MeasurementGroup) :
  (forall value,
     source_choice ms = S_IMAGE ->
     get_current_image_measurement (measurements ws) (measurement ms)
     = Ok value ->
     PrimFloat.is_nan value = true ->
     eval_measurement fs ws ms
     = Ok (true, (cpmeas_IMAGE, measurement ms, str_round3 value, "Pass")))
  /\ (forall data,
        source_choice ms = S_AVERAGE_OBJECT ->
        get_current_measurement (measurements ws) (object_name ms)
          (measurement ms) = Ok data ->
        data <> [] ->
        PrimFloat.is_nan (np_mean data) = true ->
        eval_measurement fs ws ms
        = Ok (true, ("Ave. " +:+ object_name ms, measurement ms,
                     str_round3 (np_mean data), "Pass")))
  /\ (forall data,
        source_choice ms = S_ALL_OBJECTS ->
        get_current_measurement (measurements ws) (object_name ms)
          (measurement ms) = Ok data ->
        data <> [] ->
        PrimFloat.is_nan (np_min data) = true ->
        PrimFloat.is_nan (np_max data) = true ->
        exists shown,
          eval_measurement fs ws ms
          = Ok (true, (object_name ms, measurement ms, shown, "Pass"))).
Proof.
  split; [ | split ].
  - intros value Hs Hvalue Hnan.
    assert (source_choice ms <> S_RULES) as Hnr by (rewrite Hs; discriminate).
    unfold eval_measurement.
    rewrite (eval_source_image fs ws ms Hs), Hvalue.
    cbn -[final_fail String.eqb].
    rewrite (final_fail_nan ms value value _ _ Hnr Hnan Hnan).
    by rewrite (source_not_rules ms Hnr).
  - intros data Hs Hdata Hne Hnan.
    assert (source_choice ms <> S_RULES) as Hnr by (rewrite Hs; discriminate).
    destruct data as [|x data]; [ done | ].
    unfold eval_measurement.
    rewrite (eval_source_average fs ws ms x data Hs Hdata).
    cbn -[final_fail String.eqb].
    rewrite (final_fail_nan ms _ _ _ _ Hnr Hnan Hnan).
    by rewrite (source_not_rules ms Hnr).
  - intros data Hs Hdata Hne Hmin Hmax.
    assert (source_choice ms <> S_RULES) as Hnr by (rewrite Hs; discriminate).
    destruct data as [|x data]; [ done | ].
    unfold eval_measurement.
    rewrite (eval_source_all fs ws ms x data Hs Hdata).
    cbn -[final_fail String.eqb].
    rewrite (final_fail_nan ms _ _ _ _ Hnr Hmin Hmax).
    rewrite (source_not_rules ms Hnr). by eexists.
Qed.

(** X9: the thresholds, the measurement and the object of a rules
    criterion are not read: two rules criteria with the same rules
    location, file and classes evaluate alike. *)
Theorem rules_ignore_thresholds (fs : FileSystem) (ws : Workspace)
    (ms ms' : MeasurementGroup) :
  source_choice ms = S_RULES ->
  source_choice ms' = S_RULES ->
  rules_directory ms' = rules_directory ms ->
  rules_file_name ms' = rules_file_name ms ->
  rules_class ms' = rules_class ms ->
  eval_measurement fs ws ms' = eval_measurement fs ws ms.
Proof.
  intros Hs Hs' Hdir Hfile Hclass.
  unfold eval_measurement, eval_source, final_fail, get_rules.
  rewrite Hs, Hs', Hdir, Hfile, Hclass. reflexivity.
Qed.

(** X10: a threshold criterion raises for nothing but a measurement that
    is missing from the store: with the measurement present it returns
    a result, whatever the values and the bounds; a source choice that
    is none of the four raises [NotImplementedError]. *)
Theorem threshold_criterion_returns (fs : FileSystem) (ws : Workspace)
    (ms : MeasurementGroup) :
  (source_choice ms = S_IMAGE ->
   match image_measurements (measurements ws) !! measurement ms with
   | Some _ => exists r, eval_measurement fs ws ms = Ok r
   | None => eval_measurement fs ws ms = Raise (KeyError (measurement ms))
   end)
  /\ (source_choice ms = S_AVERAGE_OBJECT
      \/ source_choice ms = S_ALL_OBJECTS ->
      match object_measurements (measurements ws)
            !! (object_name ms, measurement ms) with
      | Some _ => exists r, eval_measurement fs ws ms = Ok r
      | None => eval_measurement fs ws ms = Raise (KeyError (measurement ms))
      end)
  /\ (source_choice ms ∉ S_ALL ->
      eval_measurement fs ws ms
      = Raise (NotImplementedError
                 ("Source choice of " +:+ source_choice ms
                  +:+ " not implemented"))).
Proof.
  split; [ | split ].
  - intros Hs. unfold eval_measurement, eval_source,
      get_current_image_measurement. rewrite Hs.
    cbn -[final_fail]. destruct (_ !! measurement ms); cbn -[final_fail];
      [ by eexists | done ].
  - intros [Hs | Hs]; unfold eval_measurement, eval_source,
      get_current_measurement; rewrite Hs; cbn -[final_fail];
      (destruct (_ !! (object_name ms, measurement ms)) as [data|];
       cbn -[final_fail]; [ | done ]);
      destruct (length data =? 0)%nat; by eexists.
  - intros Hout. unfold S_ALL in Hout.
    rewrite !not_elem_of_cons in Hout.
    destruct Hout as (H1 & H2 & H3 & H4 & _).
    apply String.eqb_neq in H1, H2, H3, H4.
    unfold eval_measurement, eval_source. by rewrite H1, H2, H3, H4.
Qed.

End CriterionEdges.


(** ** Decimal text of a count *)

Module Decimals.

Lemma digits_acc (d : Decimal.uint) :
  forall acc : positive,
    Py.digits (Z.pos acc)
      (list_ascii_of_string (DecimalString.NilEmpty.string_of_uint d))
    = Some (Z.pos (Pos.of_uint_acc d acc)).
Proof.
  induction d as [|d IH|d IH|d IH|d IH|d IH|d IH|d IH|d IH|d IH|d IH];
    intros acc; [ reflexivity | .. ];
    cbn [DecimalString.NilEmpty.string_of_uint list_ascii_of_string
         Py.digits Pos.of_uint_acc];
    change (Py.digit_value _) with (Some 0) ||
    change (Py.digit_value _) with (Some 1) ||
    change (Py.digit_value _) with (Some 2) ||
    change (Py.digit_value _) with (Some 3) ||
    change (Py.digit_value _) with (Some 4) ||
    change (Py.digit_value _) with (Some 5) ||
    change (Py.digit_value _) with (Some 6) ||
    change (Py.digit_value _) with (Some 7) ||
    change (Py.digit_value _) with (Some 8) ||
    change (Py.digit_value _) with (Some 9);
    cbv iota; rewrite <- IH; f_equal; lia.
Qed.

Lemma digits_zero (d : Decimal.uint) :
  Py.digits 0
    (list_ascii_of_string (DecimalString.NilEmpty.string_of_uint d))
  = Some (Z.of_N (Pos.of_uint d)).
Proof.
  induction d as [|d IH|d IH|d IH|d IH|d IH|d IH|d IH|d IH|d IH|d IH];
    [ reflexivity | exact IH | .. ];
    cbn [DecimalString.NilEmpty.string_of_uint list_ascii_of_string
         Py.digits Pos.of_uint];
    change (Py.digit_value _) with (Some 1) ||
    change (Py.digit_value _) with (Some 2) ||
    change (Py.digit_value _) with (Some 3) ||
    change (Py.digit_value _) with (Some 4) ||
    change (Py.digit_value _) with (Some 5) ||
    change (Py.digit_value _) with (Some 6) ||
    change (Py.digit_value _) with (Some 7) ||
    change (Py.digit_value _) with (Some 8) ||
    change (Py.digit_value _) with (Some 9);
    cbv iota; apply digits_acc.
Qed.

Lemma no_space (d : Decimal.uint) :
  Forall (fun c => Py.is_space c = false)
    (list_ascii_of_string (DecimalString.NilEmpty.string_of_uint d)).
Proof.
  induction d; cbn [DecimalString.NilEmpty.string_of_uint
                    list_ascii_of_string]; by constructor.
Qed.

Lemma lstrip_id (l : list ascii) :
  Forall (fun c => Py.is_space c = false) l -> Py.lstrip l = l.
Proof. destruct 1 as [|c l Hc _]; simpl; [ done | by rewrite Hc ]. Qed.

Lemma strip_id (l : list ascii) :
  Forall (fun c => Py.is_space c = false) l -> Py.strip l = l.
Proof.
  intros Hl. unfold Py.strip. rewrite (lstrip_id l Hl).
  rewrite lstrip_id by (by apply Forall_rev).
  apply rev_involutive.
Qed.

Lemma int_unsigned (d : Decimal.uint) :
  d <> Decimal.Nil ->
  Py.int (DecimalString.NilEmpty.string_of_uint d)
  = Ok (Z.of_N (Pos.of_uint d)).
Proof.
  intros Hd. unfold Py.int.
  rewrite (strip_id _ (no_space d)).
  pose proof (digits_zero d) as Hdigits.
  destruct d; [ done | .. ];
    cbn [DecimalString.NilEmpty.string_of_uint list_ascii_of_string] in *;
    cbv iota; unfold Py.unsigned; by rewrite Hdigits.
Qed.

(** [int(str(z))] is [z]. *)
Lemma int_fmt_d (z : Z) : Py.int (Py.fmt_d z) = Ok z.
Proof.
  unfold Py.fmt_d. destruct z as [|p|p]; [ reflexivity | | ].
  - cbn [Z.to_int DecimalString.NilZero.string_of_int].
    pose proof (DecimalPos.Unsigned.to_uint_nonnil p) as Hnil.
    replace (DecimalString.NilZero.string_of_uint (Pos.to_uint p))
      with (DecimalString.NilEmpty.string_of_uint (Pos.to_uint p))
      by (by destruct (Pos.to_uint p)).
    rewrite (int_unsigned _ Hnil).
    by rewrite DecimalPos.Unsigned.of_to.
  - cbn [Z.to_int DecimalString.NilZero.string_of_int].
    pose proof (DecimalPos.Unsigned.to_uint_nonnil p) as Hnil.
    replace (DecimalString.NilZero.string_of_uint (Pos.to_uint p))
      with (DecimalString.NilEmpty.string_of_uint (Pos.to_uint p))
      by (by destruct (Pos.to_uint p)).
    unfold Py.int. cbn [list_ascii_of_string].
    rewrite strip_id by (constructor; [ reflexivity | apply no_space ]).
    cbv iota.
    pose proof (digits_zero (Pos.to_uint p)) as Hdigits.
    unfold Py.unsigned. rewrite Hdigits.
    rewrite DecimalPos.Unsigned.of_to.
    destruct (list_ascii_of_string _) eqn:Hchars; [ | reflexivity ].
    exfalso. destruct (Pos.to_uint p); done.
Qed.

End Decimals.

(** ** The migrator and the saved settings *)

Section SavedSettings.
Context `{Externals}.

Lemma upgrade_settings_skip (sv : list string) (v : Z) (name : string)
    (from_matlab : bool) :
  (from_matlab = true /\ v <> 1 /\ v <> 2)
  \/ (from_matlab = false /\ v <> 1 /\ v <> 2 /\ v <> 3) ->
  upgrade_settings sv v name from_matlab = Ok (sv, v, from_matlab).
Proof.
  intros [(-> & H1 & H2) | (-> & H1 & H2 & H3)];
    unfold upgrade_settings;
    apply Z.eqb_neq in H1, H2; try apply Z.eqb_neq in H3;
    do 4 (cbn -[upgrade_v1 upgrade_v2 upgrade_v3 unpack_matlab Z.eqb];
          rewrite ?H1, ?H2, ?H3);
    reflexivity.
Qed.

Lemma upgrade_settings_native (sv sv' : list string) (v v' : Z)
    (name : string) (from_matlab' : bool) :
  v = 1 \/ v = 2 \/ v = 3 ->
  upgrade_settings sv v name false = Ok (sv', v', from_matlab') ->
  v' = 4 /\ from_matlab' = false.
Proof.
  intros [-> | [-> | ->]]; unfold upgrade_settings;
    cbn -[upgrade_v1 upgrade_v2 upgrade_v3].
  - destruct (upgrade_v1 sv) as [l2|]; cbn -[upgrade_v2 upgrade_v3];
      [ | discriminate ].
    destruct (upgrade_v2 l2) as [l3|]; cbn -[upgrade_v3];
      [ | discriminate ].
    destruct (upgrade_v3 l3) as [l4|]; cbn; [ | discriminate ].
    by intros [= _ <- <-].
  - destruct (upgrade_v2 sv) as [l3|]; cbn -[upgrade_v3];
      [ | discriminate ].
    destruct (upgrade_v3 l3) as [l4|]; cbn; [ | discriminate ].
    by intros [= _ <- <-].
  - destruct (upgrade_v3 sv) as [l4|]; cbn; [ | discriminate ].
    by intros [= _ <- <-].
Qed.

(** X11: a migration that succeeds ends at the current revision, or
    leaves alone what it does not know. From revision 1, 2 or 3 (or a
    legacy import of revision 1 or 2) the result is at revision 4 and no
    longer a legacy import; for any other revision the list, the
    revision and the import mark are returned as they came. In both
    cases migrating the result again changes nothing. *)
Theorem upgrade_settings_settles (sv sv' : list string) (v v' : Z)
    (name : string) (from_matlab from_matlab' : bool) :
  upgrade_settings sv v name from_matlab = Ok (sv', v', from_matlab') ->
  upgrade_settings sv' v' name from_matlab' = Ok (sv', v', from_matlab')
  /\ ((from_matlab = false /\ (v = 1 \/ v = 2 \/ v = 3))
      \/ (from_matlab = true /\ (v = 1 \/ v = 2)) ->
      v' = 4 /\ from_matlab' = false)
  /\ ((from_matlab = false /\ v <> 1 /\ v <> 2 /\ v <> 3)
      \/ (from_matlab = true /\ v <> 1 /\ v <> 2) ->
      sv' = sv /\ v' = v /\ from_matlab' = from_matlab).
Proof.
  intros Hrun.
  assert ((from_matlab = false /\ (v = 1 \/ v = 2 \/ v = 3))
          \/ (from_matlab = true /\ (v = 1 \/ v = 2)) ->
          v' = 4 /\ from_matlab' = false) as Hnew.
  { intros [[-> Hv] | [-> Hv]].
    - by apply (upgrade_settings_native sv sv' v v' name from_matlab' Hv).
    - rewrite (upgrade_settings_legacy sv v name Hv) in Hrun.
      destruct (unpack_matlab sv v) as [l1|]; cbn in Hrun;
        [ | discriminate ].
      apply (upgrade_settings_native l1 sv' 1 v' name from_matlab');
        [ by left | done ]. }
  assert ((from_matlab = false /\ v <> 1 /\ v <> 2 /\ v <> 3)
          \/ (from_matlab = true /\ v <> 1 /\ v <> 2) ->
          sv' = sv /\ v' = v /\ from_matlab' = from_matlab) as Hold.
  { intros Hskip. rewrite upgrade_settings_skip in Hrun by tauto.
    by injection Hrun as <- <- <-. }
  split; [ | split; [ exact Hnew | exact Hold ] ].
  destruct from_matlab;
    destruct (Z.eq_dec v 1) as [H1 | H1], (Z.eq_dec v 2) as [H2 | H2];
    try destruct (Z.eq_dec v 3) as [H3 | H3];
    try (destruct Hnew as [-> ->]; [ tauto | ];
         apply upgrade_settings_skip; right; done);
    try (destruct Hold as (-> & -> & ->); [ tauto | ];
         apply upgrade_settings_skip; tauto).
Qed.

End SavedSettings.

Section PrepareResults.
Context `{Externals}.

Lemma slice_from_app {A} (pre suf : list A) (k : Z) :
  k = Z.of_nat (length pre) -> slice_from (pre ++ suf) k = suf.
Proof.
  intros ->. unfold slice_from.
  destruct (Z.ltb_spec (Z.of_nat (length pre)) 0); [ lia | ].
  rewrite Nat2Z.id. apply drop_app_length.
Qed.

Lemma length_flatten_block (b : Block) :
  shaped N_FIXED_SETTINGS_PER_FLAG N_SETTINGS_PER_MEASUREMENT b ->
  Z.of_nat (length (flatten_block b))
  = Z.of_nat N_FIXED_SETTINGS_PER_FLAG
    + Z.of_nat (length (groups b)) * Z.of_nat N_SETTINGS_PER_MEASUREMENT.
Proof.
  intros (Hh & Hgs & _). unfold flatten_block. rewrite length_app, Hh.
  assert (length (concat (groups b))
          = (length (groups b) * N_SETTINGS_PER_MEASUREMENT)%nat) as ->.
  { induction Hgs as [|g gs Hg _ IH]; simpl; [ done | ].
    rewrite length_app, Hg, IH. done. }
  lia.
Qed.

Lemma prepare_flags_layout (bs : list Block) :
  forall suf,
    Forall (shaped N_FIXED_SETTINGS_PER_FLAG N_SETTINGS_PER_MEASUREMENT)
      bs ->
    prepare_flags (flat_map flatten_block bs ++ suf) (length bs)
    = Ok (map (fun b => Nat.max 1 (length (groups b))) bs).
Proof.
  induction bs as [|b bs IH]; intros suf Hbs; [ done | ].
  apply Forall_cons in Hbs as [Hb Hbs].
  pose proof (length_flatten_block b Hb) as Hlen.
  destruct Hb as (Hh & Hgs & c & Hc & Hint).
  cbn [length prepare_flags flat_map].
  assert (Py.index ((flatten_block b ++ flat_map flatten_block bs) ++ suf) 0
          = Ok c) as ->.
  { unfold flatten_block. destruct (header b); [ done | ].
    simpl in Hc. injection Hc as ->. done. }
  cbn [mbind res_bind]. rewrite Hint. cbn [mbind res_bind].
  rewrite <- app_assoc.
  rewrite (slice_from_app (flatten_block b)) by lia.
  rewrite (IH suf Hbs). cbn [mbind res_bind map]. do 2 f_equal. lia.
Qed.

Lemma prepare_settings_layout (n : string) (bs : list Block)
    (extra : list string) :
  well_formed N_FIXED_SETTINGS_PER_FLAG N_SETTINGS_PER_MEASUREMENT n bs ->
  bs <> [] ->
  prepare_settings (layout n bs ++ extra)
  = Ok (map (fun b => Nat.max 1 (length (groups b))) bs).
Proof.
  intros [Hn Hbs] Hne. unfold prepare_settings, layout.
  cbn [app Py.index lookup list_lookup mbind res_bind].
  change (Py.index (n :: flat_map flatten_block bs ++ extra) 0) with (Ok n).
  cbn [mbind res_bind]. rewrite Hn. cbn [mbind res_bind].
  assert (Z.to_nat (Z.max 1 (Z.of_nat (length bs))) = length bs) as ->.
  { destruct bs; [ done | simpl; lia ]. }
  unfold N_FIXED_SETTINGS. cbn [drop].
  by apply prepare_flags_layout.
Qed.

Lemma settings_layout (flags : list FlagText) :
  settings flags = layout (hidden_count flags) (map text_block flags).
Proof.
  unfold settings, layout. cbn [app]. f_equal.
  induction flags as [|flag flags IH]; [ done | ].
  cbn [flat_map map]. rewrite IH. f_equal.
  unfold flatten_block, text_block; cbn [header groups]. f_equal.
  by rewrite flat_map_concat_map.
Qed.

Lemma settings_well_formed (flags : list FlagText) :
  well_formed N_FIXED_SETTINGS_PER_FLAG N_SETTINGS_PER_MEASUREMENT
    (hidden_count flags) (map text_block flags).
Proof.
  split.
  - unfold hidden_count. by rewrite length_map, Decimals.int_fmt_d.
  - apply Forall_map, Forall_forall. intros flag _.
    split; [ done | ]. split.
    + cbn [text_block groups]. apply Forall_map, Forall_forall. done.
    + eexists. split; [ reflexivity | ].
      cbn [text_block groups]. unfold hidden_count.
      by rewrite length_map, Decimals.int_fmt_d.
Qed.

Lemma length_settings (flags : list FlagText) :
  length (settings flags)
  = (N_FIXED_SETTINGS
     + sum_list_with
         (fun flag => N_FIXED_SETTINGS_PER_FLAG
                      + N_SETTINGS_PER_MEASUREMENT
                        * length (t_measurement_settings flag))
         flags)%nat.
Proof.
  unfold settings. cbn [app length]. f_equal.
  induction flags as [|flag flags IH]; [ done | ].
  cbn [flat_map sum_list_with]. rewrite !length_app, IH. f_equal.
  cbn [length]. unfold N_FIXED_SETTINGS_PER_FLAG. f_equal.
  induction (t_measurement_settings flag) as [|mg l IHl]; [ done | ].
  cbn [flat_map length app]. rewrite IHl.
  unfold N_SETTINGS_PER_MEASUREMENT. lia.
Qed.

(** X12: what [settings] saves, [prepare_settings] reads back. For a
    module with at least one flag the saved list has one value for the
    flag count, five per flag and ten per measurement group, and
    [prepare_settings] builds from it as many flags as were saved, each
    with as many measurement groups as it had (one for a flag saved
    without any). *)
Theorem settings_prepare_settings (flags : list FlagText) :
  flags <> [] ->
  prepare_settings (settings flags)
  = Ok (map (fun flag => Nat.max 1 (length (t_measurement_settings flag)))
          flags)
  /\ length (settings flags)
     = (N_FIXED_SETTINGS
        + sum_list_with
            (fun flag => N_FIXED_SETTINGS_PER_FLAG
                         + N_SETTINGS_PER_MEASUREMENT
                           * length (t_measurement_settings flag))
            flags)%nat
  /\ (Forall (fun flag => t_measurement_settings flag <> []) flags ->
      prepare_settings (settings flags)
      = Ok (map (fun flag => length (t_measurement_settings flag)) flags)).
Proof.
  intros Hne.
  assert (prepare_settings (settings flags)
          = Ok (map (fun flag =>
                       Nat.max 1 (length (t_measurement_settings flag)))
                  flags)) as Hprep.
  { rewrite settings_layout, <- (app_nil_r (layout _ _)).
    rewrite prepare_settings_layout;
      [ | apply settings_well_formed | by destruct flags ].
    rewrite map_map. f_equal. apply map_ext. intros flag.
    cbn [text_block groups]. by rewrite length_map. }
  split; [ exact Hprep | ]. split; [ apply length_settings | ].
  intros Hall. rewrite Hprep. f_equal. apply map_ext_Forall.
  eapply Forall_impl; [ exact Hall | ]. intros flag Hflag; simpl in *.
  destruct (t_measurement_settings flag); [ done | simpl; lia ].
Qed.

End PrepareResults.

Section MigratedModule.
Context `{Externals}.

Lemma shaped_v3_v4 (b : Block) :
  shaped N_FIXED_SETTINGS_PER_FLAG N_SETTINGS_PER_MEASUREMENT_V3 b ->
  shaped N_FIXED_SETTINGS_PER_FLAG N_SETTINGS_PER_MEASUREMENT
    (map_block id add_class b).
Proof.
  destruct b as [h gs]. intros (Hh & Hgs & c & Hc & Hint).
  unfold shaped, map_block; simpl in *.
  split; [ done | split ].
  - apply Forall_map. eapply Forall_impl; [ exact Hgs | ].
    intros g Hg; simpl in *. unfold add_class. rewrite length_app, Hg.
    done.
  - exists c. by rewrite length_map.
Qed.

Lemma well_formed_v3_v4 (n : string) (bs : list Block) :
  well_formed N_FIXED_SETTINGS_PER_FLAG N_SETTINGS_PER_MEASUREMENT_V3
    n bs ->
  well_formed N_FIXED_SETTINGS_PER_FLAG N_SETTINGS_PER_MEASUREMENT n
    (map (map_block id add_class) bs).
Proof.
  intros [Hn Hbs]. split; [ by rewrite length_map | ].
  apply Forall_map. eapply Forall_impl; [ exact Hbs | ].
  apply shaped_v3_v4.
Qed.

Lemma layout_v4_settings (fs : list LegacyFlag) :
  Forall (fun f => lf_count f = hidden_count (lf_measurements f)) fs ->
  layout_v4 (hidden_count fs) fs = settings (map migrated_text fs).
Proof.
  intros Hfs. unfold layout_v4, settings, hidden_count.
  rewrite length_map. cbn [app]. f_equal.
  induction Hfs as [|f fs Hf _ IH]; [ done | ].
  cbn [flat_map map]. rewrite IH. f_equal.
  unfold flag_v4, migrated_text; cbn [t_measurement_settings t_category
    t_feature_name t_combination_choice t_wants_skip].
  rewrite Hf. unfold hidden_count. rewrite length_map. cbn [app].
  do 5 f_equal. clear Hf IH.
  induction (lf_measurements f) as [|m ms IHm]; [ done | ].
  cbn [flat_map map]. rewrite IHm. reflexivity.
Qed.

(** X13: the list the migrator returns for a well-formed revision-1
    list with at least one flag is one [prepare_settings] accepts: it
    builds as many flags as the old list had, each with as many
    measurement groups (one when it had none). When the counts of the
    old list are written the way the module saves them, the migrated
    list is the very list [settings] gives for the migrated flags. *)
Theorem migrated_settings_prepare (n : string) (fs : list LegacyFlag)
    (name : string) :
  legacy_well_formed n fs ->
  fs <> [] ->
  exists sv,
    upgrade_settings (layout_v1 n fs) 1 name false = Ok (sv, 4, false)
    /\ prepare_settings sv
       = Ok (map (fun f => Nat.max 1 (length (lf_measurements f))) fs)
    /\ (n = hidden_count fs ->
        Forall (fun f => lf_count f = hidden_count (lf_measurements f)) fs ->
        sv = settings (map migrated_text fs)).
Proof.
  intros Hwf Hne. exists (layout_v4 n fs).
  split; [ | split ].
  - rewrite <- (app_nil_r (layout_v1 n fs)).
    by apply upgrade_legacy_layout.
  - rewrite layout_v4_blocks, <- (app_nil_r (layout _ _)).
    rewrite prepare_settings_layout.
    + rewrite !map_map. f_equal. apply map_ext. intros f.
      cbn [map_block block_of groups]. by rewrite !length_map.
    + by apply well_formed_v3_v4, well_formed_v2_v3, well_formed_v1_v2,
        legacy_well_formed_blocks.
    + by destruct fs.
  - intros -> Hcounts. by apply layout_v4_settings.
Qed.

Lemma prepare_flags_counts (k : nat) :
  forall sv counts,
    prepare_flags sv k = Ok counts ->
    length counts = k /\ Forall (fun c => (1 <= c)%nat) counts.
Proof.
  induction k as [|k IH]; intros sv counts; cbn [prepare_flags].
  - intros [= <-]. done.
  - destruct (Py.index sv 0 ≫= Py.int) as [count|]; cbn [mbind res_bind];
      [ | discriminate ].
    destruct (prepare_flags _ k) as [rest|] eqn:Hrest; cbn [mbind res_bind];
      [ | discriminate ].
    intros [= <-]. destruct (IH _ _ Hrest) as [Hlen Hall].
    split; [ simpl; by rewrite Hlen | ].
    constructor; [ lia | done ].
Qed.

End MigratedModule.


(** ** Rules: choices, validation and evaluation *)

Section RulesChoices.
Context `{Externals}.

Lemma class_numbers_lookup (n k : nat) (c : string) :
  class_numbers n !! k = Some c ->
  (k < n)%nat /\ Py.int c = Ok (Z.of_nat k + 1).
Proof.
  unfold class_numbers. intros Hk.
  change (((fun i => Py.fmt_d (Z.of_nat i)) <$> seq 1 n) !! k = Some c)
    in Hk.
  apply list_lookup_fmap_Some in Hk as (i & -> & Hi).
  apply lookup_seq in Hi as [-> Hlt].
  split; [ done | ]. rewrite Decimals.int_fmt_d. f_equal. lia.
Qed.

Lemma class_numbers_parse (n : nat) (selections : list string) :
  Forall (fun x => x ∈ class_numbers n) selections ->
  exists classes,
    mapM (fun x => i ← Py.int x; Ok (i - 1)) selections = Ok classes
    /\ Forall (fun c => 0 <= c < Z.of_nat n) classes.
Proof.
  induction 1 as [|x selections Hx _ (classes & Hparse & Hall)].
  - by exists [].
  - apply list_elem_of_lookup in Hx as (k & Hk).
    apply class_numbers_lookup in Hk as [Hlt Hint].
    exists (Z.of_nat k :: classes). split.
    + cbn. rewrite Hint; cbn. rewrite Hparse; cbn.
      do 2 f_equal. lia.
    + constructor; [ lia | done ].
Qed.

(** X15: the class chooser never fails and offers what the evaluation
    can read. It offers the numbers 1 to n for the n weights of the
    first rule of the file, and 1 and 2 when the file is missing, does
    not parse or holds no rule; the choice at position k reads back as
    the integer k + 1, so that selections taken among the choices give
    the rules criterion class indices from 0 to n - 1 without error. *)
Theorem class_choices (fs : FileSystem) (group : MeasurementGroup) :
  (forall e, get_rules fs group = Raise e ->
             get_rules_class_choices fs group = class_numbers 2)
  /\ (forall loaded, get_rules fs group = Ok loaded ->
        rules loaded = [] ->
        get_rules_class_choices fs group = class_numbers 2)
  /\ (forall loaded first_rule first_weights more_rules more_weights,
        get_rules fs group = Ok loaded ->
        rules loaded = first_rule :: more_rules ->
        rule_weights first_rule = first_weights :: more_weights ->
        get_rules_class_choices fs group
        = class_numbers (length first_weights))
  /\ (forall k c,
        get_rules_class_choices fs group !! k = Some c ->
        Py.int c = Ok (Z.of_nat k + 1))
  /\ (forall selections,
        Forall (fun x => x ∈ get_rules_class_choices fs group) selections ->
        exists classes,
          mapM (fun x => i ← Py.int x; Ok (i - 1)) selections = Ok classes
          /\ Forall (fun c => 0 <= c
                              < Z.of_nat (length (get_rules_class_choices
                                                    fs group)))
               classes).
Proof.
  assert (exists n, get_rules_class_choices fs group = class_numbers n)
    as (n & Hn).
  { unfold get_rules_class_choices. destruct (_ ≫= _); by eexists. }
  split; [ | split; [ | split; [ | split ] ] ].
  - intros e He. unfold get_rules_class_choices. by rewrite He.
  - intros loaded Hget Hrules. unfold get_rules_class_choices.
    rewrite Hget; cbn. by rewrite Hrules.
  - intros loaded first_rule first_weights more_rules more_weights
      Hget Hrules Hweights.
    unfold get_rules_class_choices. rewrite Hget; cbn.
    rewrite Hrules; cbn. by rewrite Hweights.
  - intros k c. rewrite Hn. by intros [_ Hint]%class_numbers_lookup.
  - intros selections. rewrite Hn. unfold class_numbers at 2.
    rewrite length_map, length_seq. apply class_numbers_parse.
Qed.

End RulesChoices.

Section ValidationSound.
Context `{Externals}.

Lemma validate_flags_raises (fs : FileSystem)
    (cols : list (string * string * string)) (flags : list Flag) :
  forall i0 e,
    validate_flags fs cols i0 flags = Raise e ->
    exists msg i j flag ms,
      e = ValidationError msg (RulesFileNameSetting (i0 + i) j)
      /\ flags !! i = Some flag
      /\ measurement_settings flag !! j = Some ms
      /\ source_choice ms = S_RULES
      /\ invalid_rules fs cols ms.
Proof.
  induction flags as [|f flags IH]; intros i0 e; [ discriminate | ].
  cbn -[validate_measurements].
  destruct (validate_measurements fs cols i0 0 (measurement_settings f))
    as [[]|e'] eqn:Hf; cbn -[validate_measurements].
  - intros Hrun. destruct (IH (S i0) e Hrun)
      as (msg & i & j & flag & ms & -> & Hi & Hj & Hs & Hbad).
    exists msg, (S i), j, flag, ms.
    split_and!; [ do 2 f_equal; lia | done | done | done | done ].
  - intros [= <-].
    destruct (validate_measurements_raises fs cols i0
                (measurement_settings f) 0 e' Hf)
      as (msg & j & ms & -> & Hj & Hs & Hbad).
    exists msg, 0%nat, j, f, ms.
    split_and!; [ do 2 f_equal; lia | done | done | done | done ].
Qed.

Lemma validate_module_raises (fs : FileSystem)
    (cols : list (string * string * string)) (flags : list Flag) (e : exn) :
  validate_module fs cols flags = Raise e ->
  exists msg i j flag ms,
    e = ValidationError msg (RulesFileNameSetting i j)
    /\ flags !! i = Some flag
    /\ measurement_settings flag !! j = Some ms
    /\ source_choice ms = S_RULES
    /\ invalid_rules fs cols ms.
Proof. intros He. by apply (validate_flags_raises fs cols flags 0 e). Qed.

Lemma validate_module_ok_iff (fs : FileSystem)
    (cols : list (string * string * string)) (flags : list Flag) :
  validate_module fs cols flags = Ok ()
  <-> forall i j flag ms,
        flags !! i = Some flag ->
        measurement_settings flag !! j = Some ms ->
        source_choice ms = S_RULES ->
        ~ invalid_rules fs cols ms.
Proof.
  split.
  - intros Hok i j flag ms Hi Hj Hs Hbad.
    destruct (validate_flags_invalid fs cols flags 0 i j flag ms
                Hi Hj Hs Hbad) as (msg & i' & j' & _ & _ & Hrun & _).
    unfold validate_module in Hok. congruence.
  - intros Hvalid.
    destruct (validate_module fs cols flags) as [[]|e] eqn:Hrun;
      [ done | ].
    destruct (validate_module_raises fs cols flags e Hrun)
      as (msg & i & j & flag & ms & _ & Hi & Hj & Hs & Hbad).
    by destruct (Hvalid i j flag ms Hi Hj Hs).
Qed.

(** X16: [validate_module] rejects a module for its rules only. It
    passes exactly when no rules criterion has invalid rules, so a
    module without rules criterion always passes; and what it raises is
    always a validation error on the rules-file setting of a rules
    criterion whose rules are invalid. *)
Theorem validate_module_sound (fs : FileSystem)
    (cols : list (string * string * string)) (flags : list Flag) :
  (validate_module fs cols flags = Ok ()
   <-> forall i j flag ms,
         flags !! i = Some flag ->
         measurement_settings flag !! j = Some ms ->
         source_choice ms = S_RULES ->
         ~ invalid_rules fs cols ms)
  /\ (forall e,
        validate_module fs cols flags = Raise e ->
        exists msg i j flag ms,
          e = ValidationError msg (RulesFileNameSetting i j)
          /\ flags !! i = Some flag
          /\ measurement_settings flag !! j = Some ms
          /\ source_choice ms = S_RULES
          /\ invalid_rules fs cols ms)
  /\ (Forall (fun flag =>
                Forall (fun ms => source_choice ms <> S_RULES)
                  (measurement_settings flag)) flags ->
      validate_module fs cols flags = Ok ()).
Proof.
  split; [ apply validate_module_ok_iff | ].
  split; [ apply validate_module_raises | ].
  intros Hnone. apply validate_module_ok_iff.
  intros i j flag ms Hi Hj Hs _.
  rewrite Forall_forall in Hnone.
  specialize (Hnone flag (list_elem_of_lookup_2 _ _ _ Hi)).
  rewrite Forall_forall in Hnone.
  by apply (Hnone ms (list_elem_of_lookup_2 _ _ _ Hj)).
Qed.

(** X17: the rules of a module that has passed validation load again at
    evaluation, on the same files: for each of its rules criteria the
    rules file parses, every rule is on the image and on a measurement
    among the columns made earlier, and the evaluation goes on from the
    scores of those rules; it does not raise the error of a missing
    file. *)
Theorem validated_rules_load (fs : FileSystem)
    (cols : list (string * string * string)) (flags : list Flag)
    (ws : Workspace) (flag : Flag) (ms : MeasurementGroup) :
  validate_module fs cols flags = Ok () ->
  flag ∈ flags ->
  ms ∈ measurement_settings flag ->
  source_choice ms = S_RULES ->
  exists loaded,
    get_rules fs ms = Ok loaded
    /\ Forall (fun r => rule_object_name r = cpmeas_IMAGE
                        /\ rule_feature r ∈ map (fun c => c.1.2) cols)
         (rules loaded)
    /\ eval_source fs ws ms
       = (scores ← rules_score loaded (measurements ws);
          eval_rules scores (rules_class ms)).
Proof.
  intros Hok Hflag Hms Hs.
  apply list_elem_of_lookup in Hflag as (i & Hi).
  apply list_elem_of_lookup in Hms as (j & Hj).
  pose proof (proj1 (validate_module_ok_iff fs cols flags) Hok
                i j flag ms Hi Hj Hs) as Hvalid.
  unfold invalid_rules in Hvalid.
  destruct (fs !! rules_path ms) as [content|] eqn:Hfile;
    [ | exfalso; apply Hvalid; by left ].
  destruct (rules_parse content) as [loaded|e] eqn:Hparse;
    [ | exfalso; apply Hvalid; right; left; by exists content, e ].
  assert (get_rules fs ms = Ok loaded) as Hget.
  { rewrite get_rules_path, Hfile. done. }
  exists loaded. split; [ done | ]. split.
  - apply Forall_forall. intros r Hr.
    destruct (decide (rule_object_name r = cpmeas_IMAGE)) as [Hobj | Hobj];
      [ | exfalso; apply Hvalid; right; right;
          exists content, loaded, r; split_and!; auto ].
    destruct (decide (rule_feature r ∈ map (fun c => c.1.2) cols))
      as [Hfeat | Hfeat];
      [ done | ].
    exfalso. apply Hvalid. right; right.
    exists content, loaded, r. split_and!; auto.
  - unfold eval_source. rewrite Hs; cbn -[eval_rules]. by rewrite Hget.
Qed.

End ValidationSound.

Section ImageVote.
Context `{Externals}.

Lemma hits_single (scores : matrix) (row : list float) (classes : list Z) :
  rows scores = [row] ->
  hits scores classes
  = if decide (Np.any_not_nan row = true)
    then if decide (Z.of_nat (class_of row) ∈ classes) then 1 else 0
    else 0.
Proof.
  intros Hrows. unfold hits, kept_rows. rewrite Hrows.
  rewrite filter_cons, filter_nil.
  destruct (decide (Np.any_not_nan row = true)); [ | done ].
  rewrite filter_cons, filter_nil.
  by destruct (decide (Z.of_nat (class_of row) ∈ classes)).
Qed.

Lemma hits_none (scores : matrix) : hits scores [] = 0.
Proof.
  unfold hits. induction (kept_rows scores) as [|row l IH]; [ done | ].
  rewrite filter_cons.
  destruct (decide (Z.of_nat (class_of row) ∈ [])) as [Hin | _];
    [ by apply elem_of_nil in Hin | done ].
Qed.

(** X18: on the usual score matrix of one row, the image, a rules
    criterion fails exactly when the row has a score that is not NaN
    and its class is one of the selected classes; the value shown is
    "--". With no class selected a rules criterion passes on every
    matrix. *)
Theorem image_vote (fs : FileSystem) (ws : Workspace) (ms : MeasurementGroup)
    (loaded : Rules) (scores : matrix) :
  source_choice ms = S_RULES ->
  get_rules fs ms = Ok loaded ->
  rules_score loaded (measurements ws) = Ok scores ->
  ncols scores <> 0%nat ->
  Forall (fun row => length row = ncols scores) (rows scores) ->
  (forall row classes,
     rows scores = [row] ->
     Forall2 (fun x c => Py.int x = Ok (c + 1)) (rules_class ms) classes ->
     NoDup classes ->
     exists passed : bool,
       eval_measurement fs ws ms
       = Ok (passed, (cpmeas_IMAGE, "Rules", "--",
                      if passed then "Pass" else "Fail"))
       /\ (passed = false <->
           Np.any_not_nan row = true
           /\ Z.of_nat (class_of row) ∈ classes))
  /\ (rules_class ms = [] ->
      exists shown,
        eval_measurement fs ws ms
        = Ok (true, (cpmeas_IMAGE, "Rules", shown, "Pass"))).
Proof.
  intros Hs Hget Hscore Hn Hrows.
  assert (forall classes,
            Forall2 (fun x c => Py.int x = Ok (c + 1)) (rules_class ms)
              classes ->
            NoDup classes ->
            let total := Z.of_nat (length (rows scores)) in
            let failed := total - hits scores classes <? hits scores classes in
            eval_measurement fs ws ms
            = Ok (negb failed,
                  (cpmeas_IMAGE, "Rules",
                   if 1 <? total
                   then Py.fmt_d (hits scores classes) +:+ " of "
                        +:+ Py.fmt_d total
                   else "--",
                   if failed then "Fail" else "Pass"))) as Heval.
  { intros classes Hsel Hnd total failed.
    unfold eval_measurement, eval_source, final_fail.
    rewrite Hs; cbn -[eval_rules]. rewrite Hget; cbn -[eval_rules].
    rewrite Hscore; cbn -[eval_rules].
    by rewrite (eval_rules_vote scores _ classes Hsel Hnd Hn Hrows). }
  split.
  - intros row classes Hrow Hsel Hnd.
    specialize (Heval classes Hsel Hnd). cbv zeta in Heval.
    rewrite (hits_single scores row classes Hrow), Hrow in Heval.
    cbn [length] in Heval.
    destruct (decide (Np.any_not_nan row = true)) as [Hkept | Hkept];
      [ destruct (decide (Z.of_nat (class_of row) ∈ classes))
          as [Hin | Hin] | ];
      cbn in Heval; eexists; (split; [ exact Heval | ]);
      split; try done; intros [? ?]; done.
  - intros Hnone.
    assert (Forall2 (fun x c => Py.int x = Ok (c + 1)) (rules_class ms) [])
      as Hsel by (rewrite Hnone; constructor).
    specialize (Heval [] Hsel (NoDup_nil_2 (A:=Z))). cbv zeta in Heval.
    rewrite hits_none in Heval.
    assert ((Z.of_nat (length (rows scores)) - 0 <? 0) = false) as Hfalse
      by (apply Z.ltb_ge; lia).
    rewrite Hfalse in Heval. cbn [negb] in Heval. by eexists.
Qed.

End ImageVote.

Section Display.
Context `{Externals}.

Lemma values_app_inj (m m' : MeasurementGroup) (rest rest' : list Setting) :
  measurement_visibles false m ++ rest
  = measurement_visibles false m' ++ rest' ->
  measurement_visibles false m = measurement_visibles false m'
  /\ rest = rest'.
Proof.
  unfold measurement_visibles. cbn [app].
  intros Heq.
  assert (source_choice m = source_choice m') as Hs.
  { destruct (_ || _), (String.eqb (source_choice m) S_RULES),
      (wants_minimum m), (wants_maximum m);
    destruct (_ || _), (String.eqb (source_choice m') S_RULES),
      (wants_minimum m'), (wants_maximum m');
    cbn in Heq; congruence. }
  rewrite <- Hs in *.
  destruct (_ || _), (String.eqb (source_choice m) S_RULES);
    destruct (wants_minimum m), (wants_minimum m'); cbn in Heq;
    try discriminate;
    destruct (wants_maximum m), (wants_maximum m'); cbn in Heq;
    try discriminate; cbn; split; congruence.
Qed.

Lemma values_fields (m m' : MeasurementGroup) :
  measurement_visibles false m = measurement_visibles false m' ->
  source_choice m = source_choice m'
  /\ (String.eqb (source_choice m) S_ALL_OBJECTS
      || String.eqb (source_choice m) S_AVERAGE_OBJECT = true ->
      object_name m = object_name m')
  /\ (String.eqb (source_choice m) S_RULES = true ->
      rules_directory m = rules_directory m'
      /\ rules_file_name m = rules_file_name m'
      /\ rules_class m = rules_class m')
  /\ (String.eqb (source_choice m) S_RULES = false ->
      measurement m = measurement m'
      /\ wants_minimum m = wants_minimum m'
      /\ wants_maximum m = wants_maximum m'
      /\ (wants_minimum m = true -> minimum_value m = minimum_value m')
      /\ (wants_maximum m = true -> maximum_value m = maximum_value m')).
Proof.
  intros Heq.
  unfold measurement_visibles in Heq. cbn [app] in Heq.
  assert (source_choice m = source_choice m') as Hs.
  { destruct (_ || _), (String.eqb (source_choice m) S_RULES),
      (wants_minimum m), (wants_maximum m);
    destruct (_ || _), (String.eqb (source_choice m') S_RULES),
      (wants_minimum m'), (wants_maximum m');
    cbn in Heq; congruence. }
  split; [ exact Hs | ]. rewrite <- Hs in Heq.
  destruct (_ || _), (String.eqb (source_choice m) S_RULES);
    destruct (wants_minimum m), (wants_minimum m'); cbn in Heq;
    try discriminate;
    destruct (wants_maximum m), (wants_maximum m'); cbn in Heq;
    try discriminate; split_and!; intros; split_and?; intros; congruence.
Qed.

Lemma values_source (fs : FileSystem) (ws : Workspace)
    (m m' : MeasurementGroup) :
  measurement_visibles false m = measurement_visibles false m' ->
  eval_source fs ws m = eval_source fs ws m'.
Proof.
  intros (Hs & Hobj & Hrules & Hthr)%values_fields.
  unfold eval_source, get_rules. rewrite <- Hs.
  destruct (String.eqb (source_choice m) S_RULES) eqn:Er.
  - destruct (Hrules eq_refl) as (-> & -> & ->).
    apply String.eqb_eq in Er. rewrite Er. reflexivity.
  - destruct (Hthr eq_refl) as (-> & _).
    destruct (String.eqb (source_choice m) S_IMAGE); [ done | ].
    destruct (String.eqb (source_choice m) S_AVERAGE_OBJECT) eqn:Ea.
    { rewrite Hobj; [ done | by rewrite orb_true_r ]. }
    destruct (String.eqb (source_choice m) S_ALL_OBJECTS) eqn:Eo;
      [ | done ].
    by rewrite Hobj.
Qed.

Lemma values_final (m m' : MeasurementGroup) (l : Locals) :
  measurement_visibles false m = measurement_visibles false m' ->
  final_fail m l = final_fail m' l.
Proof.
  intros (Hs & _ & _ & Hthr)%values_fields.
  unfold final_fail. rewrite <- Hs.
  destruct (String.eqb (source_choice m) S_RULES); [ done | ].
  destruct (Hthr eq_refl) as (_ & Hwmin & Hwmax & Hmin & Hmax).
  rewrite <- Hwmin, <- Hwmax.
  destruct (wants_minimum m), (wants_maximum m);
    try rewrite (Hmin eq_refl); try rewrite (Hmax eq_refl); done.
Qed.

Lemma values_eval (fs : FileSystem) (ws : Workspace)
    (m m' : MeasurementGroup) :
  measurement_visibles false m = measurement_visibles false m' ->
  eval_measurement fs ws m = eval_measurement fs ws m'.
Proof.
  intros Heq. unfold eval_measurement.
  rewrite (values_source fs ws m m' Heq).
  destruct (eval_source fs ws m') as [l|e]; [ | done ]. cbn.
  rewrite (values_final m m' l Heq).
  destruct (values_fields m m' Heq) as (Hs & _ & _ & Hthr).
  rewrite <- Hs.
  destruct (String.eqb (source_choice m) S_RULES); [ done | ].
  by destruct (Hthr eq_refl) as (-> & _).
Qed.

Lemma values_validate (fs : FileSystem)
    (cols : list (string * string * string)) (i j : nat)
    (m m' : MeasurementGroup) :
  measurement_visibles false m = measurement_visibles false m' ->
  validate_measurement fs cols i j m = validate_measurement fs cols i j m'.
Proof.
  intros (Hs & _ & Hrules & _)%values_fields.
  unfold validate_measurement, get_rules. rewrite <- Hs.
  destruct (String.eqb (source_choice m) S_RULES); [ | done ].
  by destruct (Hrules eq_refl) as (-> & -> & _).
Qed.

Lemma values_measurement_visibles (has_remover : bool)
    (m : MeasurementGroup) :
  List.filter carries_value (measurement_visibles has_remover m)
  = measurement_visibles false m.
Proof.
  unfold measurement_visibles.
  destruct has_remover, (_ || _), (String.eqb (source_choice m) S_RULES),
    (wants_minimum m), (wants_maximum m); reflexivity.
Qed.

Lemma values_flag_visibles (has_remover : bool) (removers : nat -> bool)
    (flag : Flag) :
  List.filter carries_value (flag_visibles has_remover removers flag)
  = flag_values flag.
Proof.
  unfold flag_visibles, flag_values.
  assert (forall (l : list MeasurementGroup) (rm : nat -> bool),
            List.filter carries_value
              (concat (imap (fun j m_g => measurement_visibles (rm j) m_g)
                         l))
            = flat_map (measurement_visibles false) l) as Hgroups.
  { induction l as [|m l IH]; intros rm; [ done | ].
    cbn [imap concat flat_map]. rewrite List.filter_app.
    rewrite values_measurement_visibles. f_equal. apply (IH (rm ∘ S)). }
  destruct has_remover, (1 <? length (measurement_settings flag))%nat;
    rewrite !List.filter_app, Hgroups; cbn; by rewrite ?app_nil_r.
Qed.

Lemma values_visible_settings (flag_removers : nat -> bool)
    (removers : nat -> nat -> bool) (flags : list Flag) :
  List.filter carries_value (visible_settings flag_removers removers flags)
  = flat_map flag_values flags.
Proof.
  unfold visible_settings. rewrite List.filter_app; cbn.
  rewrite app_nil_r. revert flag_removers removers.
  induction flags as [|flag flags IH]; intros flag_removers removers;
    [ done | ].
  cbn [imap concat flat_map]. rewrite List.filter_app.
  rewrite values_flag_visibles. f_equal.
  apply (IH (flag_removers ∘ S) (removers ∘ S)).
Qed.


Lemma values_head (m : MeasurementGroup) :
  exists tl,
    measurement_visibles false m = SourceChoice (source_choice m) :: tl.
Proof.
  unfold measurement_visibles.
  destruct (_ || _), (String.eqb (source_choice m) S_RULES),
    (wants_minimum m), (wants_maximum m); cbn; by eexists.
Qed.

Lemma values_list_inj (l l' : list MeasurementGroup)
    (rest rest' : list Setting) :
  flat_map (measurement_visibles false) l ++ rest
  = flat_map (measurement_visibles false) l' ++ rest' ->
  (forall v tl, rest <> SourceChoice v :: tl) ->
  (forall v tl, rest' <> SourceChoice v :: tl) ->
  Forall2 (fun m m' => measurement_visibles false m
                       = measurement_visibles false m') l l'
  /\ rest = rest'.
Proof.
  intros Heq Hrest Hrest'. revert l' Heq.
  induction l as [|m l IH]; intros [|m' l'] Heq;
    cbn [flat_map app] in Heq.
  - by split.
  - destruct (values_head m') as (tl & Hm). rewrite Hm in Heq.
    by destruct (Hrest _ _ Heq).
  - destruct (values_head m) as (tl & Hm). rewrite Hm in Heq.
    by destruct (Hrest' _ _ (eq_sym Heq)).
  - rewrite <- !app_assoc in Heq.
    apply values_app_inj in Heq as [Hm Heq].
    destruct (IH l' Heq) as [Hl ->]. split; [ by constructor | done ].
Qed.

Lemma flag_values_app_inj (f f' : Flag) (rest rest' : list Setting) :
  flag_values f ++ rest = flag_values f' ++ rest' ->
  (rest = [] \/ exists v tl, rest = FlagCategory v :: tl) ->
  (rest' = [] \/ exists v tl, rest' = FlagCategory v :: tl) ->
  same_on_display f f' /\ rest = rest'.
Proof.
  unfold flag_values, same_on_display. cbn [app].
  intros Heq Hrest Hrest'.
  injection Heq as Hc Hf Hs Heq. rewrite <- !app_assoc in Heq.
  assert (forall v tl, rest <> SourceChoice v :: tl) as Hno.
  { intros v tl ->. by destruct Hrest as [? | (? & ? & ?)]. }
  assert (forall v tl, rest' <> SourceChoice v :: tl) as Hno'.
  { intros v tl ->. by destruct Hrest' as [? | (? & ? & ?)]. }
  assert (forall (l : list MeasurementGroup) r c tl,
            (r = [] \/ exists v tl, r = FlagCategory v :: tl) ->
            flat_map (measurement_visibles false) l ++ r
            <> CombinationChoice c :: tl) as Hchoice.
  { intros [|m l] r c tl Hr Hl; cbn [flat_map app] in Hl.
    - subst r. by destruct Hr as [? | (? & ? & ?)].
    - destruct (values_head m) as (tl' & Hm). by rewrite Hm in Hl. }
  destruct (1 <? length (measurement_settings f))%nat eqn:En,
    (1 <? length (measurement_settings f'))%nat eqn:En'; cbn in Heq.
  - injection Heq as Hchoose Heq.
    destruct (values_list_inj _ _ _ _ Heq Hno Hno') as [Hl ->].
    by split_and!.
  - by destruct (Hchoice _ _ _ _ Hrest' (eq_sym Heq)).
  - by destruct (Hchoice _ _ _ _ Hrest Heq).
  - destruct (values_list_inj _ _ _ _ Heq Hno Hno') as [Hl ->].
    split_and!; try done.
    intros Hn. apply Nat.ltb_ge in En. lia.
Qed.

Lemma flags_values_inj (flags flags' : list Flag) :
  flat_map flag_values flags = flat_map flag_values flags' ->
  Forall2 same_on_display flags flags'.
Proof.
  assert (forall l : list Flag,
            flat_map flag_values l = []
            \/ exists v tl, flat_map flag_values l = FlagCategory v :: tl)
    as Hhead.
  { intros [|f l]; [ by left | right ]. cbn. by do 2 eexists. }
  revert flags'.
  induction flags as [|f flags IH]; intros [|f' flags'] Heq.
  - constructor.
  - discriminate.
  - discriminate.
  - cbn [flat_map] in Heq.
    destruct (flag_values_app_inj f f' _ _ Heq (Hhead _) (Hhead _))
      as [Hf Hrest].
    constructor; [ done | by apply IH ].
Qed.

Lemma same_run_flag_rest (fs : FileSystem) (ws : Workspace) (f f' : Flag)
    (l l' : list MeasurementGroup) :
  Forall2 (fun m m' => measurement_visibles false m
                       = measurement_visibles false m') l l' ->
  measurement_name f = measurement_name f' ->
  (l <> [] -> combination_choice f = combination_choice f') ->
  forall st, run_flag_rest fs ws f l st = run_flag_rest fs ws f' l' st.
Proof.
  intros Hl Hname. induction Hl as [|m m' l l' Hm Hl IH];
    intros Hchoice st; [ done | ].
  cbn [run_flag_rest]. destruct st as [ok statistics].
  rewrite (values_eval fs ws m m' Hm), Hname, (Hchoice ltac:(done)).
  destruct (eval_measurement fs ws m') as [[ok_1 stats]|e]; [ | done ].
  cbn.
  destruct (String.eqb (combination_choice f') C_ALL); cbn.
  { apply IH. intros _. by apply Hchoice. }
  destruct (String.eqb (combination_choice f') C_ANY); cbn; [ | done ].
  apply IH. intros _. by apply Hchoice.
Qed.

Lemma same_run_flag (fs : FileSystem) (ws : Workspace) (f f' : Flag) :
  same_on_display f f' -> run_flag fs ws f = run_flag fs ws f'.
Proof.
  intros (Hc & Hf & Hs & Hl & Hchoice).
  assert (measurement_name f = measurement_name f') as Hname.
  { unfold measurement_name. by rewrite Hc, Hf. }
  assert (run_flag_verdict fs ws f = run_flag_verdict fs ws f') as Hv.
  { unfold run_flag_verdict.
    destruct Hl as [|m m' l l' Hm Hl]; [ done | ].
    cbn -[measurement_name run_flag_rest eval_measurement].
    rewrite (values_eval fs ws m m' Hm), Hname.
    destruct (eval_measurement fs ws m') as [[ok stats]|e]; [ | done ].
    cbn -[measurement_name run_flag_rest].
    apply same_run_flag_rest; [ done | done | ].
    intros Hne. apply Hchoice. destruct l; [ done | cbn; lia ]. }
  unfold run_flag. by rewrite Hv, Hname, Hs.
Qed.

Lemma same_run_flags (fs : FileSystem) (flags flags' : list Flag) :
  Forall2 same_on_display flags flags' ->
  forall ws st, run_flags fs ws flags st = run_flags fs ws flags' st.
Proof.
  induction 1 as [|f f' flags flags' Hf Hl IH]; intros ws st; [ done | ].
  cbn [run_flags]. rewrite (same_run_flag fs ws f f' Hf).
  destruct (run_flag fs ws f') as [[ws' stats]|e]; [ | done ].
  cbn. apply IH.
Qed.

Lemma same_validate_flags (fs : FileSystem)
    (cols : list (string * string * string)) (flags flags' : list Flag) :
  Forall2 same_on_display flags flags' ->
  forall i, validate_flags fs cols i flags = validate_flags fs cols i flags'.
Proof.
  induction 1 as [|f f' flags flags' Hf Hl IH]; intros i; [ done | ].
  cbn [validate_flags]. destruct Hf as (_ & _ & _ & Hms & _).
  assert (forall j,
            validate_measurements fs cols i j (measurement_settings f)
            = validate_measurements fs cols i j (measurement_settings f'))
    as ->.
  { induction Hms as [|m m' l l' Hm Hms IHm]; intros j; [ done | ].
    cbn [validate_measurements].
    by rewrite (values_validate fs cols i j m m' Hm), IHm. }
  by rewrite IH.
Qed.

Lemma same_columns (coltype : string) (flags flags' : list Flag) :
  Forall2 same_on_display flags flags' ->
  get_measurement_columns coltype flags
  = get_measurement_columns coltype flags'.
Proof.
  unfold get_measurement_columns.
  induction 1 as [|f f' flags flags' (Hc & Hf & _) Hl IH]; [ done | ].
  cbn [map]. unfold measurement_name at 1 3. by rewrite Hc, Hf, IH.
Qed.

(** X19: the settings of a measurement group that are not on display
    are not read: two groups that show the same settings and values,
    with or without a remover, evaluate alike on every workspace and
    validate alike. *)
Theorem hidden_settings_unread (fs : FileSystem) (ws : Workspace)
    (cols : list (string * string * string)) (i j : nat)
    (has_remover has_remover' : bool) (m m' : MeasurementGroup) :
  measurement_visibles has_remover m = measurement_visibles has_remover' m' ->
  eval_measurement fs ws m = eval_measurement fs ws m'
  /\ validate_measurement fs cols i j m
     = validate_measurement fs cols i j m'.
Proof.
  intros Heq.
  assert (measurement_visibles false m = measurement_visibles false m')
    as Hvalues.
  { by rewrite <- (values_measurement_visibles has_remover m),
      <- (values_measurement_visibles has_remover' m'), Heq. }
  split; [ by apply values_eval | by apply values_validate ].
Qed.

(** X20: what the module shows is what it runs. Two lists of flags
    with the same visible settings, whatever values the settings that
    are not on display hold (the combination choice of a flag with a
    single measurement group, the object of an image criterion, a
    threshold that is switched off, the thresholds of a rules
    criterion), run alike on every workspace, validate alike and
    declare the same columns. *)
Theorem visible_settings_run (fs : FileSystem) (ws : Workspace)
    (cols : list (string * string * string)) (coltype : string)
    (flag_removers flag_removers' : nat -> bool)
    (removers removers' : nat -> nat -> bool) (flags flags' : list Flag) :
  visible_settings flag_removers removers flags
  = visible_settings flag_removers' removers' flags' ->
  run fs ws flags = run fs ws flags'
  /\ validate_module fs cols flags = validate_module fs cols flags'
  /\ get_measurement_columns coltype flags
     = get_measurement_columns coltype flags'.
Proof.
  intros Heq.
  assert (Forall2 same_on_display flags flags') as Hsame.
  { apply flags_values_inj.
    by rewrite <- (values_visible_settings flag_removers removers flags),
      <- (values_visible_settings flag_removers' removers' flags'), Heq. }
  split; [ by apply same_run_flags | ].
  split; [ by apply same_validate_flags | by apply same_columns ].
Qed.

End Display.

Section DataTool.
Context `{Externals}.













End DataTool.

Section ModuleFrameResults.
Context `{ModuleLoader}.

Lemma list_insert_at_before_last_two {A} (l : list A) (a b x : A) :
  list_insert_at (l ++ [a; b]) (-2) x = l ++ [x; a; b].
Proof.
  unfold list_insert_at. rewrite length_app. cbn [length].
  replace (Z.to_nat _) with (length l).
  - by rewrite take_app_length, drop_app_length.
  - change (-2 <? 0) with true. cbn match. lia.
Qed.

Lemma new_category_listed (st : ModuleFiles) (category : string) :
  well_listed st ->
  well_listed (new_category st category)
  /\ is_Some (module_dict (new_category st category) !! category)
  /\ (forall c modules,
        module_dict (new_category st category) !! c = Some modules ->
        module_dict st !! c = Some modules
        \/ (c = category /\ modules = ∅))
  /\ (forall c modules,
        module_dict st !! c = Some modules ->
        module_dict (new_category st category) !! c = Some modules).
Proof.
  intros (Hfiles & Hnd & Hkeys). unfold new_category.
  destruct (decide (category ∈ module_files st)) as [Hin | Hnew].
  - split; [ done | ]. split; [ by apply Hkeys | ]. split; [ by left | done ].
  - destruct Hfiles as (extra & Hfiles). cbn.
    assert (list_insert_at (module_files st) (-2) category
            = standard_categories ++ (extra ++ [category])
              ++ ["Other"; "All"]) as Hinsert.
    { rewrite Hfiles.
      replace (standard_categories ++ extra ++ ["Other"; "All"])
        with ((standard_categories ++ extra) ++ ["Other"; "All"])
        by (by rewrite <- app_assoc).
      rewrite list_insert_at_before_last_two.
      by rewrite <- !app_assoc. }
    assert (forall c, c ∈ list_insert_at (module_files st) (-2) category
                      <-> c = category \/ c ∈ module_files st) as Hmem.
    { intros c. rewrite Hinsert, Hfiles.
      rewrite !elem_of_app, !elem_of_cons, elem_of_nil. tauto. }
    unfold well_listed. cbn [module_files module_dict].
    split_and!.
    + by exists (extra ++ [category]).
    + rewrite Hinsert.
      assert (category :: module_files st
              ≡ₚ standard_categories ++ (extra ++ [category])
                 ++ ["Other"; "All"]) as <-.
      { rewrite Hfiles, (app_assoc standard_categories extra).
        replace (standard_categories ++ (extra ++ [category])
                 ++ ["Other"; "All"])
          with ((standard_categories ++ extra)
                ++ category :: ["Other"; "All"])
          by (by rewrite <- !app_assoc).
        apply Permutation_middle. }
      by constructor.
    + intros c. rewrite Hmem.
      destruct (decide (c = category)) as [-> | Hne].
      * rewrite lookup_insert_eq. split; [ done | by left ].
      * rewrite lookup_insert_ne by done. rewrite <- Hkeys. tauto.
    + by rewrite lookup_insert_eq.
    + intros c modules.
      destruct (decide (c = category)) as [-> | Hne].
      * rewrite lookup_insert_eq. intros [= <-]. by right.
      * rewrite lookup_insert_ne by done. by left.
    + intros c modules Hc.
      destruct (decide (c = category)) as [-> | Hne].
      * destruct Hnew. apply Hkeys. by rewrite Hc.
      * by rewrite lookup_insert_ne.
Qed.


Lemma add_categories_listed (module : ModuleClass) (mn : string)
    (categories : list string) :
  forall st,
    well_listed st ->
    well_listed (add_categories module mn categories st)
    /\ (forall c modules n mn0,
          module_dict (add_categories module mn categories st) !! c
          = Some modules ->
          modules !! n = Some mn0 ->
          (exists modules0,
             module_dict st !! c = Some modules0
             /\ modules0 !! n = Some mn0)
          \/ (mn0 = mn /\ n = module_name module /\ c ∈ categories))
    /\ (forall c n,
          listed st c n ->
          listed (add_categories module mn categories st) c n)
    /\ (forall c,
          c ∈ categories ->
          listed (add_categories module mn categories st) c
            (module_name module)).
Proof.
  induction categories as [|c0 categories IH]; intros st Hst;
    cbn [add_categories].
  - split; [ done | ]. split; [ | split; [ done | ] ].
    + intros c modules n mn0 Hc Hn. left. by exists modules.
    + intros c Hin. by apply elem_of_nil in Hin.
  - destruct (new_category_listed st c0 Hst)
      as (Hst1 & [modules0 Hc0] & Hback & Hfwd).
    rewrite Hc0.
    set (st1 := new_category st c0) in *.
    set (st2 := {| module_files := module_files st1;
                   module_dict :=
                     <[c0 := <[module_name module := mn]> modules0]>
                       (module_dict st1) |}).
    assert (well_listed st2) as Hst2.
    { destruct Hst1 as (Hfiles & Hnd & Hkeys).
      split; [ done | ]. split; [ done | ].
      intros c. cbn [module_files module_dict st2].
      destruct (decide (c = c0)) as [-> | Hne].
      - rewrite lookup_insert_eq, Hkeys, Hc0. done.
      - by rewrite lookup_insert_ne. }
    destruct (IH st2 Hst2) as (Hst' & Hsound & Hkeep & Hnew).
    assert (listed st2 c0 (module_name module)) as Hlisted.
    { eexists. cbn [module_dict st2]. rewrite lookup_insert_eq.
      split; [ done | ]. by rewrite lookup_insert_eq. }
    assert (forall c n, listed st c n -> listed st2 c n) as Hkeep2.
    { intros c n (modules & Hc%Hfwd & Hn).
      cbn [module_dict st2]. unfold listed. cbn [module_dict st2].
      destruct (decide (c = c0)) as [-> | Hne].
      - rewrite lookup_insert_eq. eexists. split; [ done | ].
        assert (modules = modules0) as -> by congruence.
        apply lookup_insert_is_Some'. by right.
      - rewrite lookup_insert_ne by done. by exists modules. }
    split; [ done | ]. split; [ | split ].
    + intros c modules n mn0 Hc Hn.
      destruct (Hsound c modules n mn0 Hc Hn)
        as [(modules2 & Hc2 & Hn2) | (-> & -> & Hin)];
        [ | right; split_and!; [ done | done | by right ] ].
      cbn [module_dict st2] in Hc2.
      destruct (decide (c = c0)) as [-> | Hne].
      * rewrite lookup_insert_eq in Hc2. injection Hc2 as <-.
        destruct (decide (n = module_name module)) as [-> | Hn'].
        -- rewrite lookup_insert_eq in Hn2. injection Hn2 as <-.
           right. split_and!; [ done | done | by left ].
        -- rewrite lookup_insert_ne in Hn2 by done.
           destruct (Hback c0 modules0 Hc0) as [Hold | [_ ->]];
             [ left; by exists modules0 | ].
           by rewrite lookup_empty in Hn2.
      * rewrite lookup_insert_ne in Hc2 by done.
        destruct (Hback c modules2 Hc2) as [Hold | [_ ->]];
          [ left; by exists modules2 | ].
        by rewrite lookup_empty in Hn2.
    + intros c n Hcn. by apply Hkeep, Hkeep2.
    + intros c [-> | Hin]%elem_of_cons; [ by apply Hkeep | by apply Hnew ].
Qed.

Lemma add_module_listed (names : list string) (st : ModuleFiles)
    (mn : string) :
  well_listed st -> entries_sound names st -> entries_complete names st ->
  well_listed (add_module st mn)
  /\ entries_sound (names ++ [mn]) (add_module st mn)
  /\ entries_complete (names ++ [mn]) (add_module st mn).
Proof.
  intros Hst Hsound Hcomplete. unfold add_module.
  assert (entries_sound (names ++ [mn]) st) as Hsound'.
  { intros c modules n mn0 Hc Hn.
    destruct (Hsound c modules n mn0 Hc Hn) as [Hin Hmodule].
    split; [ | done ]. apply elem_of_app. by left. }
  destruct (get_module_class mn) as [module|e] eqn:Hclass.
  - destruct (is_input_module module) eqn:Hinput.
    + split; [ done | ]. split; [ done | ].
      intros mn0 module0 c [Hin | Hin%list_elem_of_singleton]%elem_of_app
        Hclass0 Hinput0 Hc.
      * by apply (Hcomplete mn0).
      * subst mn0. congruence.
    + destruct (add_categories_listed module mn (categories_of module)
                  st Hst) as (Hst' & Hentries & Hkeep & Hnew).
      split; [ done | ]. split.
      * intros c modules n mn0 Hc Hn.
        destruct (Hentries c modules n mn0 Hc Hn)
          as [(modules0 & Hc0 & Hn0) | (-> & -> & Hin)].
        -- by apply (Hsound' c modules0).
        -- split; [ apply elem_of_app; right; by left | ].
           by exists module.
      * intros mn0 module0 c
          [Hin | Hin%list_elem_of_singleton]%elem_of_app
          Hclass0 Hinput0 Hc.
        -- apply Hkeep. by apply (Hcomplete mn0).
        -- subst mn0. assert (module0 = module) as -> by congruence.
           by apply Hnew.
  - split; [ done | ]. split; [ done | ].
    intros mn0 module0 c [Hin | Hin%list_elem_of_singleton]%elem_of_app
      Hclass0 Hinput0 Hc.
    + by apply (Hcomplete mn0).
    + subst mn0. congruence.
Qed.

Lemma add_modules_listed (module_names : list string) :
  forall names st,
    well_listed st -> entries_sound names st -> entries_complete names st ->
    well_listed (fold_left add_module module_names st)
    /\ entries_sound (names ++ module_names)
         (fold_left add_module module_names st)
    /\ entries_complete (names ++ module_names)
         (fold_left add_module module_names st).
Proof.
  induction module_names as [|mn module_names IH];
    intros names st Hst Hsound Hcomplete; cbn [fold_left].
  - by rewrite app_nil_r.
  - destruct (add_module_listed names st mn Hst Hsound Hcomplete)
      as (Hst' & Hsound' & Hcomplete').
    replace (names ++ mn :: module_names)
      with ((names ++ [mn]) ++ module_names)
      by (by rewrite <- app_assoc).
    by apply IH.
Qed.

Lemma empty_categories (keys : list string) :
  forall (d : gmap string (gmap string string)) c,
    (is_Some (fold_left (fun d key => <[key := ∅]> d) keys d !! c)
     <-> c ∈ keys \/ is_Some (d !! c))
    /\ (forall modules,
          fold_left (fun d key => <[key := ∅]> d) keys d !! c = Some modules ->
          modules = ∅ \/ d !! c = Some modules).
Proof.
  induction keys as [|key keys IH]; intros d c; cbn [fold_left].
  - split; [ | by right ]. rewrite elem_of_nil. tauto.
  - destruct (IH (<[key := ∅]> d) c) as [Hkeys Hempty]. split.
    + rewrite Hkeys, elem_of_cons, lookup_insert_is_Some.
      destruct (decide (key = c)) as [-> | Hne]; [ tauto | ].
      assert (c <> key) by congruence. tauto.
    + intros modules [-> | Hc]%Hempty; [ by left | ].
      apply lookup_insert_Some in Hc as [[_ <-] | [_ Hc]];
        [ by left | by right ].
Qed.

(** X22: the category list of the frame keeps the five standard
    categories first, in order, and "Other" and "All" last, with the
    categories the modules bring in between, each once; its entries are
    the keys of the module dictionary. A module is listed, under its
    name, exactly where it belongs: every module that loads and is not
    an input module is listed under each of its categories and under
    "All", and every entry is the loader of such a module. *)
Theorem get_module_files_listed (module_names : list string) :
  (exists extra,
     module_files (get_module_files module_names)
     = standard_categories ++ extra ++ ["Other"; "All"])
  /\ NoDup (module_files (get_module_files module_names))
  /\ (forall c,
        c ∈ module_files (get_module_files module_names)
        <-> is_Some (module_dict (get_module_files module_names) !! c))
  /\ (forall c modules n mn,
        module_dict (get_module_files module_names) !! c = Some modules ->
        modules !! n = Some mn ->
        mn ∈ module_names
        /\ exists module,
             get_module_class mn = Ok module
             /\ is_input_module module = false
             /\ module_name module = n
             /\ c ∈ categories_of module)
  /\ (forall mn module c,
        mn ∈ module_names ->
        get_module_class mn = Ok module ->
        is_input_module module = false ->
        c ∈ categories_of module ->
        exists modules,
          module_dict (get_module_files module_names) !! c = Some modules
          /\ is_Some (modules !! module_name module)).
Proof.
  unfold get_module_files.
  set (keys := standard_categories ++ ["Other"; "All"]).
  set (st := {| module_files := keys;
                module_dict :=
                  fold_left (fun d key => <[key := ∅]> d) keys ∅ |}).
  assert (well_listed st) as Hst.
  { split; [ by exists [] | ]. split.
    - apply (bool_decide_unpack _). vm_compute. reflexivity.
    - intros c. cbn [module_files module_dict st].
      rewrite (proj1 (empty_categories keys ∅ c)), lookup_empty.
      split; [ by left | ]. intros [? | Hnone]; [ done | ].
      by destruct Hnone. }
  assert (entries_sound [] st) as Hsound.
  { intros c modules n mn Hc Hn. cbn [module_dict st] in Hc.
    destruct (proj2 (empty_categories keys ∅ c) modules Hc) as [-> | Hc'].
    - by rewrite lookup_empty in Hn.
    - by rewrite lookup_empty in Hc'. }
  assert (entries_complete [] st) as Hcomplete.
  { intros mn module c Hin. by apply elem_of_nil in Hin. }
  destruct (add_modules_listed module_names [] st Hst Hsound Hcomplete)
    as ((Hfiles & Hnd & Hkeys) & Hsound' & Hcomplete').
  by split_and!.
Qed.

End ModuleFrameResults.

Section PreparedGroups.

Lemma while_grows {State : Type} (size : State -> nat)
    (test : State -> bool) (body : State -> State) (n : Z) :
  (forall s, test s = (Z.of_nat (size s) <? n)) ->
  (forall s, size (body s) = S (size s)) ->
  forall fuel s,
    (Z.to_nat n <= fuel + size s)%nat ->
    while fuel test body s = Some (Nat.iter (Z.to_nat n - size s) body s).
Proof.
  intros Htest Hbody.
  induction fuel as [|fuel IH]; intros s Hfuel; cbn [while];
    rewrite Htest; destruct (Z.ltb_spec (Z.of_nat (size s)) n) as [Hlt | Hge].
  - lia.
  - by replace (Z.to_nat n - size s)%nat with 0%nat by lia.
  - assert (Z.to_nat n <= fuel + size (body s))%nat as Hnext
      by (rewrite Hbody; lia).
    rewrite (IH (body s) Hnext), Hbody.
    assert (Z.to_nat n - size s = S (Z.to_nat n - S (size s)))%nat as ->
      by lia.
    by rewrite Nat.iter_succ_r.
  - by replace (Z.to_nat n - size s)%nat with 0%nat by lia.
Qed.

Lemma add_measurements (k : nat) (flag : FlagGroup) :
  Nat.iter k (fun flag => add_measurement flag true) flag
  = {| remover := remover flag;
       measurement_removers :=
         measurement_removers flag ++ replicate k true |}.
Proof.
  induction k as [|k IH]; cbn [Nat.iter nat_rect replicate].
  - rewrite app_nil_r. by destruct flag.
  - unfold Nat.iter in IH. rewrite IH. unfold add_measurement; cbn.
    by rewrite <- app_assoc, <- replicate_cons_app.
Qed.

Lemma add_flags (k : nat) (flags : list FlagGroup) :
  Nat.iter k (fun flags => add_flag flags true) flags
  = flags
    ++ replicate k {| remover := true; measurement_removers := [true] |}.
Proof.
  induction k as [|k IH]; cbn [Nat.iter nat_rect replicate].
  - by rewrite app_nil_r.
  - unfold Nat.iter in IH. rewrite IH. unfold add_flag; cbn.
    by rewrite <- app_assoc, <- replicate_cons_app.
Qed.


Lemma index_int_elem (sv : list string) (count : Z) :
  Py.index sv 0 ≫= Py.int = Ok count ->
  exists x, x ∈ sv /\ Py.int x = Ok count.
Proof.
  unfold Py.index. destruct (sv !! 0%nat) as [x|] eqn:Hx; [ | done ].
  cbn. intros Hint. exists x. split; [ | done ].
  by apply list_elem_of_lookup_2 in Hx.
Qed.

Lemma slice_from_elem (sv : list string) (k : Z) (x : string) :
  x ∈ slice_from sv k -> x ∈ sv.
Proof.
  unfold slice_from. destruct (k <? 0); intros Hin;
    match type of Hin with
    | _ ∈ drop ?n _ => rewrite <- (take_drop n sv)
    end; apply elem_of_app; by right.
Qed.

Lemma prepare_groups_built (flags : list FlagGroup) :
  forall sv fuel,
    (forall x z, x ∈ sv -> Py.int x = Ok z -> (Z.to_nat z <= fuel)%nat) ->
    Forall (fun flag => length (measurement_removers flag) = 1%nat) flags ->
    prepare_groups fuel sv flags
    = Some (counts ← prepare_flags sv (length flags);
            Ok (zip_with
                  (fun flag c =>
                     {| remover := remover flag;
                        measurement_removers :=
                          measurement_removers flag
                          ++ replicate (c - 1) true |})
                  flags counts)).
Proof.
  induction flags as [|flag flags IH]; intros sv fuel Hfuel Hone;
    cbn [prepare_groups prepare_flags length]; [ done | ].
  apply Forall_cons in Hone as [Hflag Hone].
  destruct (Py.index sv 0 ≫= Py.int) as [count|e] eqn:Hcount;
    cbn [mbind res_bind]; [ | done ].
  destruct (index_int_elem sv count Hcount) as (x & Hx & Hint).
  rewrite (while_grows (fun flag => length (measurement_removers flag))
             _ _ count)
    by (cbn; try done; try (intros s; unfold add_measurement; cbn;
                            rewrite length_app; cbn; lia);
        rewrite Hflag; pose proof (Hfuel x count Hx Hint); lia).
  rewrite add_measurements, Hflag. cbn [mbind option_bind].
  rewrite IH; [ | | done ].
  - cbn [mbind option_bind].
    destruct (prepare_flags _ (length flags)) as [rest|e]; [ | done ].
    cbn.
    by replace (Z.to_nat (Z.max 1 count) - 1)%nat
      with (Z.to_nat count - 1)%nat by lia.
  - intros y z Hy. apply Hfuel. by apply slice_from_elem in Hy.
Qed.

(** X14: [prepare_settings] always returns: its loops end, whatever the
    list. It raises only for a count that cannot be read; otherwise it
    has built one flag or as many as the list says, whichever is
    greater, and in each flag one measurement group or as many as the
    list says for it. The first flag has no remover and every other
    flag has one; the first measurement group of a flag has a remover
    when the flag has one, and every other group has one. *)
Theorem prepare_settings_builds (sv : list string) :
  exists fuel0,
    forall fuel, (fuel0 <= fuel)%nat ->
      exists result,
        prepare_settings_groups fuel sv = Some result
        /\ match result with
           | Raise e =>
               prepare_settings sv = Raise e /\ lookup_or_parse_error e
           | Ok flags =>
               prepare_settings sv
               = Ok (map (fun flag => length (measurement_removers flag))
                       flags)
               /\ (exists flag_count,
                     Py.index sv 0 ≫= Py.int = Ok flag_count
                     /\ length flags = Z.to_nat (Z.max 1 flag_count))
               /\ map remover flags
                  = false :: replicate (length flags - 1) true
               /\ Forall
                    (fun flag =>
                       measurement_removers flag
                       = remover flag
                         :: replicate
                              (length (measurement_removers flag) - 1) true)
                    flags
           end.
Proof.
  set (bound := max_list
                  (map (fun x => match Py.int x with
                                 | Ok z => Z.to_nat z
                                 | Raise _ => 0%nat
                                 end) sv)).
  assert (forall x z, x ∈ sv -> Py.int x = Ok z -> (Z.to_nat z <= bound)%nat)
    as Hbound.
  { intros x z Hx Hint. apply max_list_elem_of_le.
    apply list_elem_of_fmap. exists x. by rewrite Hint. }
  exists bound. intros fuel Hfuel.
  unfold prepare_settings_groups, prepare_settings.
  destruct (Py.index sv 0 ≫= Py.int) as [flag_count|e] eqn:Hcount;
    cbn [mbind res_bind].
  2:{ eexists. split; [ done | ]. split; [ done | ].
      by apply (index_int_error sv 0 e). }
  destruct (index_int_elem sv flag_count Hcount) as (x & Hx & Hint).
  rewrite (while_grows (@length FlagGroup) _ _ flag_count)
    by (cbn; try done; try (intros s; unfold add_flag; cbn;
                            rewrite length_app; cbn; lia);
        pose proof (Hbound x flag_count Hx Hint); lia).
  rewrite add_flags. cbn [mbind option_bind].
  set (first := {| remover := false; measurement_removers := [false] |}).
  set (other := {| remover := true; measurement_removers := [true] |}).
  set (k := (Z.to_nat flag_count - length (add_flag [] false))%nat).
  change (add_flag [] false) with [first] in *.
  assert (length ([first] ++ replicate k other)
          = Z.to_nat (Z.max 1 flag_count)) as Hlen.
  { rewrite length_app, length_replicate. subst k. cbn. lia. }
  rewrite prepare_groups_built.
  - rewrite Hlen.
    destruct (prepare_flags (drop N_FIXED_SETTINGS sv)
                (Z.to_nat (Z.max 1 flag_count))) as [counts|e] eqn:Hrun;
      cbn [mbind res_bind].
    2:{ eexists. split; [ done | ]. split; [ done | ].
        by apply (prepare_flags_error _ _ _ Hrun). }
    destruct (prepare_flags_counts _ _ _ Hrun) as [Hcounts Hall].
    eexists. split; [ done | ]. cbn beta iota.
    destruct counts as [|c counts]; [ cbn in Hcounts; lia | ].
    apply Forall_cons in Hall as [Hc Hall].
    assert (length counts = k) as Hk.
    { cbn in Hlen, Hcounts. rewrite length_replicate in Hlen. lia. }
    cbn [app zip_with map length].
    assert (forall l : list nat,
              length l = k ->
              Forall (fun c => (1 <= c)%nat) l ->
              let built :=
                zip_with
                  (fun flag c =>
                     {| remover := remover flag;
                        measurement_removers :=
                          measurement_removers flag
                          ++ replicate (c - 1) true |})
                  (replicate k other) l in
              map (fun flag => length (measurement_removers flag)) built = l
              /\ length built = k
              /\ map remover built = replicate k true
              /\ Forall
                   (fun flag =>
                      measurement_removers flag
                      = remover flag
                        :: replicate
                             (length (measurement_removers flag) - 1) true)
                   built) as Hothers.
    { clear. induction k as [|k IH]; intros [|c l] Hl Hall; try done.
      injection Hl as Hl. apply Forall_cons in Hall as [Hc Hall].
      destruct (IH l Hl Hall) as (Hmap & Hlen & Hrem & Hgroups).
      cbn [replicate zip_with map length]. cbn zeta in *.
      rewrite Hmap, Hlen, Hrem. split_and!; try done.
      - f_equal. cbn. rewrite length_replicate. lia.
      - constructor; [ | done ]. cbn. rewrite length_replicate.
        by replace (c - 1 - 0)%nat with (c - 1)%nat by lia. }
    destruct (Hothers counts Hk Hall) as (Hmap & Hbuilt & Hrem & Hgroups).
    cbn zeta in *. rewrite Hmap, Hbuilt, Hrem.
    split_and!.
    + do 2 f_equal. cbn. rewrite length_replicate. lia.
    + exists flag_count. split; [ done | ]. cbn in Hcounts. lia.
    + cbn. by rewrite Nat.sub_0_r.
    + constructor; [ | done ]. cbn. rewrite length_replicate.
      by replace (c - 1 - 0)%nat with (c - 1)%nat by lia.
  - intros y z Hy Hyz. etrans; [ | exact Hfuel ].
    apply (Hbound y z); [ | done ].
    rewrite <- (take_drop N_FIXED_SETTINGS sv). apply elem_of_app. by right.
  - apply Forall_app. split; [ by repeat constructor | ].
    by apply Forall_replicate.
Qed.

End PreparedGroups.

(** ** The further results on concrete inputs *)

Section FurtherInstances.
Import Sample.
Import Examples.
#[local] Existing Instance Sample.externals.

(** Fail, pass, fail under "Flag if any fail": the flag is written as
    1. *)
Lemma run_flag_any_all_witness :
  let results :=
    [(false, ("Image", "Blur", "<value>", "Fail"));
     (true, ("Image", "Focus", "<value>", "Pass"));
     (false, ("Image", "Blur", "<value>", "Fail"))] in
  exists ws',
    run_flag disk workspace fail_pass_fail
    = Ok (ws', flag_rows fail_pass_fail results)
    /\ image_measurements (measurements ws') !! "Metadata_QCFlag"
       = Some (MInt 1).
Proof.
  intros results.
  assert (results <> []) as Hne by discriminate.
  assert (Forall2 (fun ms r => eval_measurement disk workspace ms = Ok r)
            (measurement_settings fail_pass_fail) results) as Hres.
  { repeat constructor; vm_compute; reflexivity. }
  destruct (run_flag_any_all disk workspace fail_pass_fail results Hne Hres
              (or_introl eq_refl))
    as (ws' & v & Hrun & Hv & _ & Hany & _).
  exists ws'. split; [ exact Hrun | ].
  assert (v = 1) as <-; [ | exact Hv ].
  apply (Hany eq_refl). by left.
Defined.

(** The second of three criteria reads a measurement that is missing:
    the flag raises its [KeyError], although the first criterion has
    failed already under "Flag if any fail". *)
Lemma run_flag_first_error_witness :
  eval_measurement disk workspace blurred
  = Ok (false, ("Image", "Blur", "<value>", "Fail"))
  /\ run_flag disk workspace interrupted = Raise (KeyError "Missing").
Proof.
  assert (eval_measurement disk workspace blurred
          = Ok (false, ("Image", "Blur", "<value>", "Fail"))) as Hfirst.
  { vm_compute; reflexivity. }
  split; [ exact Hfirst | ].
  assert (eval_measurement disk workspace missing
          = Raise (KeyError "Missing")) as Hraise.
  { vm_compute; reflexivity. }
  assert (Forall2 (fun m r => eval_measurement disk workspace m = Ok r)
            [blurred] [(false, ("Image", "Blur", "<value>", "Fail"))])
    as Hpre.
  { by repeat constructor. }
  exact (proj2 (run_flag_first_error disk workspace interrupted
                  [blurred] _ missing [focused] (KeyError "Missing")
                  eq_refl Hpre Hraise (or_introl (le_n 1)))).
Defined.

(** "Flag if most fail" is not implemented: it raises with two criteria
    and goes unnoticed with one; a flag without criterion raises
    [IndexError]. *)
Lemma run_flag_combination_choice_witness :
  run_flag_verdict disk workspace most_of_one
  = Ok (false, [("Metadata_QCFlag", ("Image", "Blur", "<value>", "Fail"))])
  /\ run_flag disk workspace most
     = Raise (NotImplementedError
                "Unimplemented combination choice: Flag if most fail")
  /\ run_flag disk workspace empty = Raise IndexError.
Proof.
  assert (eval_measurement disk workspace blurred
          = Ok (false, ("Image", "Blur", "<value>", "Fail"))) as Hfirst.
  { vm_compute; reflexivity. }
  assert (eval_measurement disk workspace focused
          = Ok (true, ("Image", "Focus", "<value>", "Pass"))) as Hsecond.
  { vm_compute; reflexivity. }
  split; [ | split ].
  - exact (proj1 (run_flag_combination_choice disk workspace most_of_one)
             blurred _ eq_refl Hfirst).
  - apply (proj1 (proj2 (run_flag_combination_choice disk workspace most))
             blurred focused [] _ _ eq_refl Hfirst Hsecond);
      discriminate.
  - exact (proj2 (proj2 (run_flag_combination_choice disk workspace empty))
             eq_refl).
Defined.

(** The module of two flags, with one and two criteria: three rows. *)
Lemma run_rows_witness :
  exists ws' statistics,
    run disk workspace module_flags = Ok (ws', statistics)
    /\ map fst statistics
       = ["Metadata_QCFlag"; "Metadata_Blurry"; "Metadata_Blurry"]
    /\ length statistics = 3%nat.
Proof.
  destruct (run disk workspace module_flags) as [[ws' statistics]|e]
    eqn:Hrun; [ | vm_compute in Hrun; discriminate ].
  exists ws', statistics. split; [ reflexivity | ].
  exact (run_rows disk workspace ws' module_flags statistics Hrun).
Defined.

(** After the run of the two flags both are bound, "Focus" is as it was
    and the object measurements are untouched. *)
Lemma run_store_witness :
  exists ws' statistics,
    run disk workspace module_flags = Ok (ws', statistics)
    /\ (image_measurements (measurements ws') !! "Metadata_Blurry"
        = Some (MInt 0)
        \/ image_measurements (measurements ws') !! "Metadata_Blurry"
           = Some (MInt 1))
    /\ image_measurements (measurements ws') !! "Focus"
       = Some (MFloat 0.5)
    /\ object_measurements (measurements ws') = object_measurements store.
Proof.
  destruct (run disk workspace module_flags) as [[ws' statistics]|e]
    eqn:Hrun; [ | vm_compute in Hrun; discriminate ].
  exists ws', statistics. split; [ reflexivity | ].
  destruct (run_store disk workspace ws' module_flags statistics "integer"
              Hrun) as (Hbound & Hkept & Hobjects & _).
  split; [ | split ].
  - apply (Hbound blurry). right; left.
  - rewrite (Hkept "Focus"); [ vm_compute; reflexivity | ].
    intros Hin. vm_compute in Hin.
    apply elem_of_cons in Hin as [Hin | Hin]; [ discriminate | ].
    apply elem_of_cons in Hin as [Hin | Hin]; [ discriminate | ].
    by apply elem_of_nil in Hin.
  - exact Hobjects.
Defined.

(** An image set that is to be skipped stays so after a flag that is not
    raised; the module of two flags, whose first flag wants skipping and
    is raised, asks to skip the image set. *)
Lemma run_disposition_witness :
  (exists ws' statistics,
     run disk skipped [unflagged] = Ok (ws', statistics)
     /\ disposition ws' = DISPOSITION_SKIP)
  /\ (exists ws' statistics,
        run disk workspace module_flags = Ok (ws', statistics)
        /\ image_measurements (measurements ws') !! "Metadata_QCFlag"
           = Some (MInt 1)
        /\ disposition workspace = DISPOSITION_CONTINUE
        /\ disposition ws' = DISPOSITION_SKIP).
Proof.
  split.
  - destruct (run disk skipped [unflagged]) as [[ws' statistics]|e]
      eqn:Hrun; [ | vm_compute in Hrun; discriminate ].
    exists ws', statistics. split; [ reflexivity | ].
    exact (proj1 (run_disposition disk skipped ws' [unflagged] statistics
                    Hrun) eq_refl).
  - assert (exists ws' statistics,
              run disk workspace module_flags = Ok (ws', statistics)
              /\ image_measurements (measurements ws') !! "Metadata_QCFlag"
                 = Some (MInt 1)) as (ws' & statistics & Hrun & Hone).
    { eexists _, _. split; vm_compute; reflexivity. }
    exists ws', statistics.
    split; [ exact Hrun | ]. split; [ exact Hone | ].
    split; [ reflexivity | ].
    assert (NoDup (map measurement_name module_flags)) as Hnd.
    { apply NoDup_cons. split; [ | apply NoDup_singleton ].
      intros Hin%list_elem_of_singleton. discriminate. }
    apply (proj1 (proj2 (proj2 (run_disposition disk workspace ws'
                                  module_flags statistics Hrun))) Hnd).
    right. exists flagged. split; [ left | ]. split; [ reflexivity | ].
    exact Hone.
Defined.

(** The flag "Metadata_QCFlag" of the module of two flags is declared
    as a category, a feature and an integer column of the image. *)
Lemma declarations_agree_witness :
  flagged ∈ module_flags
  /\ "Metadata" ∈ get_categories module_flags "Image"
  /\ "QCFlag" ∈ get_measurements module_flags "Image" "Metadata"
  /\ ("Image", "Metadata_QCFlag", "integer")
     ∈ get_measurement_columns "integer" module_flags
  /\ get_categories module_flags "Nuclei" = [].
Proof.
  assert (flagged ∈ module_flags) as Hin by left.
  split; [ exact Hin | ].
  destruct (declarations_agree module_flags "integer")
    as (Hflags & _ & _ & Hother).
  destruct (Hflags flagged Hin) as (Hcategory & Hfeature & Hcolumn).
  split; [ exact Hcategory | ]. split; [ exact Hfeature | ].
  split; [ exact Hcolumn | ].
  apply (Hother "Nuclei" "Metadata"). discriminate.
Defined.

(** "Focus" is NaN, below no minimum and above no maximum: the
    criterion passes; so do the criteria on the areas of "Cells", whose
    mean, minimum and maximum are NaN. *)
Lemma nan_passes_witness :
  eval_measurement disk nan_workspace focused
  = Ok (true, ("Image", "Focus", "<value>", "Pass"))
  /\ eval_measurement disk nan_workspace
       (object_criterion S_AVERAGE_OBJECT "Cells" "Area")
     = Ok (true, ("Ave. Cells", "Area", "<value>", "Pass"))
  /\ exists shown,
       eval_measurement disk nan_workspace
         (object_criterion S_ALL_OBJECTS "Cells" "Area")
       = Ok (true, ("Cells", "Area", shown, "Pass")).
Proof.
  split; [ | split ].
  - exact (proj1 (nan_passes disk nan_workspace focused)
             PrimFloat.nan eq_refl eq_refl eq_refl).
  - assert ([PrimFloat.nan; 1%float] <> []) as Hne by discriminate.
    exact (proj1 (proj2 (nan_passes disk nan_workspace
                           (object_criterion S_AVERAGE_OBJECT "Cells"
                              "Area")))
             [PrimFloat.nan; 1%float] eq_refl eq_refl Hne eq_refl).
  - assert ([PrimFloat.nan; 1%float] <> []) as Hne by discriminate.
    exact (proj2 (proj2 (nan_passes disk nan_workspace
                           (object_criterion S_ALL_OBJECTS "Cells" "Area")))
             [PrimFloat.nan; 1%float] eq_refl eq_refl Hne eq_refl eq_refl).
Defined.

(** Two rules criteria that differ in thresholds, measurement and object
    only. *)
Lemma rules_ignore_thresholds_witness :
  eval_measurement disk workspace other_rules_criterion
  = eval_measurement disk workspace (rules_criterion ["1"]).
Proof.
  exact (rules_ignore_thresholds disk workspace (rules_criterion ["1"])
           other_rules_criterion eq_refl eq_refl eq_refl eq_refl eq_refl).
Defined.

(** "Focus" is in the sample store and "Missing" is not; the areas of
    "Cells" are and those of "Cytoplasm" are not. *)
Lemma threshold_criterion_returns_witness :
  (exists r, eval_measurement disk workspace focused = Ok r)
  /\ eval_measurement disk workspace missing = Raise (KeyError "Missing")
  /\ (exists r,
        eval_measurement disk workspace
          (object_criterion S_ALL_OBJECTS "Cells" "Area") = Ok r)
  /\ eval_measurement disk workspace
       (object_criterion S_AVERAGE_OBJECT "Cytoplasm" "Area")
     = Raise (KeyError "Area")
  /\ eval_measurement disk workspace
       (object_criterion "Median object" "Cells" "Area")
     = Raise (NotImplementedError
                "Source choice of Median object not implemented").
Proof.
  split; [ | split; [ | split; [ | split ] ] ].
  - exact (proj1 (threshold_criterion_returns disk workspace focused)
             eq_refl).
  - exact (proj1 (threshold_criterion_returns disk workspace missing)
             eq_refl).
  - exact (proj1 (proj2 (threshold_criterion_returns disk workspace
                           (object_criterion S_ALL_OBJECTS "Cells" "Area")))
             (or_intror eq_refl)).
  - exact (proj1 (proj2 (threshold_criterion_returns disk workspace
                           (object_criterion S_AVERAGE_OBJECT "Cytoplasm"
                              "Area")))
             (or_introl eq_refl)).
  - apply (proj2 (proj2 (threshold_criterion_returns disk workspace
                           (object_criterion "Median object" "Cells"
                              "Area")))).
    intros Hin. vm_compute in Hin.
    repeat (apply elem_of_cons in Hin as [Hin | Hin]; [ discriminate | ]).
    by apply elem_of_nil in Hin.
Defined.

(** The migrated revision-1 list is left as it is by a second
    migration. *)
Lemma upgrade_settings_settles_witness :
  upgrade_settings (layout_v1 "1" legacy_flags) 1 "FlagImage" false
  = Ok (layout_v4 "1" legacy_flags, 4, false)
  /\ upgrade_settings (layout_v4 "1" legacy_flags) 4 "FlagImage" false
     = Ok (layout_v4 "1" legacy_flags, 4, false).
Proof.
  assert (upgrade_settings (layout_v1 "1" legacy_flags) 1 "FlagImage" false
          = Ok (layout_v4 "1" legacy_flags, 4, false)) as Hrun.
  { vm_compute; reflexivity. }
  split; [ exact Hrun | ].
  exact (proj1 (upgrade_settings_settles _ _ _ _ _ _ _ Hrun)).
Defined.

(** The saved module of two flags, with two and one measurement groups:
    41 values, read back as two flags with two and one groups. *)
Lemma settings_prepare_settings_witness :
  prepare_settings (settings saved_flags) = Ok [2; 1]%nat
  /\ length (settings saved_flags) = 41%nat.
Proof.
  assert (saved_flags <> []) as Hne by discriminate.
  destruct (settings_prepare_settings saved_flags Hne)
    as (Hread & Hlength & _).
  split; [ exact Hread | exact Hlength ].
Defined.

(** The migrated sample list builds one flag with two measurement
    groups, and is the list the migrated flag saves. *)
Lemma migrated_settings_prepare_witness :
  exists sv,
    upgrade_settings (layout_v1 "1" legacy_flags) 1 "FlagImage" false
    = Ok (sv, 4, false)
    /\ prepare_settings sv = Ok [2%nat]
    /\ sv = settings (map migrated_text legacy_flags).
Proof.
  assert (legacy_well_formed "1" legacy_flags) as Hwf.
  { split; [ reflexivity | repeat constructor ]. }
  assert (legacy_flags <> []) as Hne by discriminate.
  destruct (migrated_settings_prepare "1" legacy_flags "FlagImage" Hwf Hne)
    as (sv & Hrun & Hread & Hsaved).
  exists sv. split; [ exact Hrun | ]. split; [ exact Hread | ].
  apply Hsaved; [ reflexivity | repeat constructor ].
Defined.

(** The saved module of two flags, with two and one measurement
    groups: the first flag and its first group have no remover, every
    other flag and group has one. *)
Lemma prepare_settings_builds_witness :
  prepare_settings_groups 2 (settings saved_flags)
  = Some (Ok [ {| remover := false;
                  measurement_removers := [false; true] |};
               {| remover := true; measurement_removers := [true] |} ])
  /\ exists fuel0,
       forall fuel, (fuel0 <= fuel)%nat ->
         exists flags,
           prepare_settings_groups fuel (settings saved_flags)
           = Some (Ok flags)
           /\ map (fun flag => length (measurement_removers flag)) flags
              = [2; 1]%nat
           /\ map remover flags = [false; true].
Proof.
  split; [ vm_compute; reflexivity | ].
  destruct (prepare_settings_builds (settings saved_flags))
    as (fuel0 & Hbuilt).
  exists fuel0. intros fuel Hfuel.
  destruct (Hbuilt fuel Hfuel) as (result & Hrun & Hresult).
  assert (prepare_settings (settings saved_flags) = Ok [2; 1]%nat)
    as Hcounts.
  { vm_compute; reflexivity. }
  destruct result as [flags|e].
  - destruct Hresult as (Hread & _ & Hremovers & _).
    rewrite Hcounts in Hread. injection Hread as Hread.
    exists flags. split; [ exact Hrun | ]. split; [ by symmetry | ].
    rewrite Hremovers.
    apply (f_equal length) in Hread. rewrite length_map in Hread.
    by rewrite <- Hread.
  - destruct Hresult as [Hraise _]. rewrite Hcounts in Hraise.
    discriminate.
Defined.

(** The rules file on disk has a rule with three classes; without the
    file the chooser offers two. The third choice reads back as 3. *)
Lemma class_choices_witness :
  @get_rules_class_choices externals_rules disk (rules_criterion ["1"])
  = ["1"; "2"; "3"]
  /\ @get_rules_class_choices externals_rules ∅ (rules_criterion ["1"])
     = ["1"; "2"]
  /\ Py.int "3" = Ok 3.
Proof.
  destruct (@class_choices externals_rules disk (rules_criterion ["1"]))
    as (_ & _ & Hfile & Hread & _).
  destruct (@class_choices externals_rules ∅ (rules_criterion ["1"]))
    as (Hmissing & _).
  assert (@get_rules_class_choices externals_rules disk
            (rules_criterion ["1"]) = ["1"; "2"; "3"]) as Hchoices.
  { exact (Hfile {| rules := [focus_rule] |} focus_rule _ [] _
             eq_refl eq_refl eq_refl). }
  split; [ exact Hchoices | ].
  split; [ exact (Hmissing _ eq_refl) | ].
  apply (Hread 2%nat "3"). rewrite Hchoices. reflexivity.
Defined.

(** The module of two flags has no rules criterion and validates on an
    empty disk; the module with a rules criterion does not. *)
Lemma validate_module_sound_witness :
  validate_module ∅ [] module_flags = Ok ()
  /\ validate_module ∅ [] [by_rules] <> Ok ().
Proof.
  split.
  - apply (proj2 (proj2 (validate_module_sound ∅ [] module_flags))).
    repeat constructor; discriminate.
  - intros Hok.
    apply (proj1 (proj1 (validate_module_sound ∅ [] [by_rules])) Hok
             0%nat 1%nat by_rules (rules_criterion ["1"])
             eq_refl eq_refl eq_refl).
    left. reflexivity.
Defined.

(** With the rules file on disk and "Focus" measured earlier, the
    module with a rules criterion validates and its rules load. *)
Lemma validated_rules_load_witness :
  @validate_module externals_rules disk earlier_columns [by_rules] = Ok ()
  /\ @get_rules externals_rules disk (rules_criterion ["1"])
     = Ok {| rules := [focus_rule] |}.
Proof.
  assert (@validate_module externals_rules disk earlier_columns [by_rules]
          = Ok ()) as Hok.
  { vm_compute; reflexivity. }
  split; [ exact Hok | ].
  destruct (@validated_rules_load externals_rules disk earlier_columns
              [by_rules] workspace by_rules (rules_criterion ["1"]) Hok)
    as (loaded & Hget & _); [ left | right; left | reflexivity | ].
  rewrite Hget. vm_compute in Hget. exact (eq_sym Hget).
Defined.

(** One row with the scores [0.79; -0.79]: class 1 is that of the image
    and the criterion fails when it is selected; with no class selected
    the criterion passes. *)
Lemma image_vote_witness :
  eval_measurement disk workspace (rules_criterion ["1"])
  = Ok (false, ("Image", "Rules", "--", "Fail"))
  /\ exists shown,
       eval_measurement disk workspace (rules_criterion [])
       = Ok (true, ("Image", "Rules", shown, "Pass")).
Proof.
  assert (Forall (fun row => length row = ncols one_row) (rows one_row))
    as Hrows.
  { repeat constructor. }
  assert (forall selected,
            get_rules disk (rules_criterion selected)
            = Ok {| rules := [] |}) as Hget.
  { intros selected. vm_compute; reflexivity. }
  split.
  - destruct (proj1 (image_vote disk workspace (rules_criterion ["1"])
                       {| rules := [] |} one_row eq_refl (Hget _) eq_refl
                       (fun E => O_S 1 (eq_sym E)) Hrows)
                _ [0] eq_refl)
      as (passed & Heval & Hfail).
    + repeat constructor.
    + apply NoDup_singleton.
    + assert (passed = false) as ->; [ | exact Heval ].
      apply Hfail. split; [ reflexivity | left ].
  - exact (proj2 (image_vote disk workspace (rules_criterion [])
                    {| rules := [] |} one_row eq_refl (Hget _) eq_refl
                    (fun E => O_S 1 (eq_sym E)) Hrows) eq_refl).
Defined.

(** The object of an image criterion and a maximum that is switched
    off are not on display: the two criteria evaluate alike. *)
Lemma hidden_settings_unread_witness :
  measurement_visibles true (focus_above "None" 1)
  = measurement_visibles true (focus_above "Cells" 0)
  /\ eval_measurement disk workspace (focus_above "None" 1)
     = eval_measurement disk workspace (focus_above "Cells" 0).
Proof.
  assert (measurement_visibles true (focus_above "None" 1)
          = measurement_visibles true (focus_above "Cells" 0)) as Hshown.
  { reflexivity. }
  split; [ exact Hshown | ].
  exact (proj1 (hidden_settings_unread disk workspace [] 0 0 true true
                  _ _ Hshown)).
Defined.

(** Two modules of one flag with one criterion that differ in the
    combination choice and in the hidden settings of the criterion show
    the same settings and run alike. *)
Lemma visible_settings_run_witness :
  let flags := [flag C_ANY true [focus_above "None" 1]] in
  let flags' := [flag C_ALL true [focus_above "Cells" 0]] in
  visible_settings (fun _ => false) (fun _ => first_only) flags
  = visible_settings (fun _ => false) (fun _ => first_only) flags'
  /\ run disk workspace flags = run disk workspace flags'.
Proof.
  intros flags flags'.
  assert (visible_settings (fun _ => false) (fun _ => first_only) flags
          = visible_settings (fun _ => false) (fun _ => first_only) flags')
    as Hshown.
  { reflexivity. }
  split; [ exact Hshown | ].
  exact (proj1 (visible_settings_run disk workspace [] "integer"
                  _ _ _ _ flags flags' Hshown)).
Defined.


(** The new category "Texture" comes before "Other" and "All", and the
    module that brought it is listed under it. *)
Lemma get_module_files_listed_witness :
  module_files (@get_module_files sample_loader sample_module_names)
  = ["File Processing"; "Image Processing"; "Object Processing";
     "Measurement"; "Data Tools"; "Texture"; "Other"; "All"]
  /\ exists modules,
       module_dict (@get_module_files sample_loader sample_module_names)
       !! "Texture" = Some modules
       /\ is_Some (modules !! "MeasureTexture").
Proof.
  split; [ vm_compute; reflexivity | ].
  apply (proj2 (proj2 (proj2 (proj2 (@get_module_files_listed
                                       sample_loader sample_module_names))))
           "MeasureTexture"
           {| is_input_module := false;
              module_category := inr ["Measurement"; "Texture"];
              module_name := "MeasureTexture" |} "Texture");
    [ | reflexivity | reflexivity | ].
  - do 3 right. left.
  - right. left.
Defined.

End FurtherInstances.
